(** * Magnus core: the graph execution engine, embedded in Rocq

    A shallow embedding of [magnus/nodes.py], [magnus/executor.py] and
    [magnus/pipeline.py].  Python dictionaries with string keys are finite
    maps ([gmap string _]) where only lookups matter and association lists
    where the insertion order is observable; exceptions are an explicit
    [result] type; the run log store and the process environment are
    threaded through the executor state. *)

From Stdlib Require Import ZArith Ascii String.
From stdpp Require Import base option list gmap strings pretty.

Set Warnings "-register-all".
Open Scope string_scope.

(* ===================================================================== *)
(** ** Python values, exceptions and builtins *)
(* ===================================================================== *)

(** The exceptions that the modelled code raises or lets through.  An
    exception raised by the user's own command is an [Exception] with its
    text.  [OutOfFuel] is not a Python exception: it marks a traversal cut
    short by the step bound of the model. *)
Inductive exn :=
| KeyError (key : string)
| TypeError
| ValueError
| AttributeError
| NotImplementedError
| NodeNotFoundError
| StepLogNotFoundError
| BranchLogNotFoundError
| RunLogNotFoundError
| Exception (msg : string)
| OutOfFuel.

(** A computation either returns or raises. *)
Inductive result (A : Type) :=
| Ok (a : A)
| Raise (e : exn).
Arguments Ok {A} a.
Arguments Raise {A} e.

#[export] Instance result_ret : MRet result := fun _ a => Ok a.
#[export] Instance result_bind : MBind result := fun _ _ f m =>
  match m with
  | Ok a => f a
  | Raise e => Raise e
  end.

Definition is_ok {A} (r : result A) : bool :=
  match r with Ok _ => true | Raise _ => false end.

(** Values of the loaded YAML/JSON documents (configs and parameters).
    Floating point values are not part of the model. *)
Inductive pyval :=
| PNone
| PBool (b : bool)
| PInt (z : Z)
| PStr (s : string)
| PList (l : list pyval)
| PDict (d : list (string * pyval)).

(** Python truthiness ([if x:], [x or y], [not x]). *)
Definition truthy (v : pyval) : bool :=
  match v with
  | PNone => false
  | PBool b => b
  | PInt z => negb (z =? 0)%Z
  | PStr s => negb (String.eqb s "")
  | PList l => match l with [] => false | _ => true end
  | PDict d => match d with [] => false | _ => true end
  end.

(** [x or y] *)
Definition py_or (x y : pyval) : pyval := if truthy x then x else y.

(** The parts of the builtins [int] and [str] that depend on Python's
    lexical conventions are left abstract: parsing a string as an integer,
    and printing a value that is not already a string. *)
Class PyBuiltins := {
  int_of_str : string -> result Z;
  repr_other : pyval -> string
}.

Section Builtins.
Context `{PyBuiltins}.

  (** [int(v)] *)
Definition py_int (v : pyval) : result Z :=
    match v with
    | PInt z => Ok z
    | PBool b => Ok (if b then 1 else 0)%Z
    | PStr s => int_of_str s
    | PNone | PList _ | PDict _ => Raise TypeError
    end.

  (** [str(v)] *)
Definition py_str (v : pyval) : string :=
    match v with
    | PStr s => s
    | _ => repr_other v
    end.
End Builtins.

(** [isinstance(v, list)] *)
Definition is_list (v : pyval) : bool :=
  match v with PList _ => true | _ => false end.

(** [s[n:]] *)
Fixpoint string_drop (n : nat) (s : string) : string :=
  match n, s with
  | O, _ => s
  | S n', String _ s' => string_drop n' s'
  | S _, EmptyString => EmptyString
  end.

(** [s.replace(old, new, 1)]: the leftmost occurrence of [old], if there
    is one, is replaced by [new]. *)
Fixpoint replace_first (old new s : string) : string :=
  if String.prefix old s then new +:+ string_drop (String.length old) s
  else match s with
       | EmptyString => EmptyString
       | String c s' => String c (replace_first old new s')
       end.

(** [c in s] for a one-character [c]. *)
Fixpoint occurs (c : ascii) (s : string) : bool :=
  match s with
  | EmptyString => false
  | String d s' => Ascii.eqb c d || occurs c s'
  end.

(* ===================================================================== *)
(** ** defaults *)
(* ===================================================================== *)

(** Modelled from the spec: the module [magnus/defaults.py] is not part of
    the sources at hand.  The status constants [defaults.PROCESSING],
    [defaults.SUCCESS], [defaults.FAIL] and [defaults.TRIGGERED] are the
    four statuses of the data model; [defaults.MAP_PLACEHOLDER] is the
    reserved character [%]; [defaults.DAG_BRANCH_NAME] is [dag]. *)
Inductive status := PROCESSING | SUCCESS | FAIL | TRIGGERED.

#[export] Instance status_eq_dec : EqDecision status.
Proof. solve_decision. Defined.

Definition MAP_PLACEHOLDER : string := "%".
Definition DAG_BRANCH_NAME : string := "dag".

(* ===================================================================== *)
(** ** datastore: the run log and its store *)
(* ===================================================================== *)

(** Modelled from the spec: the module [magnus/datastore.py] is not part of
    the sources at hand.  The records below carry the attributes of the
    data model that the engine reads or writes.  Wall-clock attributes
    ([start_time], [end_time], [duration]), code identities and user
    metrics are left out: the engine only ever copies them. *)

(** A data catalog, the record of a file that the catalog handler has
    synced: its name, its content hash and the stage ([get] or [put]) of
    the sync (section 3). *)
Record DataCatalog := {
  dc_name : string;
  data_hash : string;
  dc_stage : string
}.

(** An attempt log.  [attempt_numner] is the attribute that [execute_node]
    writes on the log (spelled as in the source). *)
Record AttemptLog := {
  attempt_numner : Z;
  al_status : status;
  al_message : string
}.

Record StepLog := {
  sl_name : string;
  sl_internal_name : string;
  step_type : string;
  sl_status : status;
  mock : bool;
  sl_message : string;
  attempts : list AttemptLog;
  data_catalogs : list DataCatalog
}.

Record BranchLog := {
  bl_internal_name : string;
  bl_status : status
}.

(** A run log.  Step logs and branch logs are addressed by their effective
    dot-path names; the model keeps them in two maps keyed by these names.
    A branch log belongs to the step log of its composite node (section 3):
    the store reaches it only through that step log, see [get_branch_log]
    and [add_branch_log] below. *)
Record RunLog := {
  rl_run_id : string;
  rl_dag_hash : string;
  rl_tag : string;
  rl_use_cached : bool;
  original_run_id : option string;
  rl_status : status;
  parameters : gmap string pyval;
  steps : gmap string StepLog;
  branches : gmap string BranchLog
}.

Abbreviation RunLogStore := (gmap string RunLog).

(** What [get_branch_log] hands back: "could be a branch or run log". *)
Inductive RunOrBranchLog :=
| IsRunLog (r : RunLog)
| IsBranchLog (b : BranchLog).

Definition set_attempt_numner (n : Z) (a : AttemptLog) : AttemptLog :=
  {| attempt_numner := n; al_status := al_status a; al_message := al_message a |}.

Definition set_attempt_status (s : status) (a : AttemptLog) : AttemptLog :=
  {| attempt_numner := attempt_numner a; al_status := s; al_message := al_message a |}.

Definition set_attempt_message (m : string) (a : AttemptLog) : AttemptLog :=
  {| attempt_numner := attempt_numner a; al_status := al_status a; al_message := m |}.

Definition set_step_type (t : string) (l : StepLog) : StepLog :=
  {| sl_name := sl_name l; sl_internal_name := sl_internal_name l; step_type := t;
     sl_status := sl_status l; mock := mock l; sl_message := sl_message l;
     attempts := attempts l;
     data_catalogs := data_catalogs l |}.

Definition set_step_status (s : status) (l : StepLog) : StepLog :=
  {| sl_name := sl_name l; sl_internal_name := sl_internal_name l;
     step_type := step_type l; sl_status := s; mock := mock l;
     sl_message := sl_message l; attempts := attempts l;
     data_catalogs := data_catalogs l |}.

Definition set_step_mock (b : bool) (l : StepLog) : StepLog :=
  {| sl_name := sl_name l; sl_internal_name := sl_internal_name l;
     step_type := step_type l; sl_status := sl_status l; mock := b;
     sl_message := sl_message l; attempts := attempts l;
     data_catalogs := data_catalogs l |}.

Definition set_step_message (m : string) (l : StepLog) : StepLog :=
  {| sl_name := sl_name l; sl_internal_name := sl_internal_name l;
     step_type := step_type l; sl_status := sl_status l; mock := mock l;
     sl_message := m; attempts := attempts l;
     data_catalogs := data_catalogs l |}.

(** [step_log.attempts.append(attempt_log)] *)
Definition append_attempt (a : AttemptLog) (l : StepLog) : StepLog :=
  {| sl_name := sl_name l; sl_internal_name := sl_internal_name l;
     step_type := step_type l; sl_status := sl_status l; mock := mock l;
     sl_message := sl_message l; attempts := attempts l ++ [a];
     data_catalogs := data_catalogs l |}.

(** [step_log.data_catalogs], as [add_data_catalogs] leaves it. *)
Definition set_data_catalogs (d : list DataCatalog) (l : StepLog) : StepLog :=
  {| sl_name := sl_name l; sl_internal_name := sl_internal_name l;
     step_type := step_type l; sl_status := sl_status l; mock := mock l;
     sl_message := sl_message l; attempts := attempts l; data_catalogs := d |}.

Definition set_branch_status (s : status) (b : BranchLog) : BranchLog :=
  {| bl_internal_name := bl_internal_name b; bl_status := s |}.

Definition set_run_status (s : status) (r : RunLog) : RunLog :=
  {| rl_run_id := rl_run_id r; rl_dag_hash := rl_dag_hash r; rl_tag := rl_tag r;
     rl_use_cached := rl_use_cached r; original_run_id := original_run_id r;
     rl_status := s; parameters := parameters r; steps := steps r;
     branches := branches r |}.

Definition set_run_parameters (p : gmap string pyval) (r : RunLog) : RunLog :=
  {| rl_run_id := rl_run_id r; rl_dag_hash := rl_dag_hash r; rl_tag := rl_tag r;
     rl_use_cached := rl_use_cached r; original_run_id := original_run_id r;
     rl_status := rl_status r; parameters := p; steps := steps r;
     branches := branches r |}.

Definition set_run_steps (s : gmap string StepLog) (r : RunLog) : RunLog :=
  {| rl_run_id := rl_run_id r; rl_dag_hash := rl_dag_hash r; rl_tag := rl_tag r;
     rl_use_cached := rl_use_cached r; original_run_id := original_run_id r;
     rl_status := rl_status r; parameters := parameters r; steps := s;
     branches := branches r |}.

Definition set_run_branches (b : gmap string BranchLog) (r : RunLog) : RunLog :=
  {| rl_run_id := rl_run_id r; rl_dag_hash := rl_dag_hash r; rl_tag := rl_tag r;
     rl_use_cached := rl_use_cached r; original_run_id := original_run_id r;
     rl_status := rl_status r; parameters := parameters r; steps := steps r;
     branches := b |}.

(** The status of whichever log [get_branch_log] returned, and its
    update ([run_or_branch_log.status = ...]). *)
Definition log_status (l : RunOrBranchLog) : status :=
  match l with
  | IsRunLog r => rl_status r
  | IsBranchLog b => bl_status b
  end.

Definition set_log_status (s : status) (l : RunOrBranchLog) : RunOrBranchLog :=
  match l with
  | IsRunLog r => IsRunLog (set_run_status s r)
  | IsBranchLog b => IsBranchLog (set_branch_status s b)
  end.

(** The name of a branch without its last segment: [name.rsplit('.', 1)[0]],
    the name itself when it has no dot.  By section 4.2 this is the internal
    name of the composite node that the branch belongs to. *)
Fixpoint before_last_dot (s : string) : option string :=
  match s with
  | EmptyString => None
  | String c s' =>
      match before_last_dot s' with
      | Some prefix => Some (String c prefix)
      | None => if Ascii.eqb c "." then Some EmptyString else None
      end
  end.

Definition parent_step_name (branch_name : string) : string :=
  default branch_name (before_last_dot branch_name).

Module Datastore.

  (** Modelled from the spec: the provider contract of the Run Log Store
      (section 6), a key/value-like store holding one run log per run id.
      The [create_*] operations build a fresh log without storing it; the
      [add_*] and [put_*] operations persist; a lookup that misses fails
      with the matching not-found error (section 7).  The branch logs of
      a composite step are kept under its step log (section 3): a branch
      log is found, and filed, only where the step log of its composite
      node is on file. *)

Definition create_attempt_log : AttemptLog :=
    {| attempt_numner := 0; al_status := FAIL; al_message := "" |}.

Definition create_step_log (name internal_name : string) : StepLog :=
    {| sl_name := name; sl_internal_name := internal_name; step_type := "task";
       sl_status := PROCESSING; mock := false; sl_message := ""; attempts := [];
       data_catalogs := [] |}.

Definition create_branch_log (internal_branch_name : string) : BranchLog :=
    {| bl_internal_name := internal_branch_name; bl_status := PROCESSING |}.

Definition create_run_log (run_id : string) : RunLog :=
    {| rl_run_id := run_id; rl_dag_hash := ""; rl_tag := ""; rl_use_cached := false;
       original_run_id := None; rl_status := PROCESSING; parameters := ∅;
       steps := ∅; branches := ∅ |}.

Definition get_run_log_by_id (st : RunLogStore) (run_id : string) : result RunLog :=
    match st !! run_id with
    | Some r => Ok r
    | None => Raise RunLogNotFoundError
    end.

Definition put_run_log (st : RunLogStore) (r : RunLog) : RunLogStore :=
    <[rl_run_id r := r]> st.

  (** [run_log.search_step_by_internal_name(name)] *)
Definition search_step_by_internal_name (r : RunLog) (name : string) : result StepLog :=
    match steps r !! name with
    | Some l => Ok l
    | None => Raise StepLogNotFoundError
    end.

Definition get_step_log (st : RunLogStore) (internal_name run_id : string)
    : result StepLog :=
    r ← get_run_log_by_id st run_id;
    search_step_by_internal_name r internal_name.

Definition add_step_log (st : RunLogStore) (l : StepLog) (run_id : string)
    : result RunLogStore :=
    r ← get_run_log_by_id st run_id;
    Ok (<[run_id := set_run_steps (<[sl_internal_name l := l]> (steps r)) r]> st).

  (** An absent or empty branch name denotes the run log itself. *)
Definition get_branch_log (st : RunLogStore) (internal_branch_name : option string)
      (run_id : string) : result RunOrBranchLog :=
    r ← get_run_log_by_id st run_id;
    match internal_branch_name with
    | None | Some "" => Ok (IsRunLog r)
    | Some b =>
        _ ← search_step_by_internal_name r (parent_step_name b);
        match branches r !! b with
        | Some l => Ok (IsBranchLog l)
        | None => Raise BranchLogNotFoundError
        end
    end.

Definition add_branch_log (st : RunLogStore) (l : RunOrBranchLog) (run_id : string)
    : result RunLogStore :=
    match l with
    | IsRunLog r => Ok (<[run_id := r]> st)
    | IsBranchLog b =>
        r ← get_run_log_by_id st run_id;
        _ ← search_step_by_internal_name r (parent_step_name (bl_internal_name b));
        Ok (<[run_id := set_run_branches (<[bl_internal_name b := b]> (branches r)) r]> st)
    end.

Definition get_parameters (st : RunLogStore) (run_id : string)
    : result (gmap string pyval) :=
    r ← get_run_log_by_id st run_id;
    Ok (parameters r).

  (** [run_log.parameters.update(parameters)] *)
Definition set_parameters (st : RunLogStore) (run_id : string)
      (p : gmap string pyval) : result RunLogStore :=
    r ← get_run_log_by_id st run_id;
    Ok (<[run_id := set_run_parameters (p ∪ parameters r) r]> st).

End Datastore.

(* ===================================================================== *)
(** ** nodes.py: the node taxonomy *)
(* ===================================================================== *)

(** A map variable is [None] or an ordered dictionary from the names of the
    enclosing map iterations to their current values. *)
Definition map_variable := option (list (pyval * pyval)).

(** Equality of dictionary keys: strings by content, [None] with itself,
    integers and booleans by numeric value. *)
Definition key_eqb (a b : pyval) : bool :=
  match a, b with
  | PStr s, PStr t => String.eqb s t
  | PNone, PNone => true
  | PInt x, PInt y => (x =? y)%Z
  | PInt x, PBool y => (x =? (if y then 1 else 0))%Z
  | PBool x, PInt y => ((if x then 1 else 0) =? y)%Z
  | PBool x, PBool y => Bool.eqb x y
  | _, _ => false
  end.

Definition hashable (v : pyval) : bool :=
  match v with PList _ | PDict _ => false | _ => true end.

(** [d[k] = v] on an ordered dictionary: an existing key keeps its place. *)
Fixpoint dict_set {K V} (eqb : K -> K -> bool) (k : K) (v : V) (d : list (K * V))
  : list (K * V) :=
  match d with
  | [] => [(k, v)]
  | (k', v') :: d' =>
      if eqb k' k then (k', v) :: d' else (k', v') :: dict_set eqb k v d'
  end.

(** [not map_variable] *)
Definition map_variable_falsy (mv : map_variable) : bool :=
  match mv with
  | None | Some [] => true
  | Some (_ :: _) => false
  end.

(** The attributes set by [BaseNode.__init__].  The [execution_type] object
    only matters through the outcome of the user's command, which is
    supplied by [UserCode] below. *)
Record NodeBase := {
  name : string;
  internal_name : string;
  config : gmap string pyval;
  internal_branch_name : option string
}.

(** The node classes, each with the attributes its constructor adds, and
    the graph of [magnus/graph.py].

    Modelled from the spec: [Graph] is declared in [magnus/graph.py], which
    is not part of the sources at hand; it holds [start_at], the branch it
    is the body of, and the ordered list of its nodes. *)
Inductive Node :=
| TaskNode (b : NodeBase)
| FailNode (b : NodeBase)
| SuccessNode (b : NodeBase)
| AsISNode (b : NodeBase) (render_string : pyval)
| ParallelNode (b : NodeBase) (branches : list (string * Graph))
| MapNode (b : NodeBase) (iterate_on iterate_as : pyval) (branch : Graph)
| DagNode (b : NodeBase) (sub_dag_file : pyval) (branch : Graph)
with Graph :=
| mkGraph (start_at : pyval) (graph_branch_name : option string) (nodes : list Node).

Definition base (n : Node) : NodeBase :=
  match n with
  | TaskNode b | FailNode b | SuccessNode b | AsISNode b _
  | ParallelNode b _ | MapNode b _ _ _ | DagNode b _ _ => b
  end.

Definition node_type (n : Node) : string :=
  match n with
  | TaskNode _ => "task"
  | FailNode _ => "fail"
  | SuccessNode _ => "success"
  | AsISNode _ _ => "as-is"
  | ParallelNode _ _ => "parallel"
  | MapNode _ _ _ _ => "map"
  | DagNode _ _ _ => "dag"
  end.

Definition start_at (g : Graph) : pyval := let (s, _, _) := g in s.
Definition graph_branch_name (g : Graph) : option string := let (_, b, _) := g in b.
Definition nodes (g : Graph) : list Node := let (_, _, l) := g in l.

(** The state of an executor object: the attributes attached to it by
    [prepare_configurations], the run log store it talks to, the process
    environment namespace through which parameters are exchanged with the
    user's tasks, and the number of user commands run so far. *)
Record Executor := {
  run_id : string;
  dag_hash : string;
  tag : string;
  dag : Graph;
  previous_run_log : option RunLog;
  run_log_store : RunLogStore;
  cmd_line_arguments : gmap string pyval;
  environ : gmap string pyval;
  commands_run : nat
}.

Definition set_store (st : RunLogStore) (ex : Executor) : Executor :=
  {| run_id := run_id ex; dag_hash := dag_hash ex; tag := tag ex; dag := dag ex;
     previous_run_log := previous_run_log ex; run_log_store := st;
     cmd_line_arguments := cmd_line_arguments ex; environ := environ ex;
     commands_run := commands_run ex |}.

Definition set_previous_run_log (p : option RunLog) (ex : Executor) : Executor :=
  {| run_id := run_id ex; dag_hash := dag_hash ex; tag := tag ex; dag := dag ex;
     previous_run_log := p; run_log_store := run_log_store ex;
     cmd_line_arguments := cmd_line_arguments ex; environ := environ ex;
     commands_run := commands_run ex |}.

Definition set_cmd_line_arguments (a : gmap string pyval) (ex : Executor) : Executor :=
  {| run_id := run_id ex; dag_hash := dag_hash ex; tag := tag ex; dag := dag ex;
     previous_run_log := previous_run_log ex; run_log_store := run_log_store ex;
     cmd_line_arguments := a; environ := environ ex;
     commands_run := commands_run ex |}.

Definition set_environ (e : gmap string pyval) (ex : Executor) : Executor :=
  {| run_id := run_id ex; dag_hash := dag_hash ex; tag := tag ex; dag := dag ex;
     previous_run_log := previous_run_log ex; run_log_store := run_log_store ex;
     cmd_line_arguments := cmd_line_arguments ex; environ := e;
     commands_run := commands_run ex |}.

Definition count_command (ex : Executor) : Executor :=
  {| run_id := run_id ex; dag_hash := dag_hash ex; tag := tag ex; dag := dag ex;
     previous_run_log := previous_run_log ex; run_log_store := run_log_store ex;
     cmd_line_arguments := cmd_line_arguments ex; environ := environ ex;
     commands_run := S (commands_run ex) |}.

(** What lies outside the engine: the user's commands, the files it reads
    and the catalog handler.  [run_command k command mv env] is the outcome
    of the [k]-th command run: it raises, or returns the parameters the
    command sets.  [load_yaml] reads a document.
    [catalog_compute_data_folder] is the attribute [compute_data_folder] of
    the catalog handler, and [catalog_handler k stage name run_id
    compute_data_folder synced_catalogs] is the outcome of the call
    [getattr(self.catalog_handler, stage)(name=..., run_id=...,
    compute_data_folder=..., synced_catalogs=...)] made when [k] commands
    have been run: it raises, or returns the data catalogs of the files it
    has moved. *)
Class UserCode := {
  run_command : nat -> pyval -> map_variable -> gmap string pyval
                -> result (gmap string pyval);
  load_yaml : pyval -> result pyval;
  catalog_compute_data_folder : pyval;
  catalog_handler : nat -> string -> pyval -> string -> pyval
                    -> option (list DataCatalog) -> result (list DataCatalog)
}.

(** [str(e)] for the exceptions whose text the model carries. *)
Definition str_exn (e : exn) : string :=
  match e with
  | Exception msg => msg
  | KeyError k => "'" +:+ k +:+ "'"
  | _ => ""
  end.

Module Nodes.
Section Nodes.
Context `{PyBuiltins} `{UserCode}.

  (** *** BaseNode *)

  (** The loop of [resolve_map_placeholders]:
      [for _, value in map_variable.items():
           name = name.replace(defaults.MAP_PLACEHOLDER, value, 1)].
      [str.replace] rejects a value that is not a string. *)
Fixpoint replace_placeholders (name : string) (items : list (pyval * pyval))
    : result string :=
    match items with
    | [] => Ok name
    | (_, value) :: rest =>
        match value with
        | PStr v => replace_placeholders (replace_first MAP_PLACEHOLDER v name) rest
        | _ => Raise TypeError
        end
    end.

Definition resolve_map_placeholders (name : string) (mv : map_variable)
    : result string :=
    if map_variable_falsy mv then Ok name
    else replace_placeholders name (default [] mv).

Definition get_step_log_name (b : NodeBase) (mv : map_variable) : result string :=
    resolve_map_placeholders (internal_name b) mv.

  (** [internal_branch_name] is [None] for the nodes of the root graph:
      [resolve_map_placeholders] then returns [None] when there is no map
      variable, and fails on [None.replace] otherwise. *)
Definition get_branch_log_name (b : NodeBase) (mv : map_variable)
    : result (option string) :=
    match internal_branch_name b with
    | Some s => r ← resolve_map_placeholders s mv; Ok (Some r)
    | None => if map_variable_falsy mv then Ok None else Raise AttributeError
    end.

Definition get_on_failure_node (b : NodeBase) : pyval :=
    match config b !! "on_failure" with
    | Some v => v
    | None => PNone
    end.

Definition is_terminal_node (b : NodeBase) : bool :=
    match config b !! "next" with
    | Some _ => false
    | None => true
    end.

Definition get_next_node (b : NodeBase) : pyval :=
    if negb (is_terminal_node b) then default PNone (config b !! "next")
    else PNone.

Definition get_neighbours (b : NodeBase) : list pyval :=
    let neighbours : list pyval := [] in
    let next_node := get_next_node b in
    let neighbours :=
      if truthy next_node then (neighbours ++ [next_node])%list else neighbours in
    let fail_node := get_on_failure_node b in
    if truthy fail_node then (neighbours ++ [fail_node])%list else neighbours.

  (** [retry = int(self.config['retry']) or 1] *)
Definition get_max_attempts (b : NodeBase) : result Z :=
    match config b !! "retry" with
    | Some v =>
        i ← py_int v;
        let retry := if (i =? 0)%Z then 1%Z else i in
        Ok retry
    | None => Ok 1%Z
    end.

  (** *** The [execute] methods of the leaf nodes *)

  (** [TaskNode.execute]: every exception of the body is caught and turned
      into a [FAIL] attempt. *)
Definition TaskNode_execute (b : NodeBase) (mock : bool) (mv : map_variable)
      (ex : Executor) : Executor * AttemptLog :=
    let attempt_log := Datastore.create_attempt_log in
    let attempt_log := set_attempt_status SUCCESS attempt_log in
    match config b !! "command" with
    | None =>
        (ex, set_attempt_message (str_exn (KeyError "command"))
               (set_attempt_status FAIL attempt_log))
    | Some command =>
        if negb mock then
          match run_command (commands_run ex) command mv (environ ex) with
          | Ok params =>
              (count_command (set_environ (params ∪ environ ex) ex), attempt_log)
          | Raise e =>
              (count_command ex,
               set_attempt_message (str_exn e) (set_attempt_status FAIL attempt_log))
          end
        else (ex, attempt_log)
    end.

  (** The body shared by [FailNode.execute] and [SuccessNode.execute]:
      fetch the enclosing branch or run log, set its status, store it.
      Whatever is raised on the way is swallowed by the bare [except]. *)
Definition mark_enclosing_log (s : status) (b : NodeBase) (mv : map_variable)
      (ex : Executor) : Executor :=
    let attempt :=
      branch_name ← get_branch_log_name b mv;
      run_or_branch_log ← Datastore.get_branch_log (run_log_store ex) branch_name (run_id ex);
      let run_or_branch_log := set_log_status s run_or_branch_log in
      Datastore.add_branch_log (run_log_store ex) run_or_branch_log (run_id ex) in
    match attempt with
    | Ok st => set_store st ex
    | Raise _ => ex
    end.

Definition FailNode_execute (b : NodeBase) (mock : bool) (mv : map_variable)
      (ex : Executor) : Executor * AttemptLog :=
    let attempt_log := Datastore.create_attempt_log in
    let attempt_log := set_attempt_status SUCCESS attempt_log in
    let ex := mark_enclosing_log FAIL b mv ex in
    (ex, set_attempt_status SUCCESS attempt_log).

Definition SuccessNode_execute (b : NodeBase) (mock : bool) (mv : map_variable)
      (ex : Executor) : Executor * AttemptLog :=
    let attempt_log := Datastore.create_attempt_log in
    let attempt_log := set_attempt_status SUCCESS attempt_log in
    let ex := mark_enclosing_log SUCCESS b mv ex in
    (ex, set_attempt_status SUCCESS attempt_log).

Definition AsISNode_execute (b : NodeBase) (mock : bool) (mv : map_variable)
      (ex : Executor) : Executor * AttemptLog :=
    let attempt_log := Datastore.create_attempt_log in
    (ex, set_attempt_status SUCCESS attempt_log).

  (** [node.execute(executor, mock, map_variable)], by class. *)
Definition execute (n : Node) (mock : bool) (mv : map_variable) (ex : Executor)
    : result (Executor * AttemptLog) :=
    match n with
    | TaskNode b => Ok (TaskNode_execute b mock mv ex)
    | FailNode b => Ok (FailNode_execute b mock mv ex)
    | SuccessNode b => Ok (SuccessNode_execute b mock mv ex)
    | AsISNode b _ => Ok (AsISNode_execute b mock mv ex)
    | ParallelNode _ _ | MapNode _ _ _ _ | DagNode _ _ _ =>
        Raise (Exception "Node is of type composite, error in traversal rules")
    end.

  (** *** Composite nodes: construction *)

Section Construction.
    (** [magnus.graph.create_graph(config, internal_branch_name)], which the
        constructors of the composite nodes call for their sub-graphs. *)
Variable create_graph : pyval -> option string -> result Graph.

Definition BaseNode_init (name internal_name : string) (config : gmap string pyval)
        (internal_branch_name : option string) : NodeBase :=
      {| name := name; internal_name := internal_name; config := config;
         internal_branch_name := internal_branch_name |}.

    (** The loop of [ParallelNode.get_sub_graphs] over
        [self.config['branches'].items()]. *)
Fixpoint sub_graphs_loop (internal_name : string) (items : list (string * pyval))
        (branches : list (string * Graph)) : result (list (string * Graph)) :=
      match items with
      | [] => Ok branches
      | (branch_name, branch_config) :: rest =>
          sub_graph ← create_graph branch_config
                        (Some (internal_name +:+ "." +:+ branch_name));
          sub_graphs_loop internal_name rest
            (dict_set String.eqb (internal_name +:+ "." +:+ branch_name) sub_graph branches)
      end.

Definition ParallelNode_get_sub_graphs (b : NodeBase)
      : result (list (string * Graph)) :=
      match config b !! "branches" with
      | None => Raise (KeyError "branches")
      | Some (PDict items) =>
          branches ← sub_graphs_loop (internal_name b) items [];
          match branches with
          | [] => Raise (Exception "A parallel node should have branches")
          | _ => Ok branches
          end
      | Some _ => Raise AttributeError
      end.

Definition ParallelNode_init (name internal_name : string)
        (config : gmap string pyval) (internal_branch_name : option string)
      : result Node :=
      let b := BaseNode_init name internal_name config internal_branch_name in
      branches ← ParallelNode_get_sub_graphs b;
      Ok (ParallelNode b branches).

Definition MapNode_get_sub_graph (b : NodeBase) : result Graph :=
      match config b !! "branch" with
      | None => Raise (KeyError "branch")
      | Some branch_config =>
          create_graph branch_config (Some (internal_name b +:+ "." +:+ MAP_PLACEHOLDER))
      end.

Definition MapNode_init (name internal_name : string)
        (config : gmap string pyval) (internal_branch_name : option string)
      : result Node :=
      let b := BaseNode_init name internal_name config internal_branch_name in
      let iterate_on := default PNone (config !! "iterate_on") in
      let iterate_as := default PNone (config !! "iterate_as") in
      if negb (truthy iterate_on) then
        Raise (Exception "A node type of map requires a parameter iterate_on, please define it in the config")
      else if negb (truthy iterate_as) then
        Raise (Exception "A node type of map requires a parameter iterate_as, please define it in the config")
      else
        branch ← MapNode_get_sub_graph b;
        Ok (MapNode b iterate_on iterate_as branch).

Definition DagNode_internal_branch_name (b : NodeBase) : string :=
      internal_name b +:+ "." +:+ DAG_BRANCH_NAME.

    (** A loaded document that is not a mapping makes the construction
        fail; the model does not tell the classes of these failures apart. *)
Definition DagNode_get_sub_graph (b : NodeBase) (sub_dag_file : pyval)
      : result Graph :=
      dag_config ← load_yaml sub_dag_file;
      match dag_config with
      | PDict d =>
          match list_find (fun kv => String.eqb (fst kv) "dag") d with
          | None => Raise (Exception "No DAG found, please provide it in dag block")
          | Some (_, (_, dag_definition)) =>
              create_graph dag_definition (Some (DagNode_internal_branch_name b))
          end
      | _ => Raise TypeError
      end.

Definition DagNode_init (name internal_name : string)
        (config : gmap string pyval) (internal_branch_name : option string)
      : result Node :=
      let b := BaseNode_init name internal_name config internal_branch_name in
      let sub_dag_file := default PNone (config !! "dag_definition") in
      if negb (truthy sub_dag_file) then
        Raise (Exception "A node type of dag requires a parameter dag_definition, please define it in the config")
      else
        branch ← DagNode_get_sub_graph b sub_dag_file;
        Ok (DagNode b sub_dag_file branch).

Definition AsISNode_init (name internal_name : string)
        (config : gmap string pyval) (internal_branch_name : option string) : Node :=
      AsISNode (BaseNode_init name internal_name config internal_branch_name)
               (default PNone (config !! "render_string")).
End Construction.

(** *** Composite nodes: [execute_as_graph] *)

(** The first loop of [execute_as_graph]: one branch log per child branch,
    created with status [PROCESSING] and stored under its effective name.
    [name_of] computes the effective branch name of an item of the loop. *)
Fixpoint prepare_branch_logs {A} (name_of : A -> result string) (items : list A)
    (st : RunLogStore) (run_id : string) : result RunLogStore :=
  match items with
  | [] => Ok st
  | x :: rest =>
      effective_branch_name ← name_of x;
      let branch_log := Datastore.create_branch_log effective_branch_name in
      let branch_log := set_branch_status PROCESSING branch_log in
      st ← Datastore.add_branch_log st (IsBranchLog branch_log) run_id;
      prepare_branch_logs name_of rest st run_id
  end.

(** The loop after the join: read every child branch log back and fold its
    status into the two flags. *)
Fixpoint find_status_of_branches {A} (name_of : A -> result string) (items : list A)
    (st : RunLogStore) (run_id : string) (step_success_bool waiting : bool)
  : result (bool * bool) :=
  match items with
  | [] => Ok (step_success_bool, waiting)
  | x :: rest =>
      effective_branch_name ← name_of x;
      branch_log ← Datastore.get_branch_log st (Some effective_branch_name) run_id;
      let step_success_bool :=
        if decide (log_status branch_log = FAIL) then false else step_success_bool in
      let waiting :=
        if decide (log_status branch_log = PROCESSING) then true else waiting in
      find_status_of_branches name_of rest st run_id step_success_bool waiting
  end.

(** "Collate all the results and update the status of the step". *)
Definition collate_results (effective_internal_name : string)
    (step_success_bool waiting : bool) (st : RunLogStore) (run_id : string)
  : result RunLogStore :=
  step_log ← Datastore.get_step_log st effective_internal_name run_id;
  let step_log := set_step_status PROCESSING step_log in
  let step_log :=
    if step_success_bool then
      if negb waiting then set_step_status SUCCESS step_log else step_log
    else set_step_status FAIL step_log in
  Datastore.add_step_log st step_log run_id.

(** The part of [execute_as_graph] that follows the join (the last loop and
    the update of the step log), for each of the composite classes. *)
Definition ParallelNode_reconcile (b : NodeBase) (branches : list (string * Graph))
    (mv : map_variable) (st : RunLogStore) (run_id : string) : result RunLogStore :=
  '(step_success_bool, waiting) ←
    find_status_of_branches
      (fun kv : string * Graph => resolve_map_placeholders (fst kv) mv)
      branches st run_id true false;
  effective_internal_name ← resolve_map_placeholders (internal_name b) mv;
  collate_results effective_internal_name step_success_bool waiting st run_id.

Definition MapNode_branch_name (b : NodeBase) (mv : map_variable) (iter_variable : pyval)
  : result string :=
  resolve_map_placeholders (internal_name b +:+ "." +:+ py_str iter_variable) mv.

Definition MapNode_reconcile (b : NodeBase) (iterate_on : list pyval)
    (mv : map_variable) (st : RunLogStore) (run_id : string) : result RunLogStore :=
  '(step_success_bool, waiting) ←
    find_status_of_branches (MapNode_branch_name b mv) iterate_on st run_id true false;
  effective_internal_name ← resolve_map_placeholders (internal_name b) mv;
  collate_results effective_internal_name step_success_bool waiting st run_id.

Definition DagNode_reconcile (effective_branch_name effective_internal_name : string)
    (st : RunLogStore) (run_id : string) : result RunLogStore :=
  '(step_success_bool, waiting) ←
    find_status_of_branches (fun n : string => Ok n) [effective_branch_name]
      st run_id true false;
  collate_results effective_internal_name step_success_bool waiting st run_id.

Section Expansion.
(** [executor.execute_graph(branch, map_variable)].  The map variable is a
    dictionary shared with the callee, which may add to it: the call
    returns it as the callee left it.  Branches are run one after the
    other ([is_parallel_execution()] false); with worker processes the
    same join and reconciliation follow. *)
Variable execute_graph :
  Graph -> map_variable -> Executor -> result (Executor * map_variable).

Fixpoint run_branches (branches : list (string * Graph)) (mv : map_variable)
    (ex : Executor) : result (Executor * map_variable) :=
  match branches with
  | [] => Ok (ex, mv)
  | (_, branch) :: rest =>
      '(ex, mv) ← execute_graph branch mv ex;
      run_branches rest mv ex
  end.

Definition ParallelNode_execute_as_graph (b : NodeBase)
    (branches : list (string * Graph)) (mv : map_variable) (ex : Executor)
  : result (Executor * map_variable) :=
  st ← prepare_branch_logs
         (fun kv : string * Graph => resolve_map_placeholders (fst kv) mv)
         branches (run_log_store ex) (run_id ex);
  let ex := set_store st ex in
  '(ex, mv) ← run_branches branches mv ex;
  st ← ParallelNode_reconcile b branches mv (run_log_store ex) (run_id ex);
  Ok (set_store st ex, mv).

(** The second loop of [MapNode.execute_as_graph].
    [effective_map_variable = map_variable or OrderedDict()] is the caller's
    dictionary itself when that is not empty, so the assignment of the
    iteration value is then seen by the caller. *)
Fixpoint run_iterations (iterate_as : pyval) (branch : Graph) (iterate_on : list pyval)
    (mv : map_variable) (ex : Executor) : result (Executor * map_variable) :=
  match iterate_on with
  | [] => Ok (ex, mv)
  | iter_variable :: rest =>
      let shared := negb (map_variable_falsy mv) in
      let effective_map_variable := if shared then default [] mv else [] in
      if negb (hashable iterate_as) then Raise TypeError
      else
        let effective_map_variable :=
          dict_set key_eqb iterate_as iter_variable effective_map_variable in
        '(ex, effective_map_variable) ←
          execute_graph branch (Some effective_map_variable) ex;
        let mv := if shared then effective_map_variable else mv in
        run_iterations iterate_as branch rest mv ex
  end.

Definition MapNode_execute_as_graph (b : NodeBase) (iterate_on iterate_as : pyval)
    (branch : Graph) (mv : map_variable) (ex : Executor)
  : result (Executor * map_variable) :=
  run_log ← Datastore.get_run_log_by_id (run_log_store ex) (run_id ex);
  parameter ←
    match iterate_on with
    | PStr key =>
        match parameters run_log !! key with
        | Some v => Ok v
        | None => Raise (Exception "Expected parameter not present in Run Log parameters, was it ever set before?")
        end
    | PList _ | PDict _ => Raise TypeError
    | _ => Raise (Exception "Expected parameter not present in Run Log parameters, was it ever set before?")
    end;
  match parameter with
  | PList iterate_on =>
      st ← prepare_branch_logs (MapNode_branch_name b mv) iterate_on
             (run_log_store ex) (run_id ex);
      let ex := set_store st ex in
      '(ex, mv) ← run_iterations iterate_as branch iterate_on mv ex;
      st ← MapNode_reconcile b iterate_on mv (run_log_store ex) (run_id ex);
      Ok (set_store st ex, mv)
  | _ => Raise (Exception "Only list is allowed as a valid iterator type")
  end.

Definition DagNode_execute_as_graph (b : NodeBase) (branch : Graph)
    (mv : map_variable) (ex : Executor) : result (Executor * map_variable) :=
  effective_branch_name ← resolve_map_placeholders (DagNode_internal_branch_name b) mv;
  effective_internal_name ← resolve_map_placeholders (internal_name b) mv;
  let branch_log := Datastore.create_branch_log effective_branch_name in
  let branch_log := set_branch_status PROCESSING branch_log in
  st ← Datastore.add_branch_log (run_log_store ex) (IsBranchLog branch_log) (run_id ex);
  let ex := set_store st ex in
  '(ex, mv) ← execute_graph branch mv ex;
  st ← DagNode_reconcile effective_branch_name effective_internal_name
         (run_log_store ex) (run_id ex);
  Ok (set_store st ex, mv).

(** [node.execute_as_graph(executor, map_variable)], by class. *)
Definition execute_as_graph (n : Node) (mv : map_variable) (ex : Executor)
  : result (Executor * map_variable) :=
  match n with
  | ParallelNode b branches => ParallelNode_execute_as_graph b branches mv ex
  | MapNode b iterate_on iterate_as branch =>
      MapNode_execute_as_graph b iterate_on iterate_as branch mv ex
  | DagNode b _ branch => DagNode_execute_as_graph b branch mv ex
  | TaskNode _ | FailNode _ | SuccessNode _ | AsISNode _ _ =>
      Raise (Exception "Node is not a composite node, invalid traversal rule")
  end.
End Expansion.
End Nodes.
End Nodes.

(* ===================================================================== *)
(** ** graph.py: lookups, validation and construction of graphs *)
(* ===================================================================== *)

Module GraphOps.
Section GraphOps.
Context `{PyBuiltins} `{UserCode}.

(** Modelled from the spec: [Graph.get_node_by_name] of [magnus/graph.py]
    (not part of the sources at hand) returns the node of that name and
    fails with [NodeNotFound] if there is none. *)
Definition get_node_by_name (g : Graph) (nm : pyval) : result Node :=
  match nm with
  | PStr s =>
      match list_find (fun n => String.eqb (name (base n)) s) (nodes g) with
      | Some (_, n) => Ok n
      | None => Raise NodeNotFoundError
      end
  | _ => Raise NodeNotFoundError
  end.

(** Modelled from the spec: [Graph.get_fail_node] and
    [Graph.get_success_node] return the terminal node of that type and fail
    if the graph has none. *)
Definition get_fail_node (g : Graph) : result Node :=
  match list_find (fun n => String.eqb (node_type n) "fail") (nodes g) with
  | Some (_, n) => Ok n
  | None => Raise (Exception "No fail node defined")
  end.

Definition get_success_node (g : Graph) : result Node :=
  match list_find (fun n => String.eqb (node_type n) "success") (nodes g) with
  | Some (_, n) => Ok n
  | None => Raise (Exception "No success node defined")
  end.

Definition is_start_node_present (g : Graph) : bool :=
  is_ok (get_node_by_name g (start_at g)).

Definition count_of_type (t : string) (g : Graph) : nat :=
  length (filter (fun n => node_type n = t) (nodes g)).

Definition success_node_validation (g : Graph) : bool :=
  Nat.eqb (count_of_type "success" g) 1.

Definition fail_node_validation (g : Graph) : bool :=
  Nat.eqb (count_of_type "fail" g) 1.

Definition missing_neighbors (g : Graph) : list pyval :=
  filter (fun nb => is_ok (get_node_by_name g nb) = false)
         (concat (map (fun n => Nodes.get_neighbours (base n)) (nodes g))).

(** Modelled from the spec: [Graph.is_dag] detects cycles over the edges
    to [next] and to [on_failure].  Here: nodes without an edge into the
    remaining nodes are taken away, round after round; the graph is
    acyclic when none remains. *)
Definition has_edge_into (remaining : list Node) (n : Node) : bool :=
  existsb (fun nb => existsb (fun m => key_eqb (PStr (name (base m))) nb) remaining)
          (Nodes.get_neighbours (base n)).

Fixpoint peel (rounds : nat) (remaining : list Node) : bool :=
  match remaining, rounds with
  | [], _ => true
  | _, O => false
  | _, S rounds' => peel rounds' (List.filter (has_edge_into remaining) remaining)
  end.

Definition is_dag (g : Graph) : bool := peel (length (nodes g)) (nodes g).

(** Modelled from the spec: [Graph.validate] (section 4.1). *)
Definition validate (g : Graph) : result unit :=
  if negb (is_start_node_present g) then Raise (Exception "Start node is not present")
  else if negb (success_node_validation g) then
    Raise (Exception "Graph should have exactly one success node")
  else if negb (fail_node_validation g) then
    Raise (Exception "Graph should have exactly one fail node")
  else if match missing_neighbors g with [] => false | _ => true end then
    Raise (Exception "Graph has missing neighbors")
  else if negb (is_dag g) then Raise (Exception "Graph is not a DAG")
  else Ok ().
End GraphOps.
End GraphOps.

(* ===================================================================== *)
(** ** executor.py: the catalog *)
(* ===================================================================== *)

(** [BaseNode.get_catalog_settings] *)
Definition get_catalog_settings (b : NodeBase) : pyval :=
  match config b !! "catalog" with
  | Some v => v
  | None => PNone
  end.

(** [d.get(k)] on an ordered dictionary with string keys. *)
Fixpoint dict_lookup {V} (k : string) (d : list (string * V)) : option V :=
  match d with
  | [] => None
  | (k', v) :: d' => if String.eqb k' k then Some v else dict_lookup k d'
  end.

(** [x in s] for strings. *)
Fixpoint is_substring (x s : string) : bool :=
  if String.prefix x s then true
  else match s with
       | EmptyString => false
       | String _ s' => is_substring x s'
       end.

(** [x in v] for a string [x]: a key of a dictionary, an element of a
    list, a substring of a string; the other values are not iterable. *)
Definition py_contains (x : string) (v : pyval) : result bool :=
  match v with
  | PDict d => Ok (bool_decide (is_Some (dict_lookup x d)))
  | PList l => Ok (existsb (fun y => match y with
                                     | PStr s => String.eqb s x
                                     | _ => false
                                     end) l)
  | PStr s => Ok (is_substring x s)
  | PNone | PBool _ | PInt _ => Raise TypeError
  end.

(** [v[k]] for a string [k]: only a dictionary can be indexed by a string. *)
Definition py_getitem (v : pyval) (k : string) : result pyval :=
  match v with
  | PDict d =>
      match dict_lookup k d with
      | Some x => Ok x
      | None => Raise (KeyError k)
      end
  | _ => Raise TypeError
  end.

(** [v.get(k)]: only a dictionary has the method. *)
Definition py_get (v : pyval) (k : string) : result pyval :=
  match v with
  | PDict d => Ok (default PNone (dict_lookup k d))
  | _ => Raise AttributeError
  end.

(** [for x in v] *)
Definition py_iter (v : pyval) : result (list pyval) :=
  match v with
  | PList l => Ok l
  | PDict d => Ok (map (fun kv => PStr (fst kv)) d)
  | PStr s => Ok (map (fun c => PStr (String c EmptyString)) (list_ascii_of_string s))
  | PNone | PBool _ | PInt _ => Raise TypeError
  end.

Module Catalog.
Section Catalog.

(** The catalog handler lies outside the engine: its default compute data
    folder, and its [get] and [put] methods, which move files and return
    the data catalogs of what they moved, or raise.  [handler stage name
    run_id compute_data_folder synced_catalogs] is the call
    [getattr(self.catalog_handler, stage)(name=..., run_id=...,
    compute_data_folder=..., synced_catalogs=...)]. *)
Variable DataCatalog : Type.
Variable service_name : string.
Variable handler_compute_data_folder : pyval.
Variable handler : string -> pyval -> string -> pyval -> option (list DataCatalog)
                   -> result (list DataCatalog).

(** The loop over the name patterns: [data_catalogs] is assigned anew in
    every iteration. *)
Fixpoint sync_patterns (stage : string) (run_id : string) (compute_data_folder : pyval)
    (synced_catalogs : option (list DataCatalog))
    (patterns : list pyval) (data_catalogs : list DataCatalog)
  : result (list DataCatalog) :=
  match patterns with
  | [] => Ok data_catalogs
  | name_pattern :: rest =>
      data_catalogs ← handler stage name_pattern run_id compute_data_folder
                        synced_catalogs;
      sync_patterns stage run_id compute_data_folder synced_catalogs rest data_catalogs
  end.

(** [BaseExecutor.sync_catalog].  [step_data_catalogs] stands for
    [step_log.data_catalogs]; the result is the returned value together
    with [step_log.data_catalogs] as the call leaves it.

    Modelled from the spec: [StepLog.add_data_catalogs] is not part of the
    sources at hand; it appends the given data catalogs to those of the
    step log. *)
Definition sync_catalog (node : Node) (step_data_catalogs : list DataCatalog)
    (stage : string) (synced_catalogs : option (list DataCatalog)) (ex : Executor)
  : result (option (list DataCatalog) * list DataCatalog) :=
  if negb (String.eqb stage "get" || String.eqb stage "put") then
    Raise (Exception
             ("Catalog service only accepts get/put possible actions as part of node execution."
              +:+ "Sync catalog of the executor: " +:+ service_name +:+ " asks for "
              +:+ stage +:+ " which is not accepted"))
  else
    let node_catalog_settings := get_catalog_settings (base node) in
    has_stage ←
      (if truthy node_catalog_settings then py_contains stage node_catalog_settings
       else Ok false);
    if negb has_stage then Ok (None, step_data_catalogs)
    else
      let compute_data_folder := handler_compute_data_folder in
      has_folder ← py_contains "compute_data_folder" node_catalog_settings;
      folder ←
        (if has_folder then py_getitem node_catalog_settings "compute_data_folder"
         else Ok PNone);
      let compute_data_folder :=
        if has_folder && truthy folder then folder else compute_data_folder in
      listed ← py_get node_catalog_settings stage;
      patterns ← py_iter (py_or listed (PList []));
      data_catalogs ← sync_patterns stage (run_id ex) compute_data_folder
                        synced_catalogs patterns [];
      let step_data_catalogs :=
        match data_catalogs with
        | [] => step_data_catalogs
        | _ => (step_data_catalogs ++ data_catalogs)%list
        end in
      Ok (Some data_catalogs, step_data_catalogs).
End Catalog.
End Catalog.

(* ===================================================================== *)
(** ** executor.py: the traversal core *)
(* ===================================================================== *)

Module Executors.
Section Executors.
Context `{PyBuiltins} `{UserCode}.

(** Modelled from the spec: [interaction.store_parameter] and
    [utils.get_user_set_parameters] are not part of the sources at hand.
    The first publishes parameters in the environment namespace of the
    task; the second reads that namespace and, with [remove=True], clears
    it.  [utils.get_tracked_data] only concerns user metrics. *)
Definition store_parameter (p : gmap string pyval) (ex : Executor) : Executor :=
  set_environ (p ∪ environ ex) ex.

Definition get_user_set_parameters_remove (ex : Executor)
  : gmap string pyval * Executor :=
  (environ ex, set_environ ∅ ex).

(** The [while attempts < max_attempts] loop of [execute_node].
    [remaining] counts the iterations still allowed by the loop condition;
    [execute_node] starts it at [max_attempts - attempts]. *)
Fixpoint attempt_loop (remaining : nat) (attempts max_attempts : Z) (node : Node)
    (mock : bool) (mv : map_variable) (ex : Executor) (step_log : StepLog)
  : Executor * StepLog :=
  match remaining with
  | O => (ex, step_log)
  | S remaining' =>
      (* the [except] clause, and the check that follows the [try] *)
      let handler (ex : Executor) (step_log : StepLog) :=
        let attempts := (attempts + 1)%Z in
        let ex := snd (get_user_set_parameters_remove ex) in
        let step_log :=
          if (attempts =? max_attempts)%Z then set_step_status FAIL step_log
          else step_log in
        attempt_loop remaining' attempts max_attempts node mock mv ex step_log in
      match Nodes.execute node mock mv ex with
      | Raise _ => handler ex step_log
      | Ok (ex, attempt_log) =>
          let attempt_log := set_attempt_numner attempts attempt_log in
          let step_log := append_attempt attempt_log step_log in
          if decide (al_status attempt_log = FAIL) then handler ex step_log
          else
            let step_log := set_step_status SUCCESS step_log in
            let '(params, ex) := get_user_set_parameters_remove ex in
            match Datastore.set_parameters (run_log_store ex) (run_id ex) params with
            | Ok st => (set_store st ex, step_log)
            | Raise _ => handler ex step_log
            end
      end
  end.

(** [BaseExecutor.sync_catalog] on the step log: [Catalog.sync_catalog]
    with the catalog handler of the run, which is asked when the commands
    run so far have left their files; the data catalogs it adds are those
    of the step log.  [service_name] is the attribute of the class of the
    executor. *)
Definition BaseExecutor_sync_catalog (service_name : string) (node : Node)
    (step_log : StepLog) (stage : string)
    (synced_catalogs : option (list DataCatalog)) (ex : Executor)
  : result (option (list DataCatalog) * StepLog) :=
  '(data_catalogs, step_data_catalogs) ←
    Catalog.sync_catalog DataCatalog service_name catalog_compute_data_folder
      (catalog_handler (commands_run ex)) node (data_catalogs step_log) stage
      synced_catalogs ex;
  Ok (data_catalogs, set_data_catalogs step_data_catalogs step_log).

(** [sync_catalog] of the local executor, which inherits it. *)
Definition sync_catalog (node : Node) (step_log : StepLog) (stage : string)
    (synced_catalogs : option (list DataCatalog)) (ex : Executor)
  : result (option (list DataCatalog) * StepLog) :=
  BaseExecutor_sync_catalog "local" node step_log stage synced_catalogs ex.

(** [BaseExecutor.execute_node].  [self.sync_catalog] is the method of the
    class of the executor: [sync_catalog] above for the executors that
    inherit it, the method of its own for the demo renderer. *)
Definition BaseExecutor_execute_node
    (self_sync_catalog : Node -> StepLog -> string -> option (list DataCatalog)
                         -> Executor -> result (option (list DataCatalog) * StepLog))
    (node : Node) (mv : map_variable) (ex : Executor)
  : result Executor :=
  max_attempts ← Nodes.get_max_attempts (base node);
  let attempts := 0%Z in
  step_log_name ← Nodes.get_step_log_name (base node) mv;
  step_log ← Datastore.get_step_log (run_log_store ex) step_log_name (run_id ex);
  parameters ← Datastore.get_parameters (run_log_store ex) (run_id ex);
  let ex := store_parameter parameters ex in
  '(data_catalogs_get, step_log) ← self_sync_catalog node step_log "get" None ex;
  let mock := mock step_log in
  let '(ex, step_log) :=
    attempt_loop (Z.to_nat (max_attempts - attempts)) attempts max_attempts
                 node mock mv ex step_log in
  '(_, step_log) ← self_sync_catalog node step_log "put" data_catalogs_get ex;
  st ← Datastore.add_step_log (run_log_store ex) step_log (run_id ex);
  Ok (set_store st ex).

(** [execute_node] of the local executor. *)
Definition execute_node (node : Node) (mv : map_variable) (ex : Executor)
  : result Executor :=
  BaseExecutor_execute_node sync_catalog node mv ex.

Definition is_eligible_for_rerun (node : Node) (mv : map_variable) (ex : Executor)
  : result (bool * Executor) :=
  match previous_run_log ex with
  | Some previous =>
      node_step_log_name ← Nodes.get_step_log_name (base node) mv;
      match Datastore.search_step_by_internal_name previous node_step_log_name with
      | Raise StepLogNotFoundError => Ok (true, ex)
      | Raise e => Raise e
      | Ok previous_node_log =>
          step_log_name ← Nodes.get_step_log_name (base node) mv;
          step_log ← Datastore.get_step_log (run_log_store ex) step_log_name (run_id ex);
          if decide (sl_status previous_node_log = SUCCESS) then
            let step_log := set_step_status SUCCESS step_log in
            let step_log :=
              set_step_message "Node execution successful in previous run, skipping it"
                               step_log in
            st ← Datastore.add_step_log (run_log_store ex) step_log (run_id ex);
            Ok (false, set_store st ex)
          else
            Ok (true, set_previous_run_log None ex)
      end
  | None => Ok (true, ex)
  end.

Definition get_status_and_next_node_name (current_node : Node) (dag : Graph)
    (mv : map_variable) (ex : Executor) : result (status * pyval) :=
  step_log_name ← Nodes.get_step_log_name (base current_node) mv;
  step_log ← Datastore.get_step_log (run_log_store ex) step_log_name (run_id ex);
  let next_node_name := Nodes.get_next_node (base current_node) in
  if decide (sl_status step_log = FAIL) then
    fail_node ← GraphOps.get_fail_node dag;
    let next_node_name := PStr (name (base fail_node)) in
    let next_node_name :=
      if truthy (Nodes.get_on_failure_node (base current_node))
      then Nodes.get_on_failure_node (base current_node)
      else next_node_name in
    Ok (sl_status step_log, next_node_name)
  else Ok (sl_status step_log, next_node_name).

(** [LocalExecutor.trigger_job]: prepare (the integration hooks, which do
    not touch the modelled state) and run the node in this process. *)
Definition trigger_job (node : Node) (mv : map_variable) (ex : Executor)
  : result Executor :=
  execute_node node mv ex.

Definition is_terminal_type (n : Node) : bool :=
  String.eqb (node_type n) "success" || String.eqb (node_type n) "fail".

Definition is_composite_type (n : Node) : bool :=
  String.eqb (node_type n) "parallel" || String.eqb (node_type n) "dag"
  || String.eqb (node_type n) "map".

Section Dispatch.
Variable execute_graph :
  Graph -> map_variable -> Executor -> result (Executor * map_variable).

Definition execute_from_graph (node : Node) (mv : map_variable) (ex : Executor)
  : result (Executor * map_variable) :=
  step_log_name ← Nodes.get_step_log_name (base node) mv;
  let step_log := Datastore.create_step_log (name (base node)) step_log_name in
  let step_log := set_step_type (node_type node) step_log in
  let step_log := set_step_status PROCESSING step_log in
  if is_terminal_type node then
    st ← Datastore.add_step_log (run_log_store ex) step_log (run_id ex);
    ex ← execute_node node mv (set_store st ex);
    Ok (ex, mv)
  else
    '(eligible, ex) ← is_eligible_for_rerun node mv ex;
    if negb eligible then
      let step_log := set_step_mock true step_log in
      let step_log := set_step_status SUCCESS step_log in
      st ← Datastore.add_step_log (run_log_store ex) step_log (run_id ex);
      Ok (set_store st ex, mv)
    else if is_composite_type node then
      st ← Datastore.add_step_log (run_log_store ex) step_log (run_id ex);
      Nodes.execute_as_graph execute_graph node mv (set_store st ex)
    else
      st ← Datastore.add_step_log (run_log_store ex) step_log (run_id ex);
      ex ← trigger_job node mv (set_store st ex);
      Ok (ex, mv).
End Dispatch.

(** The end of [execute_graph]: the enclosing log of the last node is read
    back for the closing log messages. *)
Definition report_branch (working_on : Node) (mv : map_variable) (ex : Executor)
  : result unit :=
  branch_name ← Nodes.get_branch_log_name (base working_on) mv;
  run_log ← Datastore.get_branch_log (run_log_store ex) branch_name (run_id ex);
  Ok ().

(** [execute_graph].  [traverse] is its [while True] loop, entered with the
    current and the previous node name; [fuel] bounds the number of loop
    iterations and the depth of nested graphs. *)
Fixpoint traverse (fuel : nat) (dag : Graph) (current_node : pyval)
    (previous_node : option string) (mv : map_variable) (ex : Executor)
  : result (Executor * map_variable) :=
  match fuel with
  | O => Raise OutOfFuel
  | S fuel' =>
      working_on ← GraphOps.get_node_by_name dag current_node;
      if bool_decide (previous_node = Some (name (base working_on))) then
        Raise (Exception "Potentially running in a infinite loop")
      else
        let previous_node := Some (name (base working_on)) in
        '(ex, mv) ← execute_from_graph
                      (fun g mv ex => traverse fuel' g (start_at g) None mv ex)
                      working_on mv ex;
        '(status, next_node_name) ← get_status_and_next_node_name working_on dag mv ex;
        if decide (status = TRIGGERED) then
          _ ← report_branch working_on mv ex; Ok (ex, mv)
        else if is_terminal_type working_on then
          _ ← report_branch working_on mv ex; Ok (ex, mv)
        else traverse fuel' dag next_node_name previous_node mv ex
  end.

Definition execute_graph (fuel : nat) (dag : Graph) (mv : map_variable) (ex : Executor)
  : result (Executor * map_variable) :=
  traverse fuel dag (start_at dag) None mv ex.
End Executors.
End Executors.

(* ===================================================================== *)
(** ** pipeline.py: the entry point *)
(* ===================================================================== *)

Module Pipeline.
Section Pipeline.
Context `{PyBuiltins} `{UserCode}.

(** [BaseExecutor.set_up_run_log].  The local [parameters] of the source
    ([arguments] here) is the dictionary of the command line arguments
    itself, so updating it with the parameters of the previous run also
    updates [cmd_line_arguments].  The catalog handler and the snapshot of
    the run configuration are not modelled. *)
Definition set_up_run_log (ex : Executor) : Executor :=
  let run_log := Datastore.create_run_log (run_id ex) in
  let arguments := cmd_line_arguments ex in
  let use_cached := match previous_run_log ex with Some _ => true | None => false end in
  let arguments :=
    match previous_run_log ex with
    | Some previous => parameters previous ∪ arguments
    | None => arguments
    end in
  let run_log :=
    {| rl_run_id := rl_run_id run_log; rl_dag_hash := dag_hash ex; rl_tag := tag ex;
       rl_use_cached := use_cached;
       original_run_id := rl_run_id <$> previous_run_log ex;
       rl_status := PROCESSING; parameters := arguments;
       steps := steps run_log; branches := branches run_log |} in
  set_store (Datastore.put_run_log (run_log_store ex) run_log)
            (set_cmd_line_arguments arguments ex).

(** [prepare_for_graph_execution]: the integration hooks do not touch the
    modelled state. *)
Definition prepare_for_graph_execution (ex : Executor) : Executor :=
  set_up_run_log ex.

Definition send_return_code (ex : Executor) : result unit :=
  run_log ← Datastore.get_run_log_by_id (run_log_store ex) (run_id ex);
  if decide (rl_status run_log = FAIL) then Raise (Exception "Pipeline execution failed")
  else Ok ().

(** The "re run settings" of [execute]: load the previous run log and
    compare the hashes. *)
Definition attach_previous_run (mode_executor : Executor) (re_run_id : option string)
    (use_cached use_cached_force : bool) : result Executor :=
  if use_cached || use_cached_force then
    previous_run_log ←
      match re_run_id with
      | Some r => Datastore.get_run_log_by_id (run_log_store mode_executor) r
      | None => Raise RunLogNotFoundError
      end;
    if negb (String.eqb (rl_dag_hash previous_run_log) (dag_hash mode_executor))
       && negb use_cached_force
    then Raise (Exception "Not using the cached run as the dag hash did not match, use --use-cached-force if you want to force")
    else Ok (set_previous_run_log (Some previous_run_log) mode_executor)
  else Ok mode_executor.

(** What [execute] does after the re-run settings: prepare, traverse the
    graph, report. *)
Definition run_graph (fuel : nat) (mode_executor : Executor) : result Executor :=
  let mode_executor := prepare_for_graph_execution mode_executor in
  '(mode_executor, _) ←
    Executors.execute_graph fuel (dag mode_executor) None mode_executor;
  _ ← send_return_code mode_executor;
  Ok mode_executor.

(** [execute], from the executor prepared by [prepare_configurations]
    (which loads the documents and wires the providers).  [re_run_id] is
    the run id given on the command line, [kwargs] the parameters. *)
Definition execute (fuel : nat) (mode_executor : Executor) (re_run_id : option string)
    (use_cached use_cached_force : bool) (kwargs : gmap string pyval)
  : result Executor :=
  let mode_executor := set_cmd_line_arguments kwargs mode_executor in
  mode_executor ← attach_previous_run mode_executor re_run_id use_cached use_cached_force;
  run_graph fuel mode_executor.
End Pipeline.
End Pipeline.

(* ===================================================================== *)
(** ** Building a graph from a pipeline document *)
(* ===================================================================== *)

Module GraphBuild.
Section GraphBuild.
Context `{PyBuiltins} `{UserCode}.

(** [d.get(k)] on a loaded mapping. *)
Definition dict_get (k : string) (d : list (string * pyval)) : option pyval :=
  snd <$> (snd <$> list_find (fun kv => String.eqb (fst kv) k) d).

(** [nodes.get_node_class]: the class whose [node_type] is asked for, as
    the constructor call it stands for. *)
Definition get_node_class (create_graph : pyval -> option string -> result Graph)
    (node_type : pyval)
  : result (string -> string -> gmap string pyval -> option string -> result Node) :=
  match node_type with
  | PStr "task" => Ok (fun n i c b => Ok (TaskNode (Nodes.BaseNode_init n i c b)))
  | PStr "fail" => Ok (fun n i c b => Ok (FailNode (Nodes.BaseNode_init n i c b)))
  | PStr "success" => Ok (fun n i c b => Ok (SuccessNode (Nodes.BaseNode_init n i c b)))
  | PStr "as-is" => Ok (fun n i c b => Ok (Nodes.AsISNode_init n i c b))
  | PStr "parallel" => Ok (Nodes.ParallelNode_init create_graph)
  | PStr "map" => Ok (Nodes.MapNode_init create_graph)
  | PStr "dag" => Ok (Nodes.DagNode_init create_graph)
  | _ => Raise (Exception "Node type not found")
  end.

(** The checks of [nodes.validate_node] on the name of a node.  Its other
    checks read a table of required fields per node type, which is not part
    of the sources at hand. *)
Definition validate_node_name (n : Node) : list string :=
  let messages : list string := [] in
  let messages :=
    if occurs "." (name (base n))
    then (messages ++ ["Node names cannot have . in them"])%list else messages in
  if occurs "%" (name (base n))
  then (messages ++ ["Node names cannot have '%' in them"])%list else messages.

Section Steps.
Variable create_graph : pyval -> option string -> result Graph.

Fixpoint build_nodes (internal_branch_name : option string)
    (steps : list (string * pyval)) : result (list Node) :=
  match steps with
  | [] => Ok []
  | (step, step_config) :: rest =>
      match step_config with
      | PDict c =>
          match dict_get "type" c with
          | None => Raise (KeyError "type")
          | Some node_type =>
              make ← get_node_class create_graph node_type;
              let internal_name :=
                match internal_branch_name with
                | Some b => if String.eqb b "" then step else b +:+ "." +:+ step
                | None => step
                end in
              node ← make step internal_name (list_to_map c) internal_branch_name;
              match validate_node_name node with
              | [] => others ← build_nodes internal_branch_name rest; Ok (node :: others)
              | _ => Raise (Exception "Node validation failed")
              end
          end
      | _ => Raise TypeError
      end
  end.
End Steps.

(** Modelled from the spec: [magnus.graph.create_graph] is not part of the
    sources at hand.  It reads [start_at] and the [steps] of the [dag]
    block, builds one node per step with its dot-path internal name, and
    validates the graph.  [fuel] bounds the nesting of composite nodes. *)
Fixpoint create_graph (fuel : nat) (dag_config : pyval)
    (internal_branch_name : option string) : result Graph :=
  match fuel with
  | O => Raise OutOfFuel
  | S fuel' =>
      match dag_config with
      | PDict d =>
          steps ← match dict_get "steps" d with
                  | None => Ok []
                  | Some (PDict steps) => Ok steps
                  | Some _ => Raise TypeError
                  end;
          nodes ← build_nodes (create_graph fuel') internal_branch_name steps;
          let graph :=
            mkGraph (default PNone (dict_get "start_at" d)) internal_branch_name nodes in
          _ ← GraphOps.validate graph;
          Ok graph
      | _ => Raise AttributeError
      end
  end.
End GraphBuild.
End GraphBuild.

(* ===================================================================== *)
(** ** A concrete environment for running the model *)
(* ===================================================================== *)

(** Decimal digits as an integer; [None] on any other character. *)
Fixpoint digits_value (acc : Z) (s : string) : option Z :=
  match s with
  | EmptyString => Some acc
  | String c s' =>
      let n := nat_of_ascii c in
      if (48 <=? n)%nat && (n <=? 57)%nat
      then digits_value (10 * acc + Z.of_nat (n - 48)) s'
      else None
  end.

(** Builtins for the examples: [int] reads non-empty strings of ASCII
    digits, on which it agrees with Python, and rejects every other string
    (Python also accepts a sign, blanks and underscores); scalars print as
    in Python and containers, which no example prints, as an ellipsis. *)
#[export] Instance plain_builtins : PyBuiltins := {|
  int_of_str s :=
    match s with
    | EmptyString => Raise ValueError
    | _ => match digits_value 0 s with
           | Some z => Ok z
           | None => Raise ValueError
           end
    end;
  repr_other v :=
    match v with
    | PNone => "None"
    | PBool true => "True"
    | PBool false => "False"
    | PInt z => pretty z
    | _ => "..."
    end
|}.

(** User code for the examples: the command [exit 1] fails, the command
    [flaky] fails the first two times any command is run, every other
    command succeeds and sets no parameter; no file can be read; the
    catalog handler finds every file but [missing.csv]. *)
#[export] Instance scripted_user_code : UserCode := {|
  run_command k command mv env :=
    match command with
    | PStr "exit 1" => Raise (Exception "non-zero exit")
    | PStr "flaky" => if (k <? 2)%nat then Raise (Exception "non-zero exit") else Ok ∅
    | _ => Ok ∅
    end;
  load_yaml file := Raise (Exception "file not found");
  catalog_compute_data_folder := PStr "data";
  catalog_handler k stage name_pattern run_id compute_data_folder synced_catalogs :=
    match name_pattern with
    | PStr "missing.csv" => Raise (Exception "no such file")
    | PStr name => Ok [ {| dc_name := name; data_hash := ""; dc_stage := stage |} ]
    | _ => Raise TypeError
    end
|}.

(* ===================================================================== *)
(** ** Specification predicates *)
(* ===================================================================== *)

(** An ordered dictionary whose values are the given strings. *)
Definition string_items (items : list (pyval * string)) : list (pyval * pyval) :=
  map (fun kv => (fst kv, PStr (snd kv))) items.

(** [replaces_leftmost v s s']: [s'] is [s] with its leftmost placeholder
    replaced by [v]; in particular [s] has a placeholder. *)
Inductive replaces_leftmost (v : string) : string -> string -> Prop :=
| replaces_leftmost_at (pre post : string) :
    occurs "%" pre = false ->
    replaces_leftmost v (pre +:+ "%" +:+ post) (pre +:+ v +:+ post).

(** The reading "exactly one placeholder is replaced for each key, in
    insertion order". *)
Inductive one_per_key : list (pyval * string) -> string -> string -> Prop :=
| one_per_key_done (name : string) : one_per_key [] name name
| one_per_key_step (k : pyval) (v : string) (rest : list (pyval * string))
    (name name' name'' : string) :
    replaces_leftmost v name name' ->
    one_per_key rest name' name'' ->
    one_per_key ((k, v) :: rest) name name''.

(** The reading "for each key, in insertion order, the leftmost remaining
    placeholder is replaced if there is one". *)
Inductive at_most_one_per_key : list (pyval * string) -> string -> string -> Prop :=
| at_most_one_done (name : string) : at_most_one_per_key [] name name
| at_most_one_hit (k : pyval) (v : string) (rest : list (pyval * string))
    (name name' name'' : string) :
    replaces_leftmost v name name' ->
    at_most_one_per_key rest name' name'' ->
    at_most_one_per_key ((k, v) :: rest) name name''
| at_most_one_miss (k : pyval) (v : string) (rest : list (pyval * string))
    (name name'' : string) :
    occurs "%" name = false ->
    at_most_one_per_key rest name name'' ->
    at_most_one_per_key ((k, v) :: rest) name name''.

(** The run log of the current run is in the store. *)
Definition has_run_log (st : RunLogStore) (run_id : string) : Prop :=
  is_Some (st !! run_id).

(** A branch log is filed under its own name. *)
Definition filed_under (branch_name : option string) (l : RunOrBranchLog) : Prop :=
  match l with
  | IsRunLog _ => True
  | IsBranchLog b => branch_name = Some (bl_internal_name b)
  end.

(** The child branch logs of a composite step as the store has them:
    [statuses] are the statuses of the branch logs filed under the names
    that [name_of] gives for the items of the loop. *)
Definition children_statuses {A} (name_of : A -> result string) (items : list A)
    (st : RunLogStore) (run_id : string) (statuses : list status) : Prop :=
  Forall2 (fun x s => exists n l,
             name_of x = Ok n
             /\ Datastore.get_branch_log st (Some n) run_id = Ok l
             /\ log_status l = s)
          items statuses.

(** The status of a composite step against those of its children, in the
    reading "SUCCESS iff every child is SUCCESS; FAIL iff some child is
    FAIL and every other child is not PROCESSING; otherwise PROCESSING". *)
Definition reconciled_as_stated (statuses : list status) (s : status) : Prop :=
  (s = SUCCESS <-> Forall (fun c => c = SUCCESS) statuses)
  /\ (s = FAIL <->
      exists i, statuses !! i = Some FAIL
                /\ forall j c, j <> i -> statuses !! j = Some c -> c <> PROCESSING)
  /\ (s <> SUCCESS -> s <> FAIL -> s = PROCESSING).

(** The same in the reading "SUCCESS iff no child is FAIL or PROCESSING;
    FAIL iff some child is FAIL; otherwise PROCESSING". *)
Definition reconciled (statuses : list status) (s : status) : Prop :=
  (s = SUCCESS <-> Forall (fun c => c <> FAIL /\ c <> PROCESSING) statuses)
  /\ (s = FAIL <-> Exists (fun c => c = FAIL) statuses)
  /\ (s <> SUCCESS -> s <> FAIL -> s = PROCESSING).

(** The status that the two flags of the join select. *)
Definition collated_status (step_success_bool waiting : bool) : status :=
  if step_success_bool then if negb waiting then SUCCESS else PROCESSING else FAIL.

(** [reconciles name_of items statuses name run_id st r]: the reconciliation
    whose outcome is [r] returns a store in which the step log filed under
    [name] has the status that [reconciled] prescribes for the statuses of
    the children, and in which the children are as they were. *)
Definition reconciles {A} (name_of : A -> result string) (items : list A)
    (statuses : list status) (name run_id : string) (r : result RunLogStore) : Prop :=
  exists st' step_log',
    r = Ok st'
    /\ Datastore.get_step_log st' name run_id = Ok step_log'
    /\ reconciled statuses (sl_status step_log')
    /\ children_statuses name_of items st' run_id statuses.

(** A store for the examples: the run [r1] with a parallel step [p] in
    progress, whose branch [p.a] has failed while the branch [p.b] is
    still in progress. *)
Definition empty_graph : Graph := mkGraph PNone None [].

Definition parallel_p : NodeBase :=
  {| name := "p"; internal_name := "p"; config := ∅; internal_branch_name := None |}.

Definition branches_p : list (string * Graph) :=
  [("p.a", empty_graph); ("p.b", empty_graph)].

Definition store_p : RunLogStore :=
  {[ "r1" :=
     {| rl_run_id := "r1"; rl_dag_hash := "h"; rl_tag := ""; rl_use_cached := false;
        original_run_id := None; rl_status := PROCESSING; parameters := ∅;
        steps := {[ "p" := set_step_type "parallel" (Datastore.create_step_log "p" "p") ]};
        branches := {[ "p.a" := {| bl_internal_name := "p.a"; bl_status := FAIL |};
                       "p.b" := {| bl_internal_name := "p.b"; bl_status := PROCESSING |} ]}
     |} ]}.

(** The nodes that have an [execute] method of their own. *)
Definition is_leaf (n : Node) : bool :=
  match n with
  | TaskNode _ | FailNode _ | SuccessNode _ | AsISNode _ _ => true
  | ParallelNode _ _ | MapNode _ _ _ _ | DagNode _ _ _ => false
  end.

(** What the retry loop of [execute_node] has done to a step log:
    [appended] are the attempt logs it added, within the budget of
    [max_attempts]; the step is SUCCESS exactly when the last of them is;
    and it is FAIL when the budget is used up by failed attempts. *)
Definition retried (max_attempts : Z) (before after : StepLog)
    (appended : list AttemptLog) : Prop :=
  attempts after = (attempts before ++ appended)%list
  /\ (Z.of_nat (length appended) <= max_attempts)%Z
  /\ (sl_status after = SUCCESS <->
      exists a, last appended = Some a /\ al_status a = SUCCESS)
  /\ (Z.of_nat (length appended) = max_attempts ->
      Forall (fun a => al_status a = FAIL) appended ->
      sl_status after = FAIL).

(** The catalog syncs of a node succeed in a run: whatever the step log,
    the stage, the data catalogs synced before and the executor state of
    that run, [sync_catalog] returns.  It does so for a node without
    catalog settings, and for one whose settings are well formed when the
    handler finds the files. *)
Definition catalog_syncs `{UserCode} (node : Node) (current_run : string) : Prop :=
  forall (step_log : StepLog) (stage : string)
         (synced_catalogs : option (list DataCatalog)) (ex : Executor),
    stage = "get" \/ stage = "put" ->
    run_id ex = current_run ->
    is_ok (Executors.sync_catalog node step_log stage synced_catalogs ex) = true.

(** The nodes met on the way that starts at [current_node] and goes from
    each node to its [next]. *)
Fixpoint follows_next `{PyBuiltins} `{UserCode} (g : Graph) (current_node : pyval)
    (path : list Node) : Prop :=
  match path with
  | [] => True
  | n :: rest =>
      GraphOps.get_node_by_name g current_node = Ok n
      /\ follows_next g (Nodes.get_next_node (base n)) rest
  end.

(** An executor for the examples: run [r1], no previous run, the given
    step logs already stored in the run log. *)
Definition run_with_steps (run_id : string) (l : list StepLog) : RunLog :=
  {| rl_run_id := run_id; rl_dag_hash := "h"; rl_tag := ""; rl_use_cached := false;
     original_run_id := None; rl_status := PROCESSING; parameters := ∅;
     steps := list_to_map (map (fun s => (sl_internal_name s, s)) l);
     branches := ∅ |}.

Definition executor_with (run_id : string) (previous : option RunLog)
    (st : RunLogStore) (g : Graph) : Executor :=
  {| run_id := run_id; dag_hash := "h"; tag := ""; dag := g;
     previous_run_log := previous; run_log_store := st;
     cmd_line_arguments := ∅; environ := ∅; commands_run := 0 |}.

(** A task with the given [retry] that runs the given command. *)
Definition task_with (name : string) (command : string) (retry : option pyval)
    (next : string) : NodeBase :=
  {| name := name; internal_name := name;
     config :=
       match retry with
       | Some r => <["retry" := r]> {[ "command" := PStr command; "next" := PStr next ]}
       | None => {[ "command" := PStr command; "next" := PStr next ]}
       end;
     internal_branch_name := None |}.

(** A task with a [retry] and well-formed catalog settings. *)
Definition task_with_catalog (name : string) (command : string) (retry : pyval)
    (next : string) : NodeBase :=
  {| name := name; internal_name := name;
     config :=
       <["catalog" := PDict [("get", PList [PStr "in.csv"]);
                             ("put", PList [PStr "out.csv"])]]>
         (config (task_with name command (Some retry) next));
     internal_branch_name := None |}.

Definition terminal_base (name : string) : NodeBase :=
  {| name := name; internal_name := name; config := ∅; internal_branch_name := None |}.

(** The reading "every step log of the run log is mocked and has no
    attempt logs", and "every step of the run log succeeded". *)
Definition all_steps_mocked (r : RunLog) : Prop :=
  forall name l, steps r !! name = Some l -> mock l = true /\ attempts l = [].

Definition all_steps_succeeded (r : RunLog) : Prop :=
  forall name l, steps r !! name = Some l -> sl_status l = SUCCESS.

(** Pipelines for the examples: [t1 -> success] with a fail node, and the
    pipeline that starts at its success node. *)
Definition t1_node : Node := TaskNode (task_with "t1" "echo hi" None "success").

Definition graph_t1 : Graph :=
  mkGraph (PStr "t1") None
    [t1_node; SuccessNode (terminal_base "success"); FailNode (terminal_base "fail")].

Definition graph_terminal : Graph :=
  mkGraph (PStr "success") None
    [SuccessNode (terminal_base "success"); FailNode (terminal_base "fail")].

Definition succeeded (name step_type : string) : StepLog :=
  {| sl_name := name; sl_internal_name := name; step_type := step_type;
     sl_status := SUCCESS; mock := false; sl_message := "";
     attempts := [ {| attempt_numner := 0; al_status := SUCCESS; al_message := "" |} ];
     data_catalogs := [] |}.

(** A previous run [r1] of [graph_t1] in which every step succeeded, and
    one of [graph_terminal]. *)
Definition previous_t1 : RunLog :=
  set_run_status SUCCESS
    (run_with_steps "r1" [succeeded "t1" "task"; succeeded "success" "success"]).

Definition previous_terminal : RunLog :=
  set_run_status SUCCESS (run_with_steps "r1" [succeeded "success" "success"]).

(** The store of the examples of the retry loop: run [r1] with the step
    log of [t1] as [execute_from_graph] files it. *)
Definition store_t1 : RunLogStore :=
  {[ "r1" := run_with_steps "r1" [Datastore.create_step_log "t1" "t1"] ]}.

(** A map step [m] over the parameter [xs], whose branch is the pipeline
    that starts at its success node; and a run in which [xs] is the
    number 3. *)
Definition branch_document : pyval :=
  PDict [("start_at", PStr "success");
         ("steps", PDict [("success", PDict [("type", PStr "success")]);
                          ("fail", PDict [("type", PStr "fail")])])].

Definition map_config : gmap string pyval :=
  {[ "iterate_on" := PStr "xs"; "iterate_as" := PStr "x";
     "next" := PStr "success"; "branch" := branch_document ]}.

Definition store_xs : RunLogStore :=
  {[ "r1" := set_run_parameters {[ "xs" := PInt 3 ]}
               (run_with_steps "r1"
                  [set_step_type "map" (Datastore.create_step_log "m" "m")]) ]}.

(** Further data for the examples: the step log of [t1] stored as FAIL; a
    previous run of another DAG. *)
Definition store_t1_failed : RunLogStore :=
  {[ "r1" := run_with_steps "r1"
               [set_step_status FAIL (Datastore.create_step_log "t1" "t1")] ]}.

Definition previous_other_dag : RunLog :=
  {| rl_run_id := "r1"; rl_dag_hash := "another hash"; rl_tag := "";
     rl_use_cached := false; original_run_id := None; rl_status := SUCCESS;
     parameters := ∅; steps := ∅; branches := ∅ |}.

(** Pipeline documents for the scenarios: a branch with one task; a
    parallel step whose branch [B] fails; a map step inside a map step. *)
Definition one_task_document (command : string) : pyval :=
  PDict [("start_at", PStr "t");
         ("steps",
          PDict [("t", PDict [("type", PStr "task"); ("command", PStr command);
                              ("next", PStr "success")]);
                 ("success", PDict [("type", PStr "success")]);
                 ("fail", PDict [("type", PStr "fail")])])].

Definition parallel_document : pyval :=
  PDict [("start_at", PStr "p");
         ("steps",
          PDict [("p", PDict [("type", PStr "parallel"); ("next", PStr "success");
                              ("branches",
                               PDict [("A", one_task_document "echo hi");
                                      ("B", one_task_document "exit 1")])]);
                 ("success", PDict [("type", PStr "success")]);
                 ("fail", PDict [("type", PStr "fail")])])].

Definition nested_map_document : pyval :=
  PDict [("start_at", PStr "m");
         ("steps",
          PDict [("m", PDict [("type", PStr "map"); ("next", PStr "success");
                              ("iterate_on", PStr "xs"); ("iterate_as", PStr "x");
                              ("branch",
                               PDict [("start_at", PStr "n");
                                      ("steps",
                                       PDict [("n", PDict [("type", PStr "map");
                                                           ("next", PStr "success");
                                                           ("iterate_on", PStr "ys");
                                                           ("iterate_as", PStr "y");
                                                           ("branch", one_task_document "echo hi")]);
                                              ("success", PDict [("type", PStr "success")]);
                                              ("fail", PDict [("type", PStr "fail")])])])]);
                 ("success", PDict [("type", PStr "success")]);
                 ("fail", PDict [("type", PStr "fail")])])].

(** The statuses of the step logs and of the branch logs of a run, by name. *)
Definition step_statuses (ex : Executor) (run_id : string) : list (string * status) :=
  match run_log_store ex !! run_id with
  | Some r => map (fun kv => (fst kv, sl_status (snd kv))) (map_to_list (steps r))
  | None => []
  end.

Definition branch_statuses (ex : Executor) (run_id : string) : list (string * status) :=
  match run_log_store ex !! run_id with
  | Some r => map (fun kv => (fst kv, bl_status (snd kv))) (map_to_list (branches r))
  | None => []
  end.

(* --------------------------------------------------------------------- *)
(** *** nodes.py: names on the command line, branches, validation *)
(* --------------------------------------------------------------------- *)

(** Modelled from the spec: [defaults.COMMAND_FRIENDLY_CHARACTER] is not
    part of the sources at hand; the docstring of
    [get_internal_name_from_command_name] and the spec give it as [%]. *)
Definition COMMAND_FRIENDLY_CHARACTER : ascii := "%".

(** [s.replace(old, new)] for a one-character [old], as in both uses of
    [str.replace] without a count in [nodes.py]: every occurrence is
    replaced. *)
Fixpoint replace_char (old : ascii) (new : string) (s : string) : string :=
  match s with
  | EmptyString => EmptyString
  | String c s' =>
      if Ascii.eqb c old then new +:+ replace_char old new s'
      else String c (replace_char old new s')
  end.

(** [BaseNode.command_friendly_name], with its default [replace_with]. *)
Definition command_friendly_name (b : NodeBase) : string :=
  replace_char " " (String COMMAND_FRIENDLY_CHARACTER EmptyString) (internal_name b).

(** [BaseNode.get_internal_name_from_command_name] *)
Definition get_internal_name_from_command_name (command_name : string) : string :=
  replace_char COMMAND_FRIENDLY_CHARACTER " " command_name.

(** [get_branch_by_name], by class: a parallel node looks the name up in
    its branches, a map node returns its one branch whatever the name, a
    dag node accepts its own branch name only, and the nodes without
    branches raise. *)
Definition get_branch_by_name (n : Node) (branch_name : string) : result Graph :=
  match n with
  | ParallelNode b branches =>
      match dict_lookup branch_name branches with
      | Some g => Ok g
      | None => Raise (Exception "No branch by that name is present")
      end
  | MapNode _ _ _ branch => Ok branch
  | DagNode b _ branch =>
      if negb (String.eqb branch_name (Nodes.DagNode_internal_branch_name b))
      then Raise (Exception "Node of type dag only allows a branch of name dag")
      else Ok branch
  | TaskNode _ | FailNode _ | SuccessNode _ | AsISNode _ _ =>
      Raise (Exception "Node does not have any branches")
  end.

(** The table that [validate_node] loads from [defaults.NODE_SPEC_FILE]
    (not part of the sources at hand): per node type, the fields that are
    required and those that are an error, each list being optional. *)
Record NodeSpec := {
  required : option (list string);
  error_on : option (list string)
}.

(** The two loops of [validate_node]. *)
Fixpoint required_messages (node_name : string) (config : gmap string pyval)
    (reqs : list string) (messages : list string) : list string :=
  match reqs with
  | [] => messages
  | req :: rest =>
      required_messages node_name config rest
        (if negb (bool_decide (is_Some (config !! req)))
         then (messages ++ [node_name +:+ " should have " +:+ req +:+ " field"])%list
         else messages)
  end.

Fixpoint error_on_messages (node_name : string) (config : gmap string pyval)
    (errs : list string) (messages : list string) : list string :=
  match errs with
  | [] => messages
  | err :: rest =>
      error_on_messages node_name config rest
        (if bool_decide (is_Some (config !! err))
         then (messages ++ [node_name +:+ " should not have " +:+ err +:+ " field"])%list
         else messages)
  end.

(** [nodes.validate_node], given the loaded table. *)
Definition validate_node (specs : list (string * NodeSpec)) (n : Node)
  : result (list string) :=
  match dict_lookup (node_type n) specs with
  | None => Raise (Exception "Undefined node type, please update specs")
  | Some node_spec =>
      let messages : list string := [] in
      let messages :=
        if occurs "." (name (base n))
        then (messages ++ ["Node names cannot have . in them"])%list else messages in
      let messages :=
        if occurs "%" (name (base n))
        then (messages ++ ["Node names cannot have '%' in them"])%list else messages in
      let messages :=
        match required node_spec with
        | Some reqs => required_messages (name (base n)) (config (base n)) reqs messages
        | None => messages
        end in
      let messages :=
        match error_on node_spec with
        | Some errs => error_on_messages (name (base n)) (config (base n)) errs messages
        | None => messages
        end in
      Ok messages
  end.

(** The number of occurrences of a character in a string. *)
Fixpoint count_char (c : ascii) (s : string) : nat :=
  match s with
  | EmptyString => 0
  | String d s' => (if Ascii.eqb c d then 1 else 0) + count_char c s'
  end.

(* --------------------------------------------------------------------- *)
(** *** executor.py: the container mode and the demo renderer *)
(* --------------------------------------------------------------------- *)

(** [isinstance(v, str)] *)
Definition is_str (v : pyval) : bool :=
  match v with PStr _ => true | _ => false end.

Module LocalContainerExecutor.
Section LocalContainerExecutor.
Context `{PyBuiltins} `{UserCode}.

(** [_spin_container] runs [magnus execute_single_node] in a container,
    which writes to the run log store of the run; docker lies outside the
    engine. *)
Variable spin_container : Node -> map_variable -> Executor -> result Executor.

(** [LocalContainerExecutor.trigger_job] *)
Definition trigger_job (node : Node) (mv : map_variable) (ex : Executor)
  : result Executor :=
  ex ← spin_container node mv ex;
  step_log_name ← Nodes.get_step_log_name (base node) mv;
  step_log ← Datastore.get_step_log (run_log_store ex) step_log_name (run_id ex);
  if decide (sl_status step_log = SUCCESS) then Ok ex
  else
    let step_log := set_step_status FAIL step_log in
    st ← Datastore.add_step_log (run_log_store ex) step_log (run_id ex);
    Ok (set_store st ex).
End LocalContainerExecutor.
End LocalContainerExecutor.

Module DemoRenderer.
Section DemoRenderer.
Context `{PyBuiltins} `{UserCode}.

(** Modelled from the spec: [utils.get_node_execution_command] is not part
    of the sources at hand; it gives the command line that runs one node
    through [execute_single_node], here with the run id [$1]. *)
Variable get_node_execution_command : Node -> string.

(** [DemoRenderer.prepare_for_node_execution]: the run log is set up when
    it is not there yet, and the step log of the node is filed. *)
Definition prepare_for_node_execution (node : Node) (mv : map_variable) (ex : Executor)
  : result Executor :=
  ex ← match Datastore.get_run_log_by_id (run_log_store ex) (run_id ex) with
       | Ok _ => Ok ex
       | Raise RunLogNotFoundError => Ok (Pipeline.set_up_run_log ex)
       | Raise e => Raise e
       end;
  step_log_name ← Nodes.get_step_log_name (base node) mv;
  let step_log := Datastore.create_step_log (name (base node)) step_log_name in
  let step_log := set_step_type (node_type node) step_log in
  let step_log := set_step_status PROCESSING step_log in
  st ← Datastore.add_step_log (run_log_store ex) step_log (run_id ex);
  Ok (set_store st ex).

(** [DemoRenderer.sync_catalog]: the call of the method of the base class
    passes no [synced_catalogs], and what it returns is dropped. *)
Definition sync_catalog (node : Node) (step_log : StepLog) (stage : string)
    (synced_catalogs : option (list DataCatalog)) (ex : Executor)
  : result (option (list DataCatalog) * StepLog) :=
  '(_, step_log) ← Executors.BaseExecutor_sync_catalog "demo-renderer" node step_log
                     stage None ex;
  Ok (None, step_log).

(** [DemoRenderer.execute_node] *)
Definition execute_node (node : Node) (mv : map_variable) (ex : Executor)
  : result Executor :=
  ex ← Executors.BaseExecutor_execute_node sync_catalog node mv ex;
  step_log_name ← Nodes.get_step_log_name (base node) mv;
  step_log ← Datastore.get_step_log (run_log_store ex) step_log_name (run_id ex);
  if decide (sl_status step_log = FAIL) then
    Raise (Exception ("Step " +:+ name (base node) +:+ " failed"))
  else Ok ex.

(** [DemoRenderer.trigger_job] *)
Definition trigger_job (node : Node) (mv : map_variable) (ex : Executor)
  : result Executor :=
  ex ← prepare_for_node_execution node mv ex;
  execute_node node mv ex.

Definition newline : string := String "010"%char EmptyString.
Definition tab : string := String "009"%char EmptyString.

(** The lines that [execute_graph] appends for a node that is not a
    terminal node: its command, the exit code, and the call of the fail
    node when the exit code is not zero. *)
Definition step_lines (execute_node_command fail_node_command : string) : list string :=
  [execute_node_command +:+ newline;
   "exit_code=$?" +:+ newline +:+ "echo $exit_code" +:+ newline;
   "if [ $exit_code -ne 0 ];" +:+ newline +:+ "then" +:+ newline
   +:+ tab +:+ " $(" +:+ fail_node_command +:+ ")" +:+ newline
   +:+ tab +:+ "exit 1" +:+ newline
   +:+ "fi" +:+ newline].

(** [DemoRenderer.execute_graph]: [render] is its [while True] loop, which
    builds [bash_script_lines]; [fuel] bounds the number of iterations.
    The current node has been found by its name when it is compared with
    the previous one; [current_job_id] is computed and not used. *)
Fixpoint render (fuel : nat) (dag : Graph) (current_node : pyval)
    (previous_node : option string) (bash_script_lines : list string)
  : result (list string) :=
  match fuel with
  | O => Raise OutOfFuel
  | S fuel' =>
      working_on ← GraphOps.get_node_by_name dag current_node;
      if Executors.is_composite_type working_on then Raise NotImplementedError
      else if bool_decide (previous_node = Some (name (base working_on))) then
        Raise (Exception "Potentially running in a infinite loop")
      else
        let previous_node := Some (name (base working_on)) in
        let execute_node_command := get_node_execution_command working_on in
        fail_node ← GraphOps.get_fail_node dag;
        let fail_node_command := get_node_execution_command fail_node in
        let bash_script_lines :=
          if negb (Executors.is_terminal_type working_on) then
            (bash_script_lines ++ step_lines execute_node_command fail_node_command)%list
          else bash_script_lines in
        let bash_script_lines :=
          if String.eqb (node_type working_on) "success" then
            (bash_script_lines ++ [execute_node_command])%list
          else bash_script_lines in
        if Executors.is_terminal_type working_on then Ok bash_script_lines
        else render fuel' dag (Nodes.get_next_node (base working_on)) previous_node
                    bash_script_lines
  end.

Definition execute_graph (fuel : nat) (dag : Graph) : result (list string) :=
  render fuel dag (start_at dag) None [].
End DemoRenderer.
End DemoRenderer.

(** Further data for the examples: a map step [m] over [xs], runs in which
    [xs] is the empty list, and in which no step log is on file; a graph
    whose task leads back to itself,
    and one without a fail node; a parallel step with two branches, built
    over a [create_graph] that gives empty graphs; a task with catalog
    settings and a handler that gives back the pattern it is asked for. *)
Definition map_m : Node :=
  MapNode (terminal_base "m") (PStr "xs") (PStr "x") empty_graph.

Definition store_xs_empty : RunLogStore :=
  {[ "r1" := set_run_parameters {[ "xs" := PList [] ]}
               (run_with_steps "r1"
                  [set_step_type "map" (Datastore.create_step_log "m" "m")]) ]}.

Definition store_r1_empty : RunLogStore := {[ "r1" := run_with_steps "r1" [] ]}.

Definition graph_loop : Graph :=
  mkGraph (PStr "t1") None
    [TaskNode (task_with "t1" "echo hi" None "t1");
     SuccessNode (terminal_base "success"); FailNode (terminal_base "fail")].

Definition graph_no_fail : Graph :=
  mkGraph (PStr "t1") None [t1_node; SuccessNode (terminal_base "success")].

Definition parallel_branches : list (string * pyval) := [("a", PNone); ("b", PNone)].

Definition parallel_config : gmap string pyval :=
  {[ "branches" := PDict parallel_branches; "next" := PStr "success" ]}.

Definition empty_create_graph (config : pyval) (internal_branch_name : option string)
  : result Graph :=
  Ok (mkGraph PNone internal_branch_name []).

Definition catalog_task : Node :=
  TaskNode {| name := "t1"; internal_name := "t1";
              config := {[ "command" := PStr "echo hi";
                           "catalog" := PDict [("get", PList [PStr "a.csv"; PStr "b.csv"])] ]};
              internal_branch_name := None |}.

Definition echo_handler (stage : string) (name_pattern : pyval) (run_id : string)
    (compute_data_folder : pyval) (synced_catalogs : option (list pyval))
  : result (list pyval) :=
  Ok [name_pattern].

(* ===================================================================== *)
(** ** Strings and placeholders *)
(* ===================================================================== *)

Lemma append_cons (c : ascii) (s t : string) :
  String c s +:+ t = String c (s +:+ t).
Proof. reflexivity. Qed.

Lemma append_nil_l (t : string) : "" +:+ t = t.
Proof. reflexivity. Qed.

Lemma append_nil_r (s : string) : s +:+ "" = s.
Proof.
  induction s as [|c s IH]; [reflexivity|].
  now rewrite append_cons, IH.
Qed.

Lemma append_assoc (a b c : string) : (a +:+ b) +:+ c = a +:+ (b +:+ c).
Proof.
  induction a as [|x a IH]; [reflexivity|].
  now rewrite !append_cons, IH.
Qed.

Lemma occurs_append (c : ascii) (a b : string) :
  occurs c (a +:+ b) = occurs c a || occurs c b.
Proof.
  induction a as [|x a IH]; [reflexivity|].
  rewrite append_cons. cbn [occurs]. rewrite IH. now rewrite orb_assoc.
Qed.

Lemma prefix_placeholder (c : ascii) (s : string) :
  String.prefix MAP_PLACEHOLDER (String c s) = Ascii.eqb "%" c.
Proof.
  unfold MAP_PLACEHOLDER. cbn [String.prefix].
  destruct (ascii_dec "%" c) as [<-|Hne].
  - rewrite Ascii.eqb_refl. now destruct s.
  - symmetry. now apply Ascii.eqb_neq.
Qed.

Lemma replace_first_cons (v : string) (c : ascii) (s : string) :
  replace_first MAP_PLACEHOLDER v (String c s)
  = if Ascii.eqb "%" c then v +:+ s
    else String c (replace_first MAP_PLACEHOLDER v s).
Proof.
  cbn [replace_first]. rewrite prefix_placeholder.
  destruct (Ascii.eqb "%" c); reflexivity.
Qed.

(** Without a placeholder, [replace] returns the string as it is. *)
Lemma replace_first_miss (v s : string) :
  occurs "%" s = false -> replace_first MAP_PLACEHOLDER v s = s.
Proof.
  induction s as [|c s IH]; intros Hocc.
  - reflexivity.
  - cbn [occurs] in Hocc. apply orb_false_iff in Hocc as [Hc Hs].
    rewrite replace_first_cons, Hc. now rewrite IH.
Qed.

(** With one, the leftmost is replaced and the rest is kept. *)
Lemma replace_first_hit (v pre post : string) :
  occurs "%" pre = false ->
  replace_first MAP_PLACEHOLDER v (pre +:+ "%" +:+ post) = pre +:+ v +:+ post.
Proof.
  change ("%" +:+ post) with (String "%" post).
  induction pre as [|c pre IH]; intros Hocc.
  - rewrite !append_nil_l. now rewrite replace_first_cons.
  - cbn [occurs] in Hocc. apply orb_false_iff in Hocc as [Hc Hs].
    rewrite (append_cons c pre (String "%" post)), (append_cons c pre (v +:+ post)).
    rewrite replace_first_cons, Hc. now rewrite IH.
Qed.

(** A string has no placeholder or splits at its leftmost one. *)
Lemma leftmost_placeholder (s : string) :
  occurs "%" s = false \/
  exists pre post, s = pre +:+ "%" +:+ post /\ occurs "%" pre = false.
Proof.
  induction s as [|c s IH].
  - now left.
  - cbn [occurs]. destruct (Ascii.eqb "%" c) eqn:Hc.
    + right. exists "", s. apply Ascii.eqb_eq in Hc as <-. now split.
    + destruct IH as [Hs | (pre & post & -> & Hpre)].
      * now left.
      * right. exists (String c pre), post. split; [reflexivity|].
        cbn [occurs]. now rewrite Hc.
Qed.

Lemma replaces_leftmost_replace (v s s' : string) :
  replaces_leftmost v s s' -> replace_first MAP_PLACEHOLDER v s = s'.
Proof. intros [pre post Hpre]. now apply replace_first_hit. Qed.

Lemma replaces_leftmost_occurs (v s s' : string) :
  replaces_leftmost v s s' -> occurs "%" s = true.
Proof.
  intros [pre post Hpre]. rewrite occurs_append.
  change ("%" +:+ post) with (String "%" post). cbn [occurs].
  rewrite Ascii.eqb_refl. now rewrite orb_true_r.
Qed.

(** The amended reading determines the result. *)
Lemma at_most_one_per_key_deterministic items name r1 r2 :
  at_most_one_per_key items name r1 -> at_most_one_per_key items name r2 -> r1 = r2.
Proof.
  intros H1. revert r2.
  induction H1 as [name | k v rest name name' name'' Hrep _ IH
                   | k v rest name name'' Hocc _ IH]; intros r2 H2.
  - now inversion H2.
  - inversion H2 as [| ? ? ? ? n2 ? Hrep2 Hrest2 | ? ? ? ? ? Hocc2 Hrest2]; subst.
    + apply IH. apply replaces_leftmost_replace in Hrep, Hrep2. congruence.
    + apply replaces_leftmost_occurs in Hrep. congruence.
  - inversion H2 as [| ? ? ? ? n2 ? Hrep2 Hrest2 | ? ? ? ? ? Hocc2 Hrest2]; subst.
    + apply replaces_leftmost_occurs in Hrep2. congruence.
    + now apply IH.
Qed.

Lemma replace_placeholders_at_most_one (items : list (pyval * string)) (name : string) :
  exists r, Nodes.replace_placeholders name (string_items items) = Ok r
            /\ at_most_one_per_key items name r.
Proof.
  revert name. induction items as [|[k v] rest IH]; intros name.
  - exists name. split; [reflexivity | constructor].
  - cbn [string_items map fst snd Nodes.replace_placeholders].
    destruct (leftmost_placeholder name) as [Hnone | (pre & post & -> & Hpre)].
    + rewrite (replace_first_miss v name Hnone).
      destruct (IH name) as (r & Hr & Hspec).
      exists r. split; [exact Hr|]. now apply at_most_one_miss.
    + rewrite (replace_first_hit v pre post Hpre).
      destruct (IH (pre +:+ v +:+ post)) as (r & Hr & Hspec).
      exists r. split; [exact Hr|].
      eapply at_most_one_hit; [|exact Hspec]. now constructor.
Qed.

(** C8, as amended.  For every name and every map variable with string
    values, [resolve_map_placeholders] returns the name in which, for each
    key in insertion order, the leftmost remaining placeholder has been
    replaced by the key's value when there is one, and nothing is replaced
    for a key that finds no placeholder left; without a map variable the
    name is returned as it is. *)
Theorem resolve_map_placeholders_at_most_one_per_key
    (name : string) (items : list (pyval * string)) :
  Nodes.resolve_map_placeholders name None = Ok name
  /\ exists r, Nodes.resolve_map_placeholders name (Some (string_items items)) = Ok r
               /\ at_most_one_per_key items name r.
Proof.
  split; [reflexivity|].
  destruct items as [|kv rest].
  - exists name. split; [reflexivity | constructor].
  - unfold Nodes.resolve_map_placeholders.
    cbn [string_items map map_variable_falsy default].
    apply (replace_placeholders_at_most_one (kv :: rest)).
Qed.

(** C8, as stated, fails: the name [m.a.n.b] has no placeholder left for
    the key [j], so nothing is replaced for it. *)
Lemma resolve_map_placeholders_exactly_one_counterexample :
  ~ exists r, Nodes.resolve_map_placeholders "m.a.n.b" (Some (string_items [(PStr "j", "b")]))
              = Ok r
              /\ one_per_key [(PStr "j", "b")] "m.a.n.b" r.
Proof.
  intros (r & _ & Hone).
  inversion Hone as [| ? ? ? ? ? ? Hrep _]; subst.
  apply replaces_leftmost_occurs in Hrep. discriminate Hrep.
Qed.

(* ===================================================================== *)
(** ** The run log store *)
(* ===================================================================== *)

Lemma get_run_log_by_id_Ok st run_id r :
  Datastore.get_run_log_by_id st run_id = Ok r <-> st !! run_id = Some r.
Proof.
  unfold Datastore.get_run_log_by_id.
  destruct (st !! run_id); split; intros Heq; congruence.
Qed.

Lemma get_run_log_by_id_insert st run_id r :
  Datastore.get_run_log_by_id (<[run_id := r]> st) run_id = Ok r.
Proof. apply get_run_log_by_id_Ok, lookup_insert_eq. Qed.

Lemma get_step_log_Ok st name run_id l :
  Datastore.get_step_log st name run_id = Ok l <->
  exists r, st !! run_id = Some r /\ steps r !! name = Some l.
Proof.
  unfold Datastore.get_step_log, Datastore.get_run_log_by_id,
    Datastore.search_step_by_internal_name.
  destruct (st !! run_id) as [r|]; cbn.
  - destruct (steps r !! name) as [l'|] eqn:Hl; split.
    + intros [= ->]. eauto.
    + intros (r' & [= <-] & Hl'). congruence.
    + discriminate.
    + intros (r' & [= <-] & Hl'). congruence.
  - split; [discriminate | intros (r' & Hr & _); discriminate].
Qed.

Lemma get_step_log_has_run_log st name run_id l :
  Datastore.get_step_log st name run_id = Ok l -> has_run_log st run_id.
Proof. intros (r & Hr & _)%get_step_log_Ok. now exists r. Qed.

Lemma add_step_log_Ok st l run_id :
  has_run_log st run_id ->
  exists r, st !! run_id = Some r /\
    Datastore.add_step_log st l run_id
    = Ok (<[run_id := set_run_steps (<[sl_internal_name l := l]> (steps r)) r]> st).
Proof.
  intros [r Hr]. exists r. split; [exact Hr|].
  unfold Datastore.add_step_log, Datastore.get_run_log_by_id. now rewrite Hr.
Qed.

Lemma get_step_log_add_step_log st st' l run_id :
  Datastore.add_step_log st l run_id = Ok st' ->
  Datastore.get_step_log st' (sl_internal_name l) run_id = Ok l.
Proof.
  unfold Datastore.add_step_log, Datastore.get_run_log_by_id.
  destruct (st !! run_id) as [r|]; cbn; [|discriminate].
  intros [= <-]. apply get_step_log_Ok. eexists. split.
  - apply lookup_insert_eq.
  - cbn. apply lookup_insert_eq.
Qed.

Lemma add_step_log_has_run_log st st' l run_id :
  Datastore.add_step_log st l run_id = Ok st' -> has_run_log st' run_id.
Proof.
  unfold Datastore.add_step_log, Datastore.get_run_log_by_id.
  destruct (st !! run_id) as [r|]; cbn; [|discriminate].
  intros [= <-]. eexists. apply lookup_insert_eq.
Qed.

Lemma add_branch_log_has_run_log st st' l run_id :
  Datastore.add_branch_log st l run_id = Ok st' -> has_run_log st' run_id.
Proof.
  unfold Datastore.add_branch_log, Datastore.get_run_log_by_id.
  destruct l as [r|b].
  - intros [= <-]. eexists. apply lookup_insert_eq.
  - destruct (st !! run_id) as [r|]; cbn [mbind result_bind]; [|discriminate].
    destruct (Datastore.search_step_by_internal_name r _);
      cbn [mbind result_bind]; [|discriminate].
    intros [= <-]. eexists. apply lookup_insert_eq.
Qed.

Lemma set_parameters_Ok st run_id p :
  has_run_log st run_id ->
  exists st', Datastore.set_parameters st run_id p = Ok st' /\ has_run_log st' run_id.
Proof.
  intros [r Hr]. unfold Datastore.set_parameters, Datastore.get_run_log_by_id.
  rewrite Hr. cbn. eexists. split; [reflexivity|].
  eexists. apply lookup_insert_eq.
Qed.

(** Storing a log with a new status and reading it back. *)
Lemma get_branch_log_add_branch_log st run_id branch_name l s :
  Datastore.get_branch_log st branch_name run_id = Ok l ->
  filed_under branch_name l ->
  exists st', Datastore.add_branch_log st (set_log_status s l) run_id = Ok st'
    /\ Datastore.get_branch_log st' branch_name run_id = Ok (set_log_status s l).
Proof.
  unfold Datastore.get_branch_log at 1. unfold Datastore.get_run_log_by_id.
  destruct (st !! run_id) as [r|] eqn:Hr; [|discriminate].
  change (Ok r ≫= ?f) with (f r). cbv beta.
  intros Hget Hfiled.
  assert (Hrun : forall r',
    Datastore.get_run_log_by_id (<[run_id := r']> st) run_id = Ok r')
    by (intros; apply get_run_log_by_id_insert).
  destruct branch_name as [[|c bn]|].
  - injection Hget as <-. eexists. split; [reflexivity|].
    unfold Datastore.get_branch_log. now rewrite Hrun.
  - destruct (Datastore.search_step_by_internal_name r
                (parent_step_name (String c bn))) as [parent|] eqn:Hparent;
      [|discriminate].
    change (Ok parent ≫= ?f) with (f parent) in Hget. cbv beta in Hget.
    destruct (branches r !! String c bn) as [b|] eqn:Hb; [|discriminate].
    injection Hget as <-. injection Hfiled as Hname.
    unfold Datastore.add_branch_log, set_log_status, Datastore.get_run_log_by_id.
    rewrite Hr. change (Ok r ≫= ?f) with (f r). cbv beta.
    cbn [bl_internal_name set_branch_status]. rewrite <- Hname, Hparent.
    change (Ok parent ≫= ?f) with (f parent). cbv beta.
    eexists. split; [reflexivity|].
    unfold Datastore.get_branch_log. rewrite Hrun.
    change (Ok ?x ≫= ?f) with (f x). cbv beta.
    unfold Datastore.search_step_by_internal_name in Hparent |- *.
    cbn [steps branches set_run_branches].
    destruct (steps r !! parent_step_name (String c bn)); [|discriminate Hparent].
    change (Ok ?x ≫= ?f) with (f x). cbv beta.
    now rewrite lookup_insert_eq.
  - injection Hget as <-. eexists. split; [reflexivity|].
    unfold Datastore.get_branch_log. now rewrite Hrun.
Qed.

Lemma log_status_set_log_status s l : log_status (set_log_status s l) = s.
Proof. now destruct l. Qed.

(* ===================================================================== *)
(** ** Nodes: retries, the fail node *)
(* ===================================================================== *)

Section NodeProperties.
Context `{PyBuiltins}.

(** C10.  When the config sets [retry] to a value whose integer conversion
    is 0, [get_max_attempts] returns 1, as it does for every node whose
    config has no [retry]; and whatever the config, the value it returns is
    never 0. *)
Theorem get_max_attempts_zero_retry (b : NodeBase) (v : pyval) :
  config b !! "retry" = Some v ->
  py_int v = Ok 0%Z ->
  Nodes.get_max_attempts b = Ok 1%Z
  /\ (forall b', config b' !! "retry" = None -> Nodes.get_max_attempts b' = Ok 1%Z)
  /\ (forall b' z, Nodes.get_max_attempts b' = Ok z -> z <> 0%Z).
Proof.
  intros Hretry Hint. split; [|split].
  - unfold Nodes.get_max_attempts. rewrite Hretry, Hint. reflexivity.
  - intros b' Hnone. unfold Nodes.get_max_attempts. now rewrite Hnone.
  - intros b' z. unfold Nodes.get_max_attempts.
    destruct (config b' !! "retry") as [w|]; [|intros [= <-]; discriminate].
    destruct (py_int w) as [i|e]; cbn; [|discriminate].
    destruct (i =? 0)%Z eqn:Hi; intros [= <-]; [discriminate|].
    now apply Z.eqb_neq.
Qed.

(** A literal 0 is such a value. *)
Lemma py_int_zero : py_int (PInt 0) = Ok 0%Z.
Proof. reflexivity. Qed.

(** C7.  Executing a fail node returns an attempt log whose status is
    [SUCCESS]; and the enclosing branch or run log, read from the store
    under the node's branch name, is stored back with status [FAIL]. *)
Theorem FailNode_execute_marks_enclosing_log (b : NodeBase) (mock : bool)
    (mv : map_variable) (ex : Executor) :
  exists ex' attempt_log,
    Nodes.execute (FailNode b) mock mv ex = Ok (ex', attempt_log)
    /\ al_status attempt_log = SUCCESS
    /\ run_id ex' = run_id ex
    /\ forall (branch_name : option string) (l : RunOrBranchLog),
         Nodes.get_branch_log_name b mv = Ok branch_name ->
         Datastore.get_branch_log (run_log_store ex) branch_name (run_id ex) = Ok l ->
         filed_under branch_name l ->
         exists l',
           Datastore.get_branch_log (run_log_store ex') branch_name (run_id ex') = Ok l'
           /\ log_status l' = FAIL.
Proof.
  exists (fst (Nodes.FailNode_execute b mock mv ex)),
    (set_attempt_status SUCCESS Datastore.create_attempt_log).
  split; [reflexivity | split; [reflexivity | split]].
  - unfold Nodes.FailNode_execute, Nodes.mark_enclosing_log.
    cbn [fst]. now destruct (_ ≫= _).
  - intros branch_name l Hname Hget Hfiled.
    destruct (get_branch_log_add_branch_log _ _ _ _ FAIL Hget Hfiled)
      as (st' & Hadd & Hget').
    exists (set_log_status FAIL l).
    unfold Nodes.FailNode_execute, Nodes.mark_enclosing_log.
    rewrite Hname. cbn [mbind result_bind]. rewrite Hget. cbn [mbind result_bind].
    rewrite Hadd. cbn [fst run_log_store run_id set_store].
    split; [exact Hget' | apply log_status_set_log_status].
Qed.

(** The attempt log of a fail node is [SUCCESS] in every case, also when
    the enclosing log cannot be fetched. *)
Lemma FailNode_execute_always_success (b : NodeBase) (mock : bool)
    (mv : map_variable) (ex : Executor) :
  exists ex' attempt_log,
    Nodes.execute (FailNode b) mock mv ex = Ok (ex', attempt_log)
    /\ al_status attempt_log = SUCCESS.
Proof. eexists _, _. split; reflexivity. Qed.

(** When the enclosing log cannot be fetched, the store is left as it is. *)
Lemma FailNode_execute_swallows_errors (b : NodeBase) (mock : bool)
    (mv : map_variable) (ex : Executor) (branch_name : option string) (e : exn) :
  Nodes.get_branch_log_name b mv = Ok branch_name ->
  Datastore.get_branch_log (run_log_store ex) branch_name (run_id ex) = Raise e ->
  fst (Nodes.FailNode_execute b mock mv ex) = ex.
Proof.
  intros Hname Hget. unfold Nodes.FailNode_execute, Nodes.mark_enclosing_log.
  rewrite Hname. cbn [mbind result_bind]. rewrite Hget. reflexivity.
Qed.
End NodeProperties.

(* ===================================================================== *)
(** ** Traversal: the next node *)
(* ===================================================================== *)

(** C3.  [get_status_and_next_node_name] returns the status of the step log
    of the node just executed, paired with the next node name: for a
    status other than [FAIL], what [next] is configured to; for [FAIL],
    the node's [on_failure] when it is set to a name, and the name of the
    graph's fail node when [on_failure] is absent. *)
Theorem get_status_and_next_node_name_spec (n : Node) (dag : Graph)
    (mv : map_variable) (ex : Executor) (step_log_name : string)
    (step_log : StepLog) (fail_node : Node) :
  Nodes.get_step_log_name (base n) mv = Ok step_log_name ->
  Datastore.get_step_log (run_log_store ex) step_log_name (run_id ex) = Ok step_log ->
  (sl_status step_log = FAIL -> GraphOps.get_fail_node dag = Ok fail_node) ->
  exists next,
    Executors.get_status_and_next_node_name n dag mv ex = Ok (sl_status step_log, next)
    /\ (sl_status step_log <> FAIL ->
        next = Nodes.get_next_node (base n)
        /\ forall v, config (base n) !! "next" = Some v -> next = v)
    /\ (sl_status step_log = FAIL ->
        (forall s, config (base n) !! "on_failure" = Some (PStr s) -> s <> "" ->
                   next = PStr s)
        /\ (config (base n) !! "on_failure" = None ->
            next = PStr (name (base fail_node)))
        /\ next = if truthy (Nodes.get_on_failure_node (base n))
                  then Nodes.get_on_failure_node (base n)
                  else PStr (name (base fail_node))).
Proof.
  intros Hname Hlog Hfail.
  unfold Executors.get_status_and_next_node_name.
  rewrite Hname. cbn [mbind result_bind]. rewrite Hlog. cbn [mbind result_bind].
  destruct (decide (sl_status step_log = FAIL)) as [Hst|Hst].
  - rewrite (Hfail Hst). cbn [mbind result_bind].
    eexists. split; [reflexivity|]. split; [intros Hne; contradiction|].
    intros _. split; [|split; [|reflexivity]].
    + intros s Hs Hne. unfold Nodes.get_on_failure_node. rewrite Hs.
      cbn [truthy]. destruct (String.eqb s "") eqn:Heq; [|reflexivity].
      apply String.eqb_eq in Heq. contradiction.
    + intros Hnone. unfold Nodes.get_on_failure_node. now rewrite Hnone.
  - eexists. split; [reflexivity|]. split; [|intros Heq; contradiction].
    intros _. split; [reflexivity|].
    intros v Hv. unfold Nodes.get_next_node, Nodes.is_terminal_node.
    now rewrite Hv.
Qed.

(* ===================================================================== *)
(** ** The entry point: resuming against a changed DAG *)
(* ===================================================================== *)

Section Resume.
Context `{PyBuiltins} `{UserCode}.

(** C9.  When [execute] is started with [use_cached] and the previous run
    log carries another DAG hash than the current one: without
    [use_cached_force] it raises before anything else is done, whatever
    the graph and however long a traversal would be allowed to run; with
    [use_cached_force] the previous run log is attached and the run goes
    on to prepare and traverse the graph. *)
Theorem execute_dag_hash_mismatch (fuel : nat) (mode_executor : Executor)
    (re_run_id : string) (kwargs : gmap string pyval) (previous : RunLog) :
  Datastore.get_run_log_by_id (run_log_store mode_executor) re_run_id = Ok previous ->
  rl_dag_hash previous <> dag_hash mode_executor ->
  (exists msg, Pipeline.execute fuel mode_executor (Some re_run_id) true false kwargs
               = Raise (Exception msg))
  /\ Pipeline.execute fuel mode_executor (Some re_run_id) true true kwargs
     = Pipeline.run_graph fuel
         (set_previous_run_log (Some previous)
            (set_cmd_line_arguments kwargs mode_executor)).
Proof.
  intros Hprev Hhash.
  assert (Hneq : String.eqb (rl_dag_hash previous) (dag_hash mode_executor) = false)
    by now apply String.eqb_neq.
  split.
  - eexists. unfold Pipeline.execute, Pipeline.attach_previous_run.
    cbn [orb run_log_store set_cmd_line_arguments dag_hash].
    rewrite Hprev. cbn [mbind result_bind]. rewrite Hneq. reflexivity.
  - unfold Pipeline.execute, Pipeline.attach_previous_run.
    cbn [orb run_log_store set_cmd_line_arguments dag_hash].
    rewrite Hprev. cbn [mbind result_bind]. rewrite Hneq. reflexivity.
Qed.

(** With equal hashes the previous run log is attached in either case. *)
Lemma attach_previous_run_same_hash (mode_executor : Executor) (re_run_id : string)
    (use_cached_force : bool) (previous : RunLog) :
  Datastore.get_run_log_by_id (run_log_store mode_executor) re_run_id = Ok previous ->
  rl_dag_hash previous = dag_hash mode_executor ->
  Pipeline.attach_previous_run mode_executor (Some re_run_id) true use_cached_force
  = Ok (set_previous_run_log (Some previous) mode_executor).
Proof.
  intros Hprev Hhash. unfold Pipeline.attach_previous_run.
  cbn [orb]. rewrite Hprev. cbn [mbind result_bind].
  rewrite Hhash, String.eqb_refl. reflexivity.
Qed.
End Resume.

(* ===================================================================== *)
(** ** Composite steps: reconciling the branches *)
(* ===================================================================== *)

Lemma find_status_of_branches_flags {A} (name_of : A -> result string)
    (items : list A) st run_id statuses (step_success_bool waiting : bool) :
  children_statuses name_of items st run_id statuses ->
  Nodes.find_status_of_branches name_of items st run_id step_success_bool waiting
  = Ok (step_success_bool && forallb (fun c => negb (bool_decide (c = FAIL))) statuses,
        waiting || existsb (fun c => bool_decide (c = PROCESSING)) statuses).
Proof.
  intros Hch. revert step_success_bool waiting.
  induction Hch as [|x s items statuses (n & l & Hn & Hl & Hs) _ IH];
    intros step_success_bool waiting.
  - cbn. now rewrite andb_true_r, orb_false_r.
  - cbn [Nodes.find_status_of_branches]. rewrite Hn. cbn [mbind result_bind].
    rewrite Hl. cbn [mbind result_bind]. rewrite IH, Hs. cbn [forallb existsb].
    f_equal. f_equal.
    + destruct (decide (s = FAIL)) as [->|Hne].
      * rewrite bool_decide_true by reflexivity. cbn. now rewrite andb_false_r.
      * rewrite (bool_decide_false _ Hne). cbn. reflexivity.
    + destruct (decide (s = PROCESSING)) as [->|Hne].
      * rewrite bool_decide_true by reflexivity. cbn. now rewrite orb_true_r.
      * rewrite (bool_decide_false _ Hne). cbn. reflexivity.
Qed.

(** The update of the step log leaves the statuses of the branch logs
    (and of the run log) as they are. *)
Lemma add_step_log_get_branch_log st st' l run_id branch_name bl :
  Datastore.add_step_log st l run_id = Ok st' ->
  Datastore.get_branch_log st branch_name run_id = Ok bl ->
  exists bl', Datastore.get_branch_log st' branch_name run_id = Ok bl'
              /\ log_status bl' = log_status bl.
Proof.
  unfold Datastore.add_step_log, Datastore.get_branch_log, Datastore.get_run_log_by_id.
  destruct (st !! run_id) as [r|] eqn:Hr; [|discriminate].
  change (Ok r ≫= ?f) with (f r). cbv beta. intros [= <-].
  rewrite lookup_insert_eq. change (Ok ?x ≫= ?f) with (f x). cbv beta.
  destruct branch_name as [[|c bn]|].
  - intros [= <-]. eexists. split; reflexivity.
  - unfold Datastore.search_step_by_internal_name. cbn [steps branches set_run_steps].
    destruct (steps r !! parent_step_name (String c bn)) as [parent|] eqn:Hparent;
      [|discriminate].
    change (Ok parent ≫= ?f) with (f parent). cbv beta.
    destruct (branches r !! String c bn); [|discriminate].
    intros [= <-].
    assert (Hstill : is_Some (<[sl_internal_name l := l]> (steps r)
                                !! parent_step_name (String c bn))).
    { destruct (decide (sl_internal_name l = parent_step_name (String c bn)))
        as [Heq|Hne].
      - rewrite Heq, lookup_insert_eq. eauto.
      - rewrite lookup_insert_ne by exact Hne. eauto. }
    destruct Hstill as [parent' Hparent']. rewrite Hparent'.
    eexists. split; reflexivity.
  - intros [= <-]. eexists. split; reflexivity.
Qed.

Lemma collate_results_status effective_internal_name ok waiting st run_id step_log :
  Datastore.get_step_log st effective_internal_name run_id = Ok step_log ->
  sl_internal_name step_log = effective_internal_name ->
  exists st',
    Nodes.collate_results effective_internal_name ok waiting st run_id = Ok st'
    /\ Datastore.get_step_log st' effective_internal_name run_id
       = Ok (set_step_status (collated_status ok waiting) step_log)
    /\ forall A (name_of : A -> result string) items statuses,
         children_statuses name_of items st run_id statuses ->
         children_statuses name_of items st' run_id statuses.
Proof.
  intros Hget Hname. unfold Nodes.collate_results.
  rewrite Hget. cbn [mbind result_bind].
  set (updated := if ok then _ else _).
  assert (Hupdated : updated = set_step_status (collated_status ok waiting) step_log)
    by (subst updated; destruct ok, waiting; reflexivity).
  rewrite Hupdated.
  destruct (add_step_log_Ok st (set_step_status (collated_status ok waiting) step_log)
              run_id (get_step_log_has_run_log _ _ _ _ Hget)) as (r & Hr & Hadd).
  eexists. split; [exact Hadd|]. split.
  - rewrite <- Hname at 1.
    change (sl_internal_name step_log)
      with (sl_internal_name (set_step_status (collated_status ok waiting) step_log)).
    now apply (get_step_log_add_step_log st).
  - intros A name_of items statuses Hch.
    induction Hch as [|x s items' statuses' (n & bl & Hn & Hbl & Hs) _ IH];
      constructor; [|exact IH].
    destruct (add_step_log_get_branch_log _ _ _ _ _ _ Hadd Hbl) as (bl' & Hbl' & Hst).
    exists n, bl'. repeat split; [exact Hn | exact Hbl' | congruence].
Qed.

(** What the two flags say about the statuses of the children. *)
Lemma collated_status_reconciled (statuses : list status) :
  reconciled statuses
    (collated_status (forallb (fun c => negb (bool_decide (c = FAIL))) statuses)
                     (existsb (fun c => bool_decide (c = PROCESSING)) statuses)).
Proof.
  unfold reconciled, collated_status.
  destruct (forallb _ statuses) eqn:Hok.
  - assert (Hnofail : Forall (fun c => c <> FAIL) statuses).
    { apply Forall_forall. intros c Hc%list_elem_of_In.
      rewrite forallb_forall in Hok. specialize (Hok c Hc).
      apply negb_true_iff, bool_decide_eq_false in Hok. exact Hok. }
    destruct (existsb _ statuses) eqn:Hwait; cbn [negb].
    + apply existsb_exists in Hwait as (c & Hc & Hproc%bool_decide_eq_true).
      split; [|split].
      * split; [discriminate|]. intros Hall. exfalso.
        rewrite Forall_forall in Hall.
        apply (Hall c); [now apply list_elem_of_In | exact Hproc].
      * split; [discriminate|]. intros Hex. exfalso.
        apply Exists_exists in Hex as (d & Hd & ->).
        rewrite Forall_forall in Hnofail. now apply (Hnofail FAIL).
      * reflexivity.
    + split; [|split].
      * split; [|reflexivity]. intros _. apply Forall_forall. intros c Hc.
        split; [rewrite Forall_forall in Hnofail; now apply Hnofail|].
        intros ->. apply not_true_iff_false in Hwait. apply Hwait.
        apply existsb_exists. exists PROCESSING. split.
        -- now apply list_elem_of_In.
        -- now apply bool_decide_eq_true.
      * split; [discriminate|]. intros Hex. exfalso.
        apply Exists_exists in Hex as (d & Hd & ->).
        rewrite Forall_forall in Hnofail. now apply (Hnofail FAIL).
      * intros Hne. contradiction.
  - assert (Hfail : Exists (fun c => c = FAIL) statuses).
    { apply Exists_exists. apply not_true_iff_false in Hok.
      destruct (decide (FAIL ∈ statuses)) as [Hin|Hnin]; [now exists FAIL|].
      exfalso. apply Hok. apply forallb_forall. intros c Hc%list_elem_of_In.
      apply negb_true_iff, bool_decide_eq_false. intros ->. contradiction. }
    split; [|split].
    + split; [discriminate|]. intros Hall. exfalso.
      apply Exists_exists in Hfail as (d & Hd & ->).
      rewrite Forall_forall in Hall. now destruct (Hall FAIL Hd).
    + split; [intros _; exact Hfail | reflexivity].
    + intros _ Hne. contradiction.
Qed.

(** When no child is [TRIGGERED], "no child is FAIL or PROCESSING" and
    "every child is SUCCESS" are the same. *)
Lemma reconciled_all_success (statuses : list status) (s : status) :
  reconciled statuses s ->
  Forall (fun c => c <> TRIGGERED) statuses ->
  (s = SUCCESS <-> Forall (fun c => c = SUCCESS) statuses).
Proof.
  intros (Hs & _ & _) Hnt. rewrite Hs. rewrite !Forall_forall. split.
  - intros Hall c Hc. specialize (Hall c Hc). rewrite Forall_forall in Hnt.
    specialize (Hnt c Hc). destruct c; tauto.
  - intros Hall c Hc. rewrite (Hall c Hc). split; discriminate.
Qed.

Lemma reconcile_reconciles {A} (name_of : A -> result string) (items : list A)
    st run_id statuses effective_internal_name step_log :
  children_statuses name_of items st run_id statuses ->
  Datastore.get_step_log st effective_internal_name run_id = Ok step_log ->
  sl_internal_name step_log = effective_internal_name ->
  reconciles name_of items statuses effective_internal_name run_id
    ('(step_success_bool, waiting) ←
       Nodes.find_status_of_branches name_of items st run_id true false;
     Nodes.collate_results effective_internal_name step_success_bool waiting st run_id).
Proof.
  intros Hch Hget Hname.
  rewrite (find_status_of_branches_flags _ _ _ _ _ _ _ Hch).
  cbn [mbind result_bind andb orb].
  destruct (collate_results_status effective_internal_name
              (forallb (fun c => negb (bool_decide (c = FAIL))) statuses)
              (existsb (fun c => bool_decide (c = PROCESSING)) statuses)
              st run_id step_log Hget Hname) as (st' & Hcollate & Hget' & Hkeep).
  exists st', (set_step_status (collated_status
                 (forallb (fun c => negb (bool_decide (c = FAIL))) statuses)
                 (existsb (fun c => bool_decide (c = PROCESSING)) statuses)) step_log).
  split; [exact Hcollate|]. split; [exact Hget'|]. split.
  - apply collated_status_reconciled.
  - now apply Hkeep.
Qed.

Section Reconciliation.
Context `{PyBuiltins}.

(** C2, as amended.  After the join of a parallel, map or dag step, with
    the child branch logs and the step log in the store, the step log is
    stored with status SUCCESS iff no child is FAIL or PROCESSING (which,
    when no child is TRIGGERED, is to say that every child is SUCCESS),
    with status FAIL iff some child is FAIL, and with status PROCESSING
    otherwise; the children are left as they were. *)
Theorem composite_step_reconciled (b : NodeBase) (mv : map_variable)
    (st : RunLogStore) (run_id : string) (statuses : list status)
    (effective_internal_name : string) (step_log : StepLog) :
  Nodes.resolve_map_placeholders (internal_name b) mv = Ok effective_internal_name ->
  Datastore.get_step_log st effective_internal_name run_id = Ok step_log ->
  sl_internal_name step_log = effective_internal_name ->
  (forall branches,
     children_statuses (fun kv : string * Graph =>
                          Nodes.resolve_map_placeholders (fst kv) mv)
                       branches st run_id statuses ->
     reconciles (fun kv : string * Graph => Nodes.resolve_map_placeholders (fst kv) mv)
                branches statuses effective_internal_name run_id
                (Nodes.ParallelNode_reconcile b branches mv st run_id))
  /\ (forall iterate_on,
        children_statuses (Nodes.MapNode_branch_name b mv) iterate_on st run_id statuses ->
        reconciles (Nodes.MapNode_branch_name b mv) iterate_on statuses
                   effective_internal_name run_id
                   (Nodes.MapNode_reconcile b iterate_on mv st run_id))
  /\ (forall effective_branch_name,
        children_statuses (fun n : string => Ok n) [effective_branch_name]
                          st run_id statuses ->
        reconciles (fun n : string => Ok n) [effective_branch_name] statuses
                   effective_internal_name run_id
                   (Nodes.DagNode_reconcile effective_branch_name
                      effective_internal_name st run_id))
  /\ (forall s, reconciled statuses s ->
        Forall (fun c => c <> TRIGGERED) statuses ->
        (s = SUCCESS <-> Forall (fun c => c = SUCCESS) statuses)).
Proof.
  intros Hname Hget Hfiled. split; [|split; [|split]].
  - intros branches Hch.
    pose proof (reconcile_reconciles _ _ _ _ _ _ _ Hch Hget Hfiled) as Hrec.
    unfold Nodes.ParallelNode_reconcile.
    destruct (Nodes.find_status_of_branches _ branches st run_id true false)
      as [[ok waiting]|e]; cbn [mbind result_bind] in *.
    + rewrite Hname. exact Hrec.
    + destruct Hrec as (? & ? & Hraise & _). discriminate Hraise.
  - intros iterate_on Hch.
    pose proof (reconcile_reconciles _ _ _ _ _ _ _ Hch Hget Hfiled) as Hrec.
    unfold Nodes.MapNode_reconcile.
    destruct (Nodes.find_status_of_branches _ iterate_on st run_id true false)
      as [[ok waiting]|e]; cbn [mbind result_bind] in *.
    + rewrite Hname. exact Hrec.
    + destruct Hrec as (? & ? & Hraise & _). discriminate Hraise.
  - intros effective_branch_name Hch.
    exact (reconcile_reconciles _ _ _ _ _ _ _ Hch Hget Hfiled).
  - intros s. apply reconciled_all_success.
Qed.
End Reconciliation.

(** C2, as stated, fails: with one branch FAIL and the other still
    PROCESSING the parallel step is stored as FAIL. *)
Lemma composite_step_as_stated_counterexample :
  exists st' step_log',
    children_statuses (fun kv : string * Graph =>
                         Nodes.resolve_map_placeholders (fst kv) None)
                      branches_p store_p "r1" [FAIL; PROCESSING]
    /\ Nodes.ParallelNode_reconcile parallel_p branches_p None store_p "r1" = Ok st'
    /\ Datastore.get_step_log st' "p" "r1" = Ok step_log'
    /\ sl_status step_log' = FAIL
    /\ ~ reconciled_as_stated [FAIL; PROCESSING] (sl_status step_log').
Proof.
  eexists _, _. split; [|split; [|split; [|split]]].
  - repeat constructor.
    + eexists "p.a", _. repeat split; vm_compute; reflexivity.
    + eexists "p.b", _. repeat split; vm_compute; reflexivity.
  - vm_compute. reflexivity.
  - vm_compute. reflexivity.
  - reflexivity.
  - intros (_ & [Hfail _] & _). cbn in Hfail.
    destruct (Hfail eq_refl) as (i & Hi & Hothers).
    destruct i as [|[|i]]; cbn in Hi; try discriminate.
    now apply (Hothers 1%nat PROCESSING).
Qed.

(* ===================================================================== *)
(** ** The retry loop *)
(* ===================================================================== *)

Section Retry.
Context `{PyBuiltins} `{UserCode}.

Lemma mark_enclosing_log_keeps_run_log s b mv ex :
  has_run_log (run_log_store ex) (run_id ex) ->
  run_id (Nodes.mark_enclosing_log s b mv ex) = run_id ex
  /\ has_run_log (run_log_store (Nodes.mark_enclosing_log s b mv ex)) (run_id ex).
Proof.
  intros Hrun. unfold Nodes.mark_enclosing_log.
  destruct (Nodes.get_branch_log_name b mv) as [bn|e]; cbn [mbind result_bind];
    [|now split].
  destruct (Datastore.get_branch_log (run_log_store ex) bn (run_id ex)) as [l|e];
    cbn [mbind result_bind]; [|now split].
  destruct (Datastore.add_branch_log _ _ _) as [st|e] eqn:Hadd; [|now split].
  split; [reflexivity|]. cbn [run_log_store set_store].
  now apply add_branch_log_has_run_log in Hadd.
Qed.

(** [attempt_loop], started as [execute_node] starts it, follows the loop
    condition [attempts < max_attempts]: it is left at once when the
    condition fails, and otherwise runs the body and comes back with one
    more attempt counted. *)
Lemma attempt_loop_condition (tried max_attempts : Z) (n : Node) (mocking : bool)
    (mv : map_variable) (ex : Executor) (step_log : StepLog) :
  ((max_attempts <= tried)%Z ->
     Executors.attempt_loop (Z.to_nat (max_attempts - tried)) tried max_attempts
       n mocking mv ex step_log = (ex, step_log))
  /\ ((tried < max_attempts)%Z ->
      Executors.attempt_loop (Z.to_nat (max_attempts - tried)) tried max_attempts
        n mocking mv ex step_log
      = Executors.attempt_loop (S (Z.to_nat (max_attempts - (tried + 1)))) tried
          max_attempts n mocking mv ex step_log).
Proof.
  split; intros Hcond.
  - replace (Z.to_nat (max_attempts - tried)) with 0%nat by lia. reflexivity.
  - replace (Z.to_nat (max_attempts - tried))
      with (S (Z.to_nat (max_attempts - (tried + 1)))) by lia.
    reflexivity.
Qed.

(** A leaf node's [execute] returns an attempt log that is SUCCESS or
    FAIL, and leaves the run log in the store. *)
Lemma execute_leaf (n : Node) (mock : bool) (mv : map_variable) (ex : Executor) :
  is_leaf n = true ->
  has_run_log (run_log_store ex) (run_id ex) ->
  exists ex' a,
    Nodes.execute n mock mv ex = Ok (ex', a)
    /\ run_id ex' = run_id ex
    /\ has_run_log (run_log_store ex') (run_id ex)
    /\ (al_status a = SUCCESS \/ al_status a = FAIL).
Proof.
  intros Hleaf Hrun. destruct n as [b|b|b|b r| | |]; try discriminate Hleaf;
    cbn [Nodes.execute].
  - unfold Nodes.TaskNode_execute.
    destruct (config b !! "command") as [command|].
    + destruct mock; cbn [negb].
      * eexists _, _. split; [reflexivity|]. repeat split; auto.
      * destruct (run_command _ _ _ _); eexists _, _;
          (split; [reflexivity|]); repeat split; auto.
    + eexists _, _. split; [reflexivity|]. repeat split; auto.
  - destruct (mark_enclosing_log_keeps_run_log FAIL b mv ex Hrun) as [Hid Hkeep].
    eexists _, _. split; [reflexivity|]. repeat split; auto.
  - destruct (mark_enclosing_log_keeps_run_log SUCCESS b mv ex Hrun) as [Hid Hkeep].
    eexists _, _. split; [reflexivity|]. repeat split; auto.
  - eexists _, _. split; [reflexivity|]. repeat split; auto.
Qed.

(** The loop, for a leaf node: it stops after at most [k] attempts, at the
    first one that is not FAIL, and marks the step FAIL when the [k]-th
    fails too. *)
Lemma attempt_loop_leaf (n : Node) (mocking : bool) (mv : map_variable) :
  is_leaf n = true ->
  forall (k : nat) (tried max_attempts : Z) (ex : Executor) (step_log : StepLog),
    Z.of_nat k = (max_attempts - tried)%Z ->
    has_run_log (run_log_store ex) (run_id ex) ->
    exists ex' step_log' appended,
      Executors.attempt_loop k tried max_attempts n mocking mv ex step_log
      = (ex', step_log')
      /\ run_id ex' = run_id ex
      /\ has_run_log (run_log_store ex') (run_id ex)
      /\ sl_internal_name step_log' = sl_internal_name step_log
      /\ mock step_log' = mock step_log
      /\ attempts step_log' = (attempts step_log ++ appended)%list
      /\ (length appended <= k)%nat
      /\ (k = 0%nat -> step_log' = step_log /\ appended = [])
      /\ ((0 < k)%nat ->
          (sl_status step_log' = SUCCESS
           /\ exists a, last appended = Some a /\ al_status a = SUCCESS)
          \/ (sl_status step_log' = FAIL
              /\ length appended = k
              /\ Forall (fun a => al_status a = FAIL) appended)).
Proof.
  intros Hleaf. induction k as [|k IH]; intros tried max_attempts ex step_log Hk Hrun.
  - exists ex, step_log, []. cbn [Executors.attempt_loop].
    rewrite app_nil_r. repeat split; auto; lia.
  - cbn [Executors.attempt_loop].
    destruct (execute_leaf n mocking mv ex Hleaf Hrun) as (ex1 & a & Hexec & Hid1 & Hrun1 & Hst).
    rewrite Hexec.
    set (a' := set_attempt_numner tried a).
    assert (Hsta : al_status a' = al_status a) by reflexivity.
    (* the handler, after a failed attempt *)
    assert (Hhandler : forall ex2, run_id ex2 = run_id ex ->
      has_run_log (run_log_store ex2) (run_id ex) ->
      al_status a' = FAIL ->
      exists ex' step_log' appended,
        Executors.attempt_loop k (tried + 1) max_attempts n mocking mv
          (snd (Executors.get_user_set_parameters_remove ex2))
          (if (tried + 1 =? max_attempts)%Z
           then set_step_status FAIL (append_attempt a' step_log)
           else append_attempt a' step_log)
        = (ex', step_log')
        /\ run_id ex' = run_id ex
        /\ has_run_log (run_log_store ex') (run_id ex)
        /\ sl_internal_name step_log' = sl_internal_name step_log
        /\ mock step_log' = mock step_log
        /\ attempts step_log' = (attempts step_log ++ appended)%list
        /\ (length appended <= S k)%nat
        /\ (S k = 0%nat -> step_log' = step_log /\ appended = [])
        /\ ((0 < S k)%nat ->
            (sl_status step_log' = SUCCESS
             /\ exists a, last appended = Some a /\ al_status a = SUCCESS)
            \/ (sl_status step_log' = FAIL
                /\ length appended = S k
                /\ Forall (fun a => al_status a = FAIL) appended))).
    { intros ex2 Hid2 Hrun2 Hfail.
      set (sl1 := if (tried + 1 =? max_attempts)%Z then _ else _).
      assert (Hsl1 : sl_internal_name sl1 = sl_internal_name step_log
                     /\ mock sl1 = mock step_log
                     /\ attempts sl1 = (attempts step_log ++ [a'])%list)
        by (subst sl1; destruct (tried + 1 =? max_attempts)%Z; repeat split).
      destruct Hsl1 as (Hn1 & Hm1 & Ha1).
      destruct (IH (tried + 1)%Z max_attempts
                  (snd (Executors.get_user_set_parameters_remove ex2)) sl1)
        as (ex' & sl' & app & Hloop & Hid' & Hrun' & Hn' & Hm' & Ha' & Hlen & Hzero & Hpos).
      { lia. }
      { cbn. rewrite Hid2. exact Hrun2. }
      exists ex', sl', (a' :: app). split; [exact Hloop|].
      cbn [Executors.get_user_set_parameters_remove snd set_environ run_id] in Hid'.
      split; [congruence|]. split.
      { cbn [Executors.get_user_set_parameters_remove snd set_environ run_id] in Hrun'.
        rewrite Hid2 in Hrun'. exact Hrun'. }
      split; [congruence|]. split; [congruence|]. split.
      { rewrite Ha', Ha1, <- app_assoc. reflexivity. }
      split; [cbn [length]; lia|]. split; [discriminate|].
      intros _. destruct k as [|k'].
      - destruct (Hzero eq_refl) as [-> ->]. right.
        assert (Hmax : (tried + 1 =? max_attempts)%Z = true) by (apply Z.eqb_eq; lia).
        subst sl1. rewrite Hmax. repeat split. constructor; [exact Hfail | constructor].
      - destruct Hpos as [(Hs & x & Hlast & Hx) | (Hf & Hl & Hall)]; [lia| |].
        + left. split; [exact Hs|]. exists x. split; [|exact Hx].
          destruct app as [|y app]; [discriminate Hlast|]. exact Hlast.
        + right. split; [exact Hf|]. split; [cbn [length]; lia|].
          constructor; [exact Hfail | exact Hall]. }
    destruct (decide (al_status a' = FAIL)) as [Hfail|Hok].
    + exact (Hhandler ex1 Hid1 Hrun1 Hfail).
    + cbn [Executors.get_user_set_parameters_remove].
      destruct (set_parameters_Ok (run_log_store (set_environ ∅ ex1))
                  (run_id (set_environ ∅ ex1)) (environ ex1))
        as (st' & Hset & Hrun').
      { cbn. rewrite Hid1. exact Hrun1. }
      rewrite Hset.
      exists (set_store st' (set_environ ∅ ex1)),
        (set_step_status SUCCESS (append_attempt a' step_log)), [a'].
      split; [reflexivity|]. split; [exact Hid1|]. split.
      { cbn in Hrun' |- *. rewrite Hid1 in Hrun'. exact Hrun'. }
      repeat split; [cbn [length]; lia | discriminate | discriminate |].
      intros _. left. split; [reflexivity|]. exists a'. split; [reflexivity|].
      rewrite Hsta in *. destruct Hst as [Hs|Hf]; [exact Hs | contradiction].
Qed.
End Retry.

Section CatalogSync.
Context `{PyBuiltins} `{UserCode}.

(** [sync_catalog] touches nothing of the step log but its data
    catalogs. *)
Lemma sync_catalog_step_log (n : Node) (step_log : StepLog) (stage : string)
    (synced_catalogs : option (list DataCatalog)) (ex : Executor) d step_log' :
  Executors.sync_catalog n step_log stage synced_catalogs ex = Ok (d, step_log') ->
  exists added, step_log' = set_data_catalogs added step_log.
Proof.
  unfold Executors.sync_catalog, Executors.BaseExecutor_sync_catalog.
  destruct (Catalog.sync_catalog _ _ _ _ _ _ _ _ _) as [[d0 dc]|e];
    cbn [mbind result_bind]; [|discriminate].
  intros [= _ <-]. now exists dc.
Qed.

(** The service name only shows in the message for a stage that is
    neither [get] nor [put]. *)
Lemma BaseExecutor_sync_catalog_service_name (service_name : string) (n : Node)
    (step_log : StepLog) (stage : string)
    (synced_catalogs : option (list DataCatalog)) (ex : Executor) :
  stage = "get" \/ stage = "put" ->
  Executors.BaseExecutor_sync_catalog service_name n step_log stage synced_catalogs ex
  = Executors.sync_catalog n step_log stage synced_catalogs ex.
Proof.
  intros [-> | ->]; reflexivity.
Qed.

Lemma catalog_syncs_Ok (n : Node) (current_run : string) (step_log : StepLog)
    (stage : string) (synced_catalogs : option (list DataCatalog)) (ex : Executor) :
  catalog_syncs n current_run ->
  stage = "get" \/ stage = "put" ->
  run_id ex = current_run ->
  exists d added,
    Executors.sync_catalog n step_log stage synced_catalogs ex
    = Ok (d, set_data_catalogs added step_log).
Proof.
  intros Hsync Hstage Hid.
  specialize (Hsync step_log stage synced_catalogs ex Hstage Hid).
  destruct (Executors.sync_catalog n step_log stage synced_catalogs ex)
    as [[d sl']|e] eqn:Hcall; [|discriminate Hsync].
  destruct (sync_catalog_step_log _ _ _ _ _ _ _ Hcall) as (added & ->).
  now exists d, added.
Qed.

(** A node without catalog settings has nothing to sync. *)
Lemma no_catalog_settings_syncs (n : Node) (current_run : string) :
  config (base n) !! "catalog" = None -> catalog_syncs n current_run.
Proof.
  intros Hnone step_log stage synced_catalogs ex Hstage _.
  unfold Executors.sync_catalog, Executors.BaseExecutor_sync_catalog,
    Catalog.sync_catalog, get_catalog_settings.
  rewrite Hnone. destruct Hstage as [-> | ->]; reflexivity.
Qed.
Lemma catalog_syncs_self (n : Node) (current_run : string) :
  catalog_syncs n current_run ->
  forall step_log stage synced_catalogs ex,
    stage = "get" \/ stage = "put" ->
    run_id ex = current_run ->
    exists d added,
      Executors.sync_catalog n step_log stage synced_catalogs ex
      = Ok (d, set_data_catalogs added step_log).
Proof.
  intros Hsync sl stage synced ex Hstage Hid.
  exact (catalog_syncs_Ok n current_run sl stage synced ex Hsync Hstage Hid).
Qed.

End CatalogSync.

Section RetryBudget.
Context `{PyBuiltins} `{UserCode}.

Section SelfSync.
(** [execute_node] with the [sync_catalog] of the class of the executor,
    when that method returns, leaving the step log as it was but for its
    data catalogs. *)
Variable self_sync_catalog :
  Node -> StepLog -> string -> option (list DataCatalog) -> Executor
  -> result (option (list DataCatalog) * StepLog).
Variable n : Node.
Variable current_run : string.
Hypothesis self_syncs :
  forall step_log stage synced_catalogs ex,
    stage = "get" \/ stage = "put" ->
    run_id ex = current_run ->
    exists d added,
      self_sync_catalog n step_log stage synced_catalogs ex
      = Ok (d, set_data_catalogs added step_log).

Lemma BaseExecutor_execute_node_unfold (mv : map_variable) (ex : Executor)
    (max_attempts : Z) (step_log_name : string) (step_log : StepLog) :
  run_id ex = current_run ->
  Nodes.get_max_attempts (base n) = Ok max_attempts ->
  Nodes.get_step_log_name (base n) mv = Ok step_log_name ->
  Datastore.get_step_log (run_log_store ex) step_log_name (run_id ex) = Ok step_log ->
  exists r d added, run_log_store ex !! run_id ex = Some r /\
  Executors.BaseExecutor_execute_node self_sync_catalog n mv ex
  = let '(ex1, step_log1) :=
      Executors.attempt_loop (Z.to_nat (max_attempts - 0)) 0 max_attempts n
        (mock step_log) mv (Executors.store_parameter (parameters r) ex)
        (set_data_catalogs added step_log) in
    '(_, step_log2) ← self_sync_catalog n step_log1 "put" d ex1;
    st ← Datastore.add_step_log (run_log_store ex1) step_log2 (run_id ex1);
    Ok (set_store st ex1).
Proof.
  intros Hid Hmax Hname Hlog.
  pose proof Hlog as (r & Hr & _)%get_step_log_Ok.
  destruct (self_syncs step_log "get" None (Executors.store_parameter (parameters r) ex))
    as (d & added & Hget); [now left | exact Hid |].
  exists r, d, added. split; [exact Hr|].
  unfold Executors.BaseExecutor_execute_node. rewrite Hmax. cbn [mbind result_bind].
  rewrite Hname. cbn [mbind result_bind]. rewrite Hlog. cbn [mbind result_bind].
  unfold Datastore.get_parameters, Datastore.get_run_log_by_id. rewrite Hr.
  cbn [mbind result_bind]. rewrite Hget. reflexivity.
Qed.

Lemma BaseExecutor_execute_node_leaf (mv : map_variable) (ex : Executor)
    (max_attempts : Z) (step_log_name : string) (step_log : StepLog) :
  run_id ex = current_run ->
  is_leaf n = true ->
  Nodes.get_max_attempts (base n) = Ok max_attempts ->
  (1 <= max_attempts)%Z ->
  Nodes.get_step_log_name (base n) mv = Ok step_log_name ->
  Datastore.get_step_log (run_log_store ex) step_log_name (run_id ex) = Ok step_log ->
  sl_internal_name step_log = step_log_name ->
  exists ex' step_log' appended,
    Executors.BaseExecutor_execute_node self_sync_catalog n mv ex = Ok ex'
    /\ run_id ex' = run_id ex
    /\ Datastore.get_step_log (run_log_store ex') step_log_name (run_id ex) = Ok step_log'
    /\ mock step_log' = mock step_log
    /\ appended <> []
    /\ retried max_attempts step_log step_log' appended
    /\ (sl_status step_log' = SUCCESS \/ sl_status step_log' = FAIL).
Proof.
  intros Hcur Hleaf Hmax Hpos Hname Hlog Hfiled.
  destruct (BaseExecutor_execute_node_unfold mv ex max_attempts step_log_name step_log
              Hcur Hmax Hname Hlog) as (r & d & added & Hr & ->).
  destruct (attempt_loop_leaf n (mock step_log) mv Hleaf
              (Z.to_nat (max_attempts - 0)) 0%Z max_attempts
              (Executors.store_parameter (parameters r) ex)
              (set_data_catalogs added step_log))
    as (ex1 & sl1 & app & Hloop & Hid & Hrun & Hn & Hm & Ha & Hlen & _ & Hres).
  { lia. }
  { cbn. now exists r. }
  rewrite Hloop.
  cbn [Executors.store_parameter set_environ run_id] in Hid, Hrun.
  cbn [set_data_catalogs sl_internal_name mock attempts] in Hn, Hm, Ha.
  destruct (self_syncs sl1 "put" d ex1) as (d2 & added2 & Hput);
    [now right | congruence |].
  rewrite Hput. cbn [mbind result_bind].
  set (sl2 := set_data_catalogs added2 sl1).
  destruct (add_step_log_Ok (run_log_store ex1) sl2 (run_id ex1)) as (r1 & Hr1 & Hadd).
  { now rewrite Hid. }
  pose proof (get_step_log_add_step_log _ _ _ _ Hadd) as Hget.
  rewrite Hadd. cbn [mbind result_bind].
  eexists _, sl2, app. split; [reflexivity|].
  cbn [set_store run_id run_log_store].
  split; [exact Hid|]. split.
  { rewrite <- Hid, <- Hfiled, <- Hn. exact Hget. }
  split; [exact Hm|].
  assert (Hk : (0 < Z.to_nat (max_attempts - 0))%nat) by lia.
  specialize (Hres Hk).
  assert (Hne : app <> []).
  { destruct Hres as [(_ & a & Hlast & _) | (_ & Hl & _)].
    - intros ->. discriminate Hlast.
    - intros ->. cbn in Hl. lia. }
  split; [exact Hne|].
  unfold retried. change (sl_status sl2) with (sl_status sl1).
  split; [|destruct Hres as [(Hs & _) | (Hf & _)]; [now left | now right]].
  split; [exact Ha|]. split; [lia|]. split.
  - split.
    + intros Hs. destruct Hres as [(_ & Hex) | (Hf & _)]; [exact Hex|congruence].
    + intros (a & Hlast & Hsa).
      destruct Hres as [(Hs & _) | (_ & _ & Hall)]; [exact Hs|].
      exfalso. apply last_Some in Hlast as (pre & ->).
      apply Forall_app in Hall as [_ Hall]. inversion Hall; subst. congruence.
  - intros Hfull Hall.
    destruct Hres as [(_ & a & Hlast & Hsa) | (Hf & _)]; [|exact Hf].
    exfalso. apply last_Some in Hlast as (pre & ->).
    apply Forall_app in Hall as [_ Hall]. inversion Hall; subst. congruence.
Qed.
End SelfSync.

(** For a leaf node with a budget of at least one attempt, whose catalog
    syncs succeed, [execute_node] returns, and the step log it stores has
    been retried within the budget. *)
Lemma execute_node_leaf (n : Node) (mv : map_variable) (ex : Executor)
    (max_attempts : Z) (step_log_name : string) (step_log : StepLog) :
  is_leaf n = true ->
  catalog_syncs n (run_id ex) ->
  Nodes.get_max_attempts (base n) = Ok max_attempts ->
  (1 <= max_attempts)%Z ->
  Nodes.get_step_log_name (base n) mv = Ok step_log_name ->
  Datastore.get_step_log (run_log_store ex) step_log_name (run_id ex) = Ok step_log ->
  sl_internal_name step_log = step_log_name ->
  exists ex' step_log' appended,
    Executors.execute_node n mv ex = Ok ex'
    /\ run_id ex' = run_id ex
    /\ Datastore.get_step_log (run_log_store ex') step_log_name (run_id ex) = Ok step_log'
    /\ mock step_log' = mock step_log
    /\ appended <> []
    /\ retried max_attempts step_log step_log' appended
    /\ (sl_status step_log' = SUCCESS \/ sl_status step_log' = FAIL).
Proof.
  intros Hleaf Hsync. unfold Executors.execute_node.
  apply (BaseExecutor_execute_node_leaf Executors.sync_catalog n (run_id ex)
           (catalog_syncs_self n (run_id ex) Hsync)); [reflexivity|exact Hleaf].
Qed.

Lemma execute_node_unfold (n : Node) (mv : map_variable) (ex : Executor)
    (max_attempts : Z) (step_log_name : string) (step_log : StepLog) :
  catalog_syncs n (run_id ex) ->
  Nodes.get_max_attempts (base n) = Ok max_attempts ->
  Nodes.get_step_log_name (base n) mv = Ok step_log_name ->
  Datastore.get_step_log (run_log_store ex) step_log_name (run_id ex) = Ok step_log ->
  exists r d added, run_log_store ex !! run_id ex = Some r /\
  Executors.execute_node n mv ex
  = let '(ex1, step_log1) :=
      Executors.attempt_loop (Z.to_nat (max_attempts - 0)) 0 max_attempts n
        (mock step_log) mv (Executors.store_parameter (parameters r) ex)
        (set_data_catalogs added step_log) in
    '(_, step_log2) ← Executors.sync_catalog n step_log1 "put" d ex1;
    st ← Datastore.add_step_log (run_log_store ex1) step_log2 (run_id ex1);
    Ok (set_store st ex1).
Proof.
  intros Hsync. unfold Executors.execute_node.
  apply (BaseExecutor_execute_node_unfold Executors.sync_catalog n (run_id ex)
           (catalog_syncs_self n (run_id ex) Hsync) mv ex max_attempts step_log_name
           step_log eq_refl).
Qed.

(** With a budget of zero or less the loop is not entered: the step log is
    stored back with the attempts and the status it had. *)
Lemma execute_node_no_budget (n : Node) (mv : map_variable) (ex : Executor)
    (max_attempts : Z) (step_log_name : string) (step_log : StepLog) :
  catalog_syncs n (run_id ex) ->
  Nodes.get_max_attempts (base n) = Ok max_attempts ->
  (max_attempts <= 0)%Z ->
  Nodes.get_step_log_name (base n) mv = Ok step_log_name ->
  Datastore.get_step_log (run_log_store ex) step_log_name (run_id ex) = Ok step_log ->
  sl_internal_name step_log = step_log_name ->
  exists ex' step_log',
    Executors.execute_node n mv ex = Ok ex'
    /\ Datastore.get_step_log (run_log_store ex') step_log_name (run_id ex) = Ok step_log'
    /\ attempts step_log' = attempts step_log
    /\ sl_status step_log' = sl_status step_log.
Proof.
  intros Hsync Hmax Hneg Hname Hlog Hfiled.
  destruct (execute_node_unfold n mv ex max_attempts step_log_name step_log
              Hsync Hmax Hname Hlog) as (r & d & added & Hr & ->).
  replace (Z.to_nat (max_attempts - 0)) with 0%nat by lia.
  cbn [Executors.attempt_loop].
  destruct (catalog_syncs_Ok n (run_id ex) (set_data_catalogs added step_log) "put" d
              (Executors.store_parameter (parameters r) ex) Hsync)
    as (d2 & added2 & Hput); [now right | reflexivity |].
  rewrite Hput. cbn [mbind result_bind].
  cbn [Executors.store_parameter set_environ run_id run_log_store].
  set (sl2 := set_data_catalogs added2 (set_data_catalogs added step_log)).
  destruct (add_step_log_Ok (run_log_store ex) sl2 (run_id ex)) as (r1 & Hr1 & Hadd).
  { now exists r. }
  pose proof (get_step_log_add_step_log _ _ _ _ Hadd) as Hget.
  rewrite Hadd. cbn [mbind result_bind].
  eexists _, sl2. split; [reflexivity|]. cbn [set_store run_log_store].
  split; [|split; reflexivity].
  rewrite <- Hfiled. exact Hget.
Qed.

(** C1.  For every task node executed by the retry loop of [execute_node]
    (a budget [get_max_attempts()] of at least 1, as every [retry] of the
    data model gives; its step log on file; its catalog syncs before and
    after the loop succeeding), [execute_node] returns and stores the step
    log with at most [get_max_attempts()] attempt logs appended, and at
    least one; the step log is SUCCESS if and only if the last appended
    attempt is SUCCESS; and it is FAIL if all [get_max_attempts()]
    attempts have failed. *)
Theorem execute_node_retries (b : NodeBase) (mv : map_variable) (ex : Executor)
    (max_attempts : Z) (step_log_name : string) (step_log : StepLog) :
  Nodes.get_max_attempts b = Ok max_attempts ->
  (1 <= max_attempts)%Z ->
  Nodes.get_step_log_name b mv = Ok step_log_name ->
  Datastore.get_step_log (run_log_store ex) step_log_name (run_id ex) = Ok step_log ->
  sl_internal_name step_log = step_log_name ->
  catalog_syncs (TaskNode b) (run_id ex) ->
  exists ex' step_log' appended,
    Executors.execute_node (TaskNode b) mv ex = Ok ex'
    /\ Datastore.get_step_log (run_log_store ex') step_log_name (run_id ex) = Ok step_log'
    /\ appended <> []
    /\ retried max_attempts step_log step_log' appended.
Proof.
  intros Hmax Hpos Hname Hlog Hfiled Hsync.
  destruct (execute_node_leaf (TaskNode b) mv ex max_attempts step_log_name step_log
              eq_refl Hsync Hmax Hpos Hname Hlog Hfiled)
    as (ex' & sl' & app & Hexec & _ & Hget & _ & Hne & Hret & _).
  now exists ex', sl', app.
Qed.
End RetryBudget.
(* ===================================================================== *)
(** ** Re-runs: the re-run gate and the step logs it files *)
(* ===================================================================== *)

Lemma add_step_log_keeps_run_log st st' l run_id :
  Datastore.add_step_log st l run_id = Ok st' -> has_run_log st run_id.
Proof.
  unfold Datastore.add_step_log, Datastore.get_run_log_by_id.
  destruct (st !! run_id) as [r|] eqn:Hr; [|discriminate]. intros _. now exists r.
Qed.

(** The re-run gate, seen as a function of the executor state.  It answers "run"
    without a previous run, and when the previous run has no step log of
    that name; in both cases the executor is left as it is. *)
Lemma is_eligible_for_rerun_fresh (n : Node) (mv : map_variable) (ex : Executor) :
  previous_run_log ex = None ->
  Executors.is_eligible_for_rerun n mv ex = Ok (true, ex).
Proof. intros Hprev. unfold Executors.is_eligible_for_rerun. now rewrite Hprev. Qed.

Lemma is_eligible_for_rerun_unknown_step (n : Node) (mv : map_variable)
    (ex : Executor) (previous : RunLog) (step_log_name : string) :
  previous_run_log ex = Some previous ->
  Nodes.get_step_log_name (base n) mv = Ok step_log_name ->
  steps previous !! step_log_name = None ->
  Executors.is_eligible_for_rerun n mv ex = Ok (true, ex).
Proof.
  intros Hprev Hname Hnone. unfold Executors.is_eligible_for_rerun.
  rewrite Hprev, Hname. cbn [mbind result_bind].
  unfold Datastore.search_step_by_internal_name. now rewrite Hnone.
Qed.

(** When the previous run has the step log, the re-run gate first fetches the
    step log of the current run: with that in the store, a previous
    SUCCESS makes it answer "skip" and store the step log as SUCCESS, and
    any other previous status makes it answer "run" and drop the previous
    run log. *)
Lemma is_eligible_for_rerun_known_step (n : Node) (mv : map_variable)
    (ex : Executor) (previous : RunLog) (step_log_name : string)
    (previous_node_log step_log : StepLog) :
  previous_run_log ex = Some previous ->
  Nodes.get_step_log_name (base n) mv = Ok step_log_name ->
  steps previous !! step_log_name = Some previous_node_log ->
  Datastore.get_step_log (run_log_store ex) step_log_name (run_id ex) = Ok step_log ->
  (sl_status previous_node_log = SUCCESS ->
     exists st,
       Datastore.add_step_log (run_log_store ex)
         (set_step_message "Node execution successful in previous run, skipping it"
            (set_step_status SUCCESS step_log)) (run_id ex) = Ok st
       /\ Executors.is_eligible_for_rerun n mv ex = Ok (false, set_store st ex))
  /\ (sl_status previous_node_log <> SUCCESS ->
      Executors.is_eligible_for_rerun n mv ex = Ok (true, set_previous_run_log None ex)).
Proof.
  intros Hprev Hname Hplog Hlog. unfold Executors.is_eligible_for_rerun.
  rewrite Hprev, Hname. cbn [mbind result_bind].
  unfold Datastore.search_step_by_internal_name. rewrite Hplog, Hlog.
  cbn [mbind result_bind]. split; intros Hst.
  - destruct (decide (sl_status previous_node_log = SUCCESS)); [|contradiction].
    destruct (add_step_log_Ok (run_log_store ex)
                (set_step_message "Node execution successful in previous run, skipping it"
                   (set_step_status SUCCESS step_log)) (run_id ex)
                (get_step_log_has_run_log _ _ _ _ Hlog)) as (r & Hr & Hadd).
    eexists. split; [exact Hadd|]. now rewrite Hadd.
  - now destruct (decide (sl_status previous_node_log = SUCCESS)).
Qed.

(** Without the step log of the current run in the store, the lookup
    fails and the failure escapes the re-run gate. *)
Lemma is_eligible_for_rerun_raises (n : Node) (mv : map_variable)
    (ex : Executor) (previous : RunLog) (step_log_name : string)
    (previous_node_log : StepLog) (e : exn) :
  previous_run_log ex = Some previous ->
  Nodes.get_step_log_name (base n) mv = Ok step_log_name ->
  steps previous !! step_log_name = Some previous_node_log ->
  Datastore.get_step_log (run_log_store ex) step_log_name (run_id ex) = Raise e ->
  Executors.is_eligible_for_rerun n mv ex = Raise e.
Proof.
  intros Hprev Hname Hplog Hlog. unfold Executors.is_eligible_for_rerun.
  rewrite Hprev, Hname. cbn [mbind result_bind].
  unfold Datastore.search_step_by_internal_name. rewrite Hplog, Hlog. reflexivity.
Qed.

Section Rerun.
Context `{PyBuiltins} `{UserCode}.
Variable execute_graph :
  Graph -> map_variable -> Executor -> result (Executor * map_variable).

(** [execute_from_graph] files the step log of a node that is not terminal
    only after the re-run gate: a node whose step log the previous run has makes
    it fail when the current run has no step log of that name yet. *)
Lemma execute_from_graph_gate_raises (n : Node) (mv : map_variable)
    (ex : Executor) (previous : RunLog) (step_log_name : string)
    (previous_node_log : StepLog) :
  Executors.is_terminal_type n = false ->
  previous_run_log ex = Some previous ->
  Nodes.get_step_log_name (base n) mv = Ok step_log_name ->
  steps previous !! step_log_name = Some previous_node_log ->
  has_run_log (run_log_store ex) (run_id ex) ->
  (forall r, run_log_store ex !! run_id ex = Some r -> steps r !! step_log_name = None) ->
  Executors.execute_from_graph execute_graph n mv ex = Raise StepLogNotFoundError.
Proof.
  intros Hterm Hprev Hname Hplog [r Hr] Hfresh.
  unfold Executors.execute_from_graph. rewrite Hname. cbn [mbind result_bind].
  rewrite Hterm.
  rewrite (is_eligible_for_rerun_raises n mv ex previous step_log_name
             previous_node_log StepLogNotFoundError Hprev Hname Hplog); [reflexivity|].
  unfold Datastore.get_step_log, Datastore.get_run_log_by_id,
    Datastore.search_step_by_internal_name.
  rewrite Hr. cbn [mbind result_bind]. now rewrite (Hfresh r Hr).
Qed.
End Rerun.

(** C4, on the code: the re-run of [t1 -> success] against a previous run
    in which both steps succeeded.  The re-run gate looks up the step log of [t1]
    in the new run, where [execute_from_graph] has not filed it yet, and
    the traversal ends with [StepLogNotFound] instead of skipping [t1]. *)
Theorem rerun_gate_fails_on_first_skippable_node :
  all_steps_succeeded previous_t1
  /\ rl_dag_hash previous_t1 = dag_hash (executor_with "r2" None {[ "r1" := previous_t1 ]} graph_t1)
  /\ Executors.is_eligible_for_rerun t1_node None
       (Pipeline.prepare_for_graph_execution
          (executor_with "r2" (Some previous_t1) {[ "r1" := previous_t1 ]} graph_t1))
     = Raise StepLogNotFoundError
  /\ forall fuel,
       Pipeline.execute (S fuel)
         (executor_with "r2" None {[ "r1" := previous_t1 ]} graph_t1)
         (Some "r1") true false ∅
       = Raise StepLogNotFoundError.
Proof.
  split; [|split; [reflexivity | split; [vm_compute; reflexivity|]]].
  - intros name l Hl. unfold previous_t1, run_with_steps in Hl. cbn in Hl.
    apply lookup_insert_Some in Hl as [[_ <-] | [_ Hl]]; [reflexivity|].
    apply lookup_insert_Some in Hl as [[_ <-] | [_ Hl]]; [reflexivity|].
    now rewrite lookup_empty in Hl.
  - intros fuel. unfold Pipeline.execute.
    rewrite (attach_previous_run_same_hash _ "r1" false previous_t1);
      [|reflexivity|reflexivity].
    cbn [mbind result_bind]. unfold Pipeline.run_graph, Executors.execute_graph.
    cbn [Executors.traverse].
    replace (GraphOps.get_node_by_name _ _) with (Ok t1_node) by (vm_compute; reflexivity).
    cbn [mbind result_bind].
    rewrite bool_decide_false by discriminate.
    erewrite (execute_from_graph_gate_raises _ t1_node None _ previous_t1 "t1").
    + reflexivity.
    + reflexivity.
    + reflexivity.
    + reflexivity.
    + vm_compute. reflexivity.
    + vm_compute. eexists. reflexivity.
    + intros r. vm_compute. intros [= <-]. reflexivity.
Qed.

Section RerunStepLogs.
Context `{PyBuiltins} `{UserCode}.
Variable execute_graph :
  Graph -> map_variable -> Executor -> result (Executor * map_variable).

Lemma is_terminal_type_cases (n : Node) :
  Executors.is_terminal_type n = true ->
  exists b, n = FailNode b \/ n = SuccessNode b.
Proof.
  destruct n as [b|b|b|b r|b bs|b i a g|b f g]; intros Ht;
    try discriminate Ht; exists b; auto.
Qed.

(** A first attempt that succeeds ends the loop. *)
Lemma attempt_loop_first_success (n : Node) (mocking : bool) (mv : map_variable)
    (k : nat) (tried max_attempts : Z) (ex ex1 : Executor) (step_log : StepLog)
    (a : AttemptLog) :
  Nodes.execute n mocking mv ex = Ok (ex1, a) ->
  al_status a = SUCCESS ->
  has_run_log (run_log_store ex1) (run_id ex1) ->
  exists st,
    Datastore.set_parameters (run_log_store ex1) (run_id ex1) (environ ex1) = Ok st
    /\ has_run_log st (run_id ex1)
    /\ Executors.attempt_loop (S k) tried max_attempts n mocking mv ex step_log
       = (set_store st (set_environ ∅ ex1),
          set_step_status SUCCESS
            (append_attempt (set_attempt_numner tried a) step_log)).
Proof.
  intros Hexec Hsucc Hrun.
  destruct (set_parameters_Ok _ _ (environ ex1) Hrun) as (st & Hset & Hrun').
  exists st. split; [exact Hset|]. split; [exact Hrun'|].
  cbn [Executors.attempt_loop]. rewrite Hexec.
  destruct (decide (al_status (set_attempt_numner tried a) = FAIL)) as [Hf|_].
  - cbn in Hf. congruence.
  - cbn [Executors.get_user_set_parameters_remove set_environ run_log_store run_id].
    now rewrite Hset.
Qed.

(** C5, as amended.  In a re-run, as in any run, the step log that the
    traversal files for a success or fail node is not mocked and carries
    exactly one attempt log, of status SUCCESS: [execute_from_graph]
    executes such a node without consulting the re-run gate.  This holds
    when the node's budget [get_max_attempts()] is at least 1, as every
    [retry] of the data model gives, and its catalog syncs succeed.  What
    is filed for the other nodes is left out here. *)
Theorem rerun_step_logs (n : Node) (mv : map_variable) (ex : Executor)
    (step_log_name : string) (max_attempts : Z) :
  Executors.is_terminal_type n = true ->
  Nodes.get_step_log_name (base n) mv = Ok step_log_name ->
  Nodes.get_max_attempts (base n) = Ok max_attempts ->
  (1 <= max_attempts)%Z ->
  has_run_log (run_log_store ex) (run_id ex) ->
  catalog_syncs n (run_id ex) ->
  exists ex' step_log a,
    Executors.execute_from_graph execute_graph n mv ex = Ok (ex', mv)
    /\ Datastore.get_step_log (run_log_store ex') step_log_name (run_id ex)
       = Ok step_log
    /\ mock step_log = false
    /\ attempts step_log = [a]
    /\ al_status a = SUCCESS
    /\ sl_status step_log = SUCCESS.
Proof.
  intros Hterm Hname Hmax Hpos Hrun Hsync.
  unfold Executors.execute_from_graph. rewrite Hname. cbn [mbind result_bind].
  rewrite Hterm.
  set (created := set_step_status PROCESSING (set_step_type _ _)).
  destruct (add_step_log_Ok _ created _ Hrun) as (r & Hr & Hadd).
  rewrite Hadd. cbn [mbind result_bind].
  pose proof (get_step_log_add_step_log _ _ _ _ Hadd) as Hcreated.
  change (sl_internal_name created) with step_log_name in Hcreated.
  pose proof (add_step_log_has_run_log _ _ _ _ Hadd) as Hrun1.
  set (st1 := <[run_id ex := _]> (run_log_store ex)) in *.
  destruct (execute_node_unfold n mv (set_store st1 ex) max_attempts
              step_log_name created Hsync Hmax Hname Hcreated)
    as (r1 & d & added & Hr1 & ->).
  destruct (Z.to_nat (max_attempts - 0)) as [|k] eqn:Hk; [lia|].
  set (ex0 := Executors.store_parameter (parameters r1) (set_store st1 ex)).
  assert (Hexec : exists ex2 a,
    Nodes.execute n (mock created) mv ex0 = Ok (ex2, a)
    /\ al_status a = SUCCESS /\ run_id ex2 = run_id ex
    /\ has_run_log (run_log_store ex2) (run_id ex)).
  { destruct (is_terminal_type_cases n Hterm) as (b & [-> | ->]);
      cbn [Nodes.execute].
    - destruct (mark_enclosing_log_keeps_run_log FAIL b mv ex0 Hrun1) as [Hid Hkeep].
      eexists _, _. split; [reflexivity|]. repeat split; assumption.
    - destruct (mark_enclosing_log_keeps_run_log SUCCESS b mv ex0 Hrun1) as [Hid Hkeep].
      eexists _, _. split; [reflexivity|]. repeat split; assumption. }
  destruct Hexec as (ex2 & a & Hexec & Hsucc & Hid2 & Hrun2).
  destruct (attempt_loop_first_success n (mock created) mv k 0%Z max_attempts
              ex0 ex2 (set_data_catalogs added created) a Hexec Hsucc)
    as (st & Hset & Hrun3 & ->).
  { now rewrite Hid2. }
  set (looped := set_step_status SUCCESS _).
  destruct (catalog_syncs_Ok n (run_id ex) looped "put" d
              (set_store st (set_environ ∅ ex2)) Hsync)
    as (d2 & added2 & Hput); [now right | exact Hid2 |].
  rewrite Hput. cbn [mbind result_bind].
  cbn [set_store run_log_store run_id set_environ].
  set (final := set_data_catalogs added2 looped).
  destruct (add_step_log_Ok st final (run_id ex2) Hrun3) as (r3 & Hr3 & Hadd3).
  rewrite Hadd3. cbn [mbind result_bind].
  eexists _, final, (set_attempt_numner 0 a).
  split; [reflexivity|]. split.
  + cbn [set_store run_log_store]. rewrite <- Hid2.
    exact (get_step_log_add_step_log _ _ _ _ Hadd3).
  + repeat split. exact Hsucc.
Qed.
End RerunStepLogs.

(** C5, as stated, fails: the pipeline that starts at its success node,
    re-run against a previous run of the same DAG in which its only step
    succeeded, yields a run log whose step log for that node is not mocked
    and has an attempt log. *)
Lemma rerun_all_mocked_counterexample :
  exists ex' new_run_log,
    all_steps_succeeded previous_terminal
    /\ rl_dag_hash previous_terminal = "h"
    /\ Pipeline.execute 2
         (executor_with "r2" None {[ "r1" := previous_terminal ]} graph_terminal)
         (Some "r1") true false ∅ = Ok ex'
    /\ previous_run_log ex' = Some previous_terminal
    /\ run_log_store ex' !! "r2" = Some new_run_log
    /\ ~ all_steps_mocked new_run_log.
Proof.
  eexists _, _. split; [|split; [reflexivity | split; [vm_compute; reflexivity|]]].
  - intros name l Hl. unfold previous_terminal, run_with_steps in Hl. cbn in Hl.
    apply lookup_insert_Some in Hl as [[_ <-] | [_ Hl]]; [reflexivity|].
    now rewrite lookup_empty in Hl.
  - split; [reflexivity|]. split; [vm_compute; reflexivity|].
    intros Hall. destruct (Hall "success" _ eq_refl) as [Hmock _].
    discriminate Hmock.
Qed.

(* ===================================================================== *)
(** ** Composite nodes: what is checked when *)
(* ===================================================================== *)

Section Validation.
Context `{PyBuiltins}.

(** C6, as amended.  Constructing a map node whose config lacks
    [iterate_on] or lacks [iterate_as] fails, and so does constructing a
    parallel node whose [branches] mapping is empty, whatever
    [create_graph] would do.  That [iterate_on] names a list is checked
    when the map node is executed as a graph: if the parameter is not a
    list, [execute_as_graph] fails before a branch log is created or a
    branch is run. *)
Theorem composite_node_validation
    (create_graph : pyval -> option string -> result Graph)
    (name internal_name : string) (config : gmap string pyval)
    (internal_branch_name : option string) :
  (config !! "iterate_on" = None ->
     exists msg, Nodes.MapNode_init create_graph name internal_name config
                   internal_branch_name = Raise (Exception msg))
  /\ (config !! "iterate_as" = None ->
      exists msg, Nodes.MapNode_init create_graph name internal_name config
                    internal_branch_name = Raise (Exception msg))
  /\ (config !! "branches" = Some (PDict []) ->
      Nodes.ParallelNode_init create_graph name internal_name config
        internal_branch_name
      = Raise (Exception "A parallel node should have branches"))
  /\ (forall execute_graph b key iterate_as branch mv ex run_log v,
        run_log_store ex !! run_id ex = Some run_log ->
        parameters run_log !! key = Some v ->
        is_list v = false ->
        Nodes.MapNode_execute_as_graph execute_graph b (PStr key) iterate_as branch mv ex
        = Raise (Exception "Only list is allowed as a valid iterator type")).
Proof.
  split; [|split; [|split]].
  - intros Hnone. unfold Nodes.MapNode_init. rewrite Hnone. cbn. eauto.
  - intros Hnone. unfold Nodes.MapNode_init. rewrite Hnone.
    destruct (negb (truthy (default PNone (config !! "iterate_on")))); cbn; eauto.
  - intros Hempty. unfold Nodes.ParallelNode_init, Nodes.ParallelNode_get_sub_graphs.
    unfold Nodes.BaseNode_init. cbn -[lookup]. rewrite Hempty. reflexivity.
  - intros execute_graph b key iterate_as branch mv ex run_log v Hrun Hparam Hlist.
    unfold Nodes.MapNode_execute_as_graph, Datastore.get_run_log_by_id.
    rewrite Hrun. cbn [mbind result_bind]. rewrite Hparam. cbn [mbind result_bind].
    destruct v; try reflexivity. discriminate Hlist.
Qed.
End Validation.

(** C6, as stated, fails: the map node over [xs] is constructed although
    [xs] is the number 3 in the run at hand; it is executing the node as a
    graph that fails. *)
Lemma map_node_not_a_list_counterexample :
  exists node params,
    Datastore.get_parameters store_xs "r1" = Ok params
    /\ params !! "xs" = Some (PInt 3)
    /\ is_list (PInt 3) = false
    /\ Nodes.MapNode_init (GraphBuild.create_graph 2) "m" "m" map_config None = Ok node
    /\ ~ (exists e, Nodes.MapNode_init (GraphBuild.create_graph 2) "m" "m" map_config None
                    = Raise e)
    /\ forall execute_graph,
         Nodes.execute_as_graph execute_graph node None
           (executor_with "r1" None store_xs empty_graph)
         = Raise (Exception "Only list is allowed as a valid iterator type").
Proof.
  eexists _, _. split; [vm_compute; reflexivity|].
  split; [vm_compute; reflexivity|]. split; [reflexivity|].
  split; [vm_compute; reflexivity|]. split.
  - intros [e He]. vm_compute in He. discriminate He.
  - intros execute_graph. vm_compute. reflexivity.
Qed.

(* ===================================================================== *)
(** ** The statements at concrete inputs *)
(* ===================================================================== *)

(** [retry: 0] gives one attempt. *)
Lemma get_max_attempts_zero_retry_witness :
  config (task_with "t1" "echo hi" (Some (PInt 0)) "success") !! "retry" = Some (PInt 0)
  /\ py_int (PInt 0) = Ok 0%Z
  /\ Nodes.get_max_attempts (task_with "t1" "echo hi" (Some (PInt 0)) "success") = Ok 1%Z.
Proof.
  split; [reflexivity|]. split; [reflexivity|].
  destruct (get_max_attempts_zero_retry
              (task_with "t1" "echo hi" (Some (PInt 0)) "success") (PInt 0))
    as [Hone _]; [reflexivity | reflexivity | exact Hone].
Defined.

(** Scenario "retry then succeed": [retry: 3], the command fails twice;
    the task has files to get from and to put into the catalog. *)
Lemma execute_node_retries_witness :
  Nodes.get_max_attempts (task_with_catalog "t1" "flaky" (PInt 3) "success") = Ok 3%Z
  /\ (1 <= 3)%Z
  /\ Nodes.get_step_log_name (task_with_catalog "t1" "flaky" (PInt 3) "success") None
     = Ok "t1"
  /\ Datastore.get_step_log store_t1 "t1" "r1" = Ok (Datastore.create_step_log "t1" "t1")
  /\ catalog_syncs (TaskNode (task_with_catalog "t1" "flaky" (PInt 3) "success")) "r1"
  /\ exists ex' step_log' appended,
       Executors.execute_node
         (TaskNode (task_with_catalog "t1" "flaky" (PInt 3) "success"))
         None (executor_with "r1" None store_t1 graph_t1) = Ok ex'
       /\ Datastore.get_step_log (run_log_store ex') "t1" "r1" = Ok step_log'
       /\ appended <> []
       /\ retried 3 (Datastore.create_step_log "t1" "t1") step_log' appended.
Proof.
  assert (Hsync : catalog_syncs
                    (TaskNode (task_with_catalog "t1" "flaky" (PInt 3) "success")) "r1").
  { intros step_log stage synced_catalogs ex [-> | ->] _; vm_compute; reflexivity. }
  split; [reflexivity|]. split; [lia|]. split; [reflexivity|].
  split; [vm_compute; reflexivity|]. split; [exact Hsync|].
  apply (execute_node_retries (task_with_catalog "t1" "flaky" (PInt 3) "success") None
           (executor_with "r1" None store_t1 graph_t1) 3 "t1"
           (Datastore.create_step_log "t1" "t1")).
  - reflexivity.
  - lia.
  - reflexivity.
  - vm_compute; reflexivity.
  - reflexivity.
  - exact Hsync.
Defined.

(** The parallel step [p] with a failed and an unfinished branch. *)
Lemma composite_step_reconciled_witness :
  Nodes.resolve_map_placeholders (internal_name parallel_p) None = Ok "p"
  /\ Datastore.get_step_log store_p "p" "r1"
     = Ok (set_step_type "parallel" (Datastore.create_step_log "p" "p"))
  /\ reconciles (fun kv : string * Graph => Nodes.resolve_map_placeholders (fst kv) None)
       branches_p [FAIL; PROCESSING] "p" "r1"
       (Nodes.ParallelNode_reconcile parallel_p branches_p None store_p "r1").
Proof.
  split; [reflexivity|]. split; [vm_compute; reflexivity|].
  apply (composite_step_reconciled parallel_p None store_p "r1" [FAIL; PROCESSING] "p"
           (set_step_type "parallel" (Datastore.create_step_log "p" "p"))).
  - reflexivity.
  - vm_compute; reflexivity.
  - reflexivity.
  - repeat constructor.
    + exists "p.a", (IsBranchLog {| bl_internal_name := "p.a"; bl_status := FAIL |}).
      repeat split; vm_compute; reflexivity.
    + exists "p.b",
        (IsBranchLog {| bl_internal_name := "p.b"; bl_status := PROCESSING |}).
      repeat split; vm_compute; reflexivity.
Defined.

(** After the failure of [t1], which has no [on_failure], the traversal
    goes to the fail node of the graph. *)
Lemma get_status_and_next_node_name_witness :
  Nodes.get_step_log_name (base t1_node) None = Ok "t1"
  /\ Datastore.get_step_log store_t1_failed "t1" "r1"
     = Ok (set_step_status FAIL (Datastore.create_step_log "t1" "t1"))
  /\ GraphOps.get_fail_node graph_t1 = Ok (FailNode (terminal_base "fail"))
  /\ Executors.get_status_and_next_node_name t1_node graph_t1 None
       (executor_with "r1" None store_t1_failed graph_t1)
     = Ok (FAIL, PStr "fail").
Proof.
  split; [reflexivity|]. split; [vm_compute; reflexivity|]. split; [reflexivity|].
  destruct (get_status_and_next_node_name_spec t1_node graph_t1 None
              (executor_with "r1" None store_t1_failed graph_t1) "t1"
              (set_step_status FAIL (Datastore.create_step_log "t1" "t1"))
              (FailNode (terminal_base "fail")))
    as (next & Hresult & _ & Hfail).
  - reflexivity.
  - vm_compute; reflexivity.
  - intros _. reflexivity.
  - rewrite Hresult. destruct (Hfail eq_refl) as (_ & Habsent & _).
    rewrite Habsent; [reflexivity | vm_compute; reflexivity].
Defined.

(** The re-run of the pipeline that starts at its success node, against the
    previous run in which that step succeeded: the state in which
    [execute] starts the traversal, and the step log filed for the success
    node. *)
Lemma rerun_step_logs_witness :
  Pipeline.attach_previous_run
    (executor_with "r2" None {[ "r1" := previous_terminal ]} graph_terminal)
    (Some "r1") true false
  = Ok (executor_with "r2" (Some previous_terminal) {[ "r1" := previous_terminal ]}
          graph_terminal)
  /\ GraphOps.get_node_by_name graph_terminal (start_at graph_terminal)
     = Ok (SuccessNode (terminal_base "success"))
  /\ Executors.is_terminal_type (SuccessNode (terminal_base "success")) = true
  /\ Nodes.get_step_log_name (terminal_base "success") None = Ok "success"
  /\ Nodes.get_max_attempts (terminal_base "success") = Ok 1%Z
  /\ catalog_syncs (SuccessNode (terminal_base "success")) "r2"
  /\ exists ex' step_log a,
       Executors.execute_from_graph (fun g mv ex => Raise OutOfFuel)
         (SuccessNode (terminal_base "success")) None
         (Pipeline.prepare_for_graph_execution
            (executor_with "r2" (Some previous_terminal) {[ "r1" := previous_terminal ]}
               graph_terminal))
       = Ok (ex', None)
       /\ Datastore.get_step_log (run_log_store ex') "success" "r2" = Ok step_log
       /\ mock step_log = false
       /\ attempts step_log = [a]
       /\ al_status a = SUCCESS
       /\ sl_status step_log = SUCCESS.
Proof.
  assert (Hsync : catalog_syncs (SuccessNode (terminal_base "success")) "r2").
  { intros step_log stage synced_catalogs ex [-> | ->] _; vm_compute; reflexivity. }
  split; [vm_compute; reflexivity|]. split; [vm_compute; reflexivity|].
  split; [reflexivity|]. split; [reflexivity|]. split; [reflexivity|].
  split; [exact Hsync|].
  apply (rerun_step_logs (fun g mv ex => Raise OutOfFuel)
           (SuccessNode (terminal_base "success")) None
           (Pipeline.prepare_for_graph_execution
              (executor_with "r2" (Some previous_terminal) {[ "r1" := previous_terminal ]}
                 graph_terminal)) "success" 1).
  - reflexivity.
  - reflexivity.
  - reflexivity.
  - lia.
  - vm_compute. eexists. reflexivity.
  - exact Hsync.
Defined.

(** A map node without [iterate_on]; a parallel node without branches; a
    map node over the number 3. *)
Lemma composite_node_validation_witness :
  (exists msg, Nodes.MapNode_init (GraphBuild.create_graph 2) "m" "m" ∅ None
               = Raise (Exception msg))
  /\ Nodes.ParallelNode_init (GraphBuild.create_graph 2) "p" "p"
       {[ "branches" := PDict [] ]} None
     = Raise (Exception "A parallel node should have branches")
  /\ Nodes.MapNode_execute_as_graph (fun g mv ex => Raise OutOfFuel)
       (Nodes.BaseNode_init "m" "m" map_config None) (PStr "xs") (PStr "x") empty_graph
       None (executor_with "r1" None store_xs empty_graph)
     = Raise (Exception "Only list is allowed as a valid iterator type").
Proof.
  split; [|split].
  - apply (composite_node_validation (GraphBuild.create_graph 2) "m" "m" ∅ None).
    reflexivity.
  - apply (composite_node_validation (GraphBuild.create_graph 2) "p" "p"
             {[ "branches" := PDict [] ]} None).
    reflexivity.
  - eapply (composite_node_validation (GraphBuild.create_graph 2) "m" "m" ∅ None).
    + vm_compute; reflexivity.
    + vm_compute; reflexivity.
    + reflexivity.
Defined.

(** The fail node of the root graph marks the run log. *)
Lemma FailNode_execute_marks_enclosing_log_witness :
  exists ex' attempt_log l',
    Nodes.execute (FailNode (terminal_base "fail")) false None
      (executor_with "r1" None store_t1 graph_t1) = Ok (ex', attempt_log)
    /\ al_status attempt_log = SUCCESS
    /\ Datastore.get_branch_log (run_log_store ex') None "r1" = Ok l'
    /\ log_status l' = FAIL.
Proof.
  destruct (FailNode_execute_marks_enclosing_log (terminal_base "fail") false None
              (executor_with "r1" None store_t1 graph_t1))
    as (ex' & attempt_log & Hexec & Hsucc & Hid & Hmark).
  destruct (Hmark None (IsRunLog (run_with_steps "r1" [Datastore.create_step_log "t1" "t1"])))
    as (l' & Hget & Hfail).
  - reflexivity.
  - vm_compute; reflexivity.
  - exact I.
  - exists ex', attempt_log, l'. rewrite Hid in Hget. repeat split; assumption.
Defined.

(** A previous run of another DAG. *)
Lemma execute_dag_hash_mismatch_witness :
  Datastore.get_run_log_by_id {[ "r1" := previous_other_dag ]} "r1" = Ok previous_other_dag
  /\ rl_dag_hash previous_other_dag <> "h"
  /\ exists msg,
       Pipeline.execute 5
         (executor_with "r2" None {[ "r1" := previous_other_dag ]} graph_t1)
         (Some "r1") true false ∅ = Raise (Exception msg).
Proof.
  split; [vm_compute; reflexivity|]. split; [discriminate|].
  apply (execute_dag_hash_mismatch 5
           (executor_with "r2" None {[ "r1" := previous_other_dag ]} graph_t1)
           "r1" ∅ previous_other_dag).
  - vm_compute; reflexivity.
  - discriminate.
Defined.

(* ===================================================================== *)
(** ** Scenarios *)
(* ===================================================================== *)

(** [execute_as_graph] ends with the reconciliation of its class. *)
Lemma execute_as_graph_ends_with_reconcile `{PyBuiltins}
    (execute_graph : Graph -> map_variable -> Executor -> result (Executor * map_variable))
    (n : Node) (mv mv' : map_variable) (ex ex' : Executor) :
  Nodes.execute_as_graph execute_graph n mv ex = Ok (ex', mv') ->
  exists joined,
    match n with
    | ParallelNode b branches =>
        Nodes.ParallelNode_reconcile b branches mv' (run_log_store joined) (run_id joined)
        = Ok (run_log_store ex')
    | MapNode b iterate_on _ _ =>
        exists l, Nodes.MapNode_reconcile b l mv' (run_log_store joined) (run_id joined)
                  = Ok (run_log_store ex')
    | DagNode b _ _ =>
        exists branch_name step_name,
          Nodes.DagNode_reconcile branch_name step_name
            (run_log_store joined) (run_id joined) = Ok (run_log_store ex')
    | _ => False
    end.
Proof.
  destruct n as [b|b|b|b r|b branches|b iterate_on iterate_as branch|b f branch];
    cbn [Nodes.execute_as_graph]; try discriminate.
  - unfold Nodes.ParallelNode_execute_as_graph.
    destruct (Nodes.prepare_branch_logs _ _ _ _) as [st|e]; [|discriminate].
    cbn [mbind result_bind].
    destruct (Nodes.run_branches _ _ _ _) as [[joined mv1]|e]; [|discriminate].
    cbn [mbind result_bind].
    destruct (Nodes.ParallelNode_reconcile _ _ _ _ _) as [st'|e] eqn:Hrec; [|discriminate].
    cbn [mbind result_bind]. intros [= Hex Hmv]. subst ex' mv'.
    exists joined. exact Hrec.
  - unfold Nodes.MapNode_execute_as_graph.
    destruct (Datastore.get_run_log_by_id _ _) as [r|e]; [|discriminate].
    cbn [mbind result_bind].
    destruct (match iterate_on with PStr _ => _ | _ => _ end) as [p|e]; [|discriminate].
    cbn [mbind result_bind]. destruct p as [| | | |l|]; try discriminate.
    destruct (Nodes.prepare_branch_logs _ _ _ _) as [st|e]; [|discriminate].
    cbn [mbind result_bind].
    destruct (Nodes.run_iterations _ _ _ _ _ _) as [[joined mv1]|e]; [|discriminate].
    cbn [mbind result_bind].
    destruct (Nodes.MapNode_reconcile _ _ _ _ _) as [st'|e] eqn:Hrec; [|discriminate].
    cbn [mbind result_bind]. intros [= Hex Hmv]. subst ex' mv'.
    exists joined, l. exact Hrec.
  - unfold Nodes.DagNode_execute_as_graph.
    destruct (Nodes.resolve_map_placeholders (Nodes.DagNode_internal_branch_name b) mv)
      as [bn|e]; [|discriminate].
    cbn [mbind result_bind].
    destruct (Nodes.resolve_map_placeholders (internal_name b) mv) as [sn|e];
      [|discriminate].
    cbn [mbind result_bind].
    destruct (Datastore.add_branch_log _ _ _) as [st|e]; [|discriminate].
    cbn [mbind result_bind].
    destruct (execute_graph _ _ _) as [[joined mv1]|e]; [|discriminate].
    cbn [mbind result_bind].
    destruct (Nodes.DagNode_reconcile _ _ _ _) as [st'|e] eqn:Hrec; [|discriminate].
    cbn [mbind result_bind]. intros [= Hex Hmv]. subst ex' mv'.
    exists joined, bn, sn. exact Hrec.
Qed.

(** One placeholder per key is what happens when the name has them. *)
Example resolve_two_placeholders :
  Nodes.resolve_map_placeholders "m.%.n.%.t"
    (Some (string_items [(PStr "x", "a"); (PStr "y", "b")])) = Ok "m.a.n.b.t"
  /\ one_per_key [(PStr "x", "a"); (PStr "y", "b")] "m.%.n.%.t" "m.a.n.b.t".
Proof.
  split; [reflexivity|].
  apply (one_per_key_step _ _ _ _ "m.a.n.%.t").
  - exact (replaces_leftmost_at "a" "m." ".n.%.t" eq_refl).
  - apply (one_per_key_step _ _ _ _ "m.a.n.b.t").
    + exact (replaces_leftmost_at "b" "m.a.n." ".t" eq_refl).
    + constructor.
Qed.

(** The catalog syncs of [execute_node] at work.  With well-formed
    settings the step log gets the data catalogs of both stages; with
    settings that are a list, or a file that the handler does not find, the
    sync before the retry loop raises and no attempt is made. *)
Example execute_node_syncs_catalog :
  (exists ex' step_log,
     Executors.execute_node (TaskNode (task_with_catalog "t1" "echo hi" (PInt 1) "success"))
       None (executor_with "r1" None store_t1 graph_t1) = Ok ex'
     /\ Datastore.get_step_log (run_log_store ex') "t1" "r1" = Ok step_log
     /\ data_catalogs step_log
        = [ {| dc_name := "in.csv"; data_hash := ""; dc_stage := "get" |};
            {| dc_name := "out.csv"; data_hash := ""; dc_stage := "put" |} ])
  /\ Executors.execute_node
       (TaskNode {| name := "t1"; internal_name := "t1";
                    config := {[ "command" := PStr "echo hi";
                                 "catalog" := PList [PStr "get"] ]};
                    internal_branch_name := None |})
       None (executor_with "r1" None store_t1 graph_t1) = Raise AttributeError
  /\ Executors.execute_node
       (TaskNode {| name := "t1"; internal_name := "t1";
                    config := {[ "command" := PStr "echo hi";
                                 "catalog" := PDict [("get", PList [PStr "missing.csv"])] ]};
                    internal_branch_name := None |})
       None (executor_with "r1" None store_t1 graph_t1)
     = Raise (Exception "no such file").
Proof.
  split; [|split; vm_compute; reflexivity].
  eexists _, _. split; [vm_compute; reflexivity|].
  split; vm_compute; reflexivity.
Qed.

(** Without the step log of the composite node on file, no branch log is
    filed. *)
Example prepare_branch_logs_without_step_log :
  Nodes.prepare_branch_logs (fun kv : string * Graph => Ok (fst kv)) branches_p
    store_r1_empty "r1" = Raise StepLogNotFoundError.
Proof. vm_compute. reflexivity. Qed.

(** Linear happy path: [t1 -> success]. *)
Example scenario_linear_happy_path :
  exists ex',
    Pipeline.execute 3 (executor_with "r1" None ∅ graph_t1) None false false ∅ = Ok ex'
    /\ step_statuses ex' "r1" = [("success", SUCCESS); ("t1", SUCCESS)]
    /\ (rl_status <$> run_log_store ex' !! "r1") = Some SUCCESS.
Proof.
  eexists. split; [vm_compute; reflexivity|].
  split; vm_compute; reflexivity.
Qed.

(** Parallel fan-out in which branch [B] fails: both branch logs are
    there, the parallel step and the run are FAIL. *)
Example scenario_parallel_one_branch_fails :
  exists g ex',
    GraphBuild.create_graph 2 parallel_document None = Ok g
    /\ Executors.execute_graph 5 g None
         (Pipeline.prepare_for_graph_execution (executor_with "r1" None ∅ g))
       = Ok (ex', None)
    /\ branch_statuses ex' "r1" = [("p.A", SUCCESS); ("p.B", FAIL)]
    /\ (sl_status <$> (steps <$> run_log_store ex' !! "r1") ≫= (.!! "p")) = Some FAIL
    /\ (rl_status <$> run_log_store ex' !! "r1") = Some FAIL.
Proof.
  eexists _, _. split; [vm_compute; reflexivity|].
  split; [vm_compute; reflexivity|].
  split; [vm_compute; reflexivity|].
  split; vm_compute; reflexivity.
Qed.

(** A map step inside a map step: the inner step adds its variable to the
    dictionary it was handed, and names are resolved with both. *)
Example scenario_nested_map :
  exists g ex',
    GraphBuild.create_graph 3 nested_map_document None = Ok g
    /\ Pipeline.execute 9 (executor_with "r1" None ∅ g) None false false
         {[ "xs" := PList [PStr "a"]; "ys" := PList [PStr "b"; PStr "c"] ]} = Ok ex'
    /\ branch_statuses ex' "r1"
       = [("m.a.n.c", SUCCESS); ("m.a.n.b", SUCCESS); ("m.a", SUCCESS)]
    /\ (sl_status <$> (steps <$> run_log_store ex' !! "r1") ≫= (.!! "m.a.n")) = Some SUCCESS
    /\ (sl_status <$> (steps <$> run_log_store ex' !! "r1") ≫= (.!! "m")) = Some SUCCESS.
Proof.
  eexists _, _. split; [vm_compute; reflexivity|].
  split; [vm_compute; reflexivity|].
  split; [vm_compute; reflexivity|].
  split; vm_compute; reflexivity.
Qed.

(* ===================================================================== *)
(** ** Further properties: names on the command line *)
(* ===================================================================== *)

Lemma replace_char_removes (old : ascii) (new s : string) :
  occurs old new = false -> occurs old (replace_char old new s) = false.
Proof.
  intros Hnew. induction s as [|c s IH]; [reflexivity|].
  cbn [replace_char]. destruct (Ascii.eqb c old) eqn:Hc.
  - rewrite occurs_append, Hnew, IH. reflexivity.
  - cbn [occurs]. rewrite IH, orb_false_r.
    rewrite Ascii.eqb_sym. exact Hc.
Qed.

Lemma replace_char_back (a b : ascii) (s : string) :
  occurs b s = false ->
  replace_char b (String a EmptyString) (replace_char a (String b EmptyString) s) = s.
Proof.
  induction s as [|c s IH]; intros Hocc; [reflexivity|].
  cbn [occurs] in Hocc. apply orb_false_iff in Hocc as [Hc Hs].
  cbn [replace_char]. destruct (Ascii.eqb c a) eqn:Hca.
  - apply Ascii.eqb_eq in Hca as ->.
    change (String b "" +:+ ?x) with (String b x).
    cbn [replace_char]. rewrite Ascii.eqb_refl.
    change (String a "" +:+ ?x) with (String a x).
    now rewrite IH.
  - cbn [replace_char]. rewrite Ascii.eqb_sym, Hc. now rewrite IH.
Qed.

(** X1.  Turning the command-friendly name of a node back into an internal
    name gives the node's internal name exactly when that name has no
    [%] in it: blanks come back, but a [%] of the name itself (the
    placeholder of a map branch) comes back as a blank. *)
Theorem command_friendly_name_round_trip (b : NodeBase) :
  get_internal_name_from_command_name (command_friendly_name b) = internal_name b
  <-> occurs "%" (internal_name b) = false.
Proof.
  unfold get_internal_name_from_command_name, command_friendly_name,
    COMMAND_FRIENDLY_CHARACTER.
  split.
  - intros Heq. rewrite <- Heq. now apply replace_char_removes.
  - intros Hocc. now apply (replace_char_back " " "%").
Qed.

(* ===================================================================== *)
(** ** Further properties: map placeholders *)
(* ===================================================================== *)

Lemma replace_placeholders_type_check (items : list (pyval * pyval)) (name : string) :
  (forallb (fun kv => is_str (snd kv)) items = true ->
     exists r, Nodes.replace_placeholders name items = Ok r)
  /\ (forallb (fun kv => is_str (snd kv)) items = false ->
      Nodes.replace_placeholders name items = Raise TypeError).
Proof.
  revert name. induction items as [|[k v] rest IH]; intros name.
  - split; [intros _; now exists name | discriminate].
  - cbn [forallb snd Nodes.replace_placeholders].
    destruct v; cbn [is_str andb]; try (split; [discriminate | reflexivity]).
    apply IH.
Qed.

(** X2.  [resolve_map_placeholders] returns a name exactly when the map
    variable is absent or all its values are strings; with a value that is
    not a string it raises [TypeError], whether or not the name has a
    placeholder for it. *)
Theorem resolve_map_placeholders_type_check (name : string) (mv : map_variable) :
  let all_strings := forallb (fun kv => is_str (snd kv)) (default [] mv) in
  (all_strings = true -> exists r, Nodes.resolve_map_placeholders name mv = Ok r)
  /\ (all_strings = false -> Nodes.resolve_map_placeholders name mv = Raise TypeError).
Proof.
  cbv zeta. unfold Nodes.resolve_map_placeholders.
  destruct mv as [[|kv rest]|]; cbn [map_variable_falsy default].
  - split; [intros _; now exists name | discriminate].
  - apply replace_placeholders_type_check.
  - split; [intros _; now exists name | discriminate].
Qed.

Lemma count_char_append (c : ascii) (a b : string) :
  count_char c (a +:+ b) = (count_char c a + count_char c b)%nat.
Proof.
  induction a as [|x a IH]; [reflexivity|].
  rewrite append_cons. cbn [count_char]. rewrite IH. lia.
Qed.

Lemma count_char_occurs (c : ascii) (s : string) :
  occurs c s = false <-> count_char c s = 0%nat.
Proof.
  induction s as [|d s IH]; [now split|].
  cbn [occurs count_char]. destruct (Ascii.eqb c d); cbn.
  - split; [discriminate | lia].
  - exact IH.
Qed.

Lemma replace_first_count (v s : string) :
  occurs "%" v = false ->
  count_char "%" (replace_first MAP_PLACEHOLDER v s) = (count_char "%" s - 1)%nat.
Proof.
  intros Hv. destruct (leftmost_placeholder s) as [Hnone | (pre & post & -> & Hpre)].
  - rewrite (replace_first_miss v s Hnone).
    apply count_char_occurs in Hnone. lia.
  - rewrite (replace_first_hit v pre post Hpre).
    rewrite !count_char_append.
    apply count_char_occurs in Hv, Hpre. rewrite Hv, Hpre.
    change (count_char "%" "%") with 1%nat. lia.
Qed.

(** X3.  When no value of the map variable contains the placeholder, each
    of its keys uses up one placeholder of the name as long as there is
    one: the resolved name has as many placeholders as the name had, less
    the number of keys (and none if there are more keys). *)
Theorem resolve_map_placeholders_count (name : string) (items : list (pyval * string)) :
  Forall (fun kv => occurs "%" (snd kv) = false) items ->
  exists r,
    Nodes.resolve_map_placeholders name (Some (string_items items)) = Ok r
    /\ count_char "%" r = (count_char "%" name - length items)%nat.
Proof.
  intros Hvalues.
  assert (Hloop : exists r,
    Nodes.replace_placeholders name (string_items items) = Ok r
    /\ count_char "%" r = (count_char "%" name - length items)%nat).
  { revert name. induction Hvalues as [|[k v] rest Hv _ IH]; intros name.
    - exists name. split; [reflexivity | cbn; lia].
    - cbn [string_items map fst snd Nodes.replace_placeholders].
      destruct (IH (replace_first MAP_PLACEHOLDER v name)) as (r & Hr & Hcount).
      exists r. split; [exact Hr|].
      rewrite Hcount, (replace_first_count v name Hv). cbn [length]. lia. }
  destruct items as [|kv rest]; [|exact Hloop].
  exists name. split; [reflexivity | cbn; lia].
Qed.

(* ===================================================================== *)
(** ** Further properties: validation of a node *)
(* ===================================================================== *)

Lemma required_messages_nil node_name config reqs messages :
  required_messages node_name config reqs messages = [] <->
  messages = [] /\ Forall (fun req => is_Some (config !! req)) reqs.
Proof.
  revert messages. induction reqs as [|req rest IH]; intros messages.
  - cbn. split; [intros ->; now split | now intros [-> _]].
  - cbn [required_messages]. rewrite IH, Forall_cons.
    destruct (decide (is_Some (config !! req))) as [Hin|Hnin].
    + rewrite (bool_decide_true _ Hin). cbn [negb]. tauto.
    + rewrite (bool_decide_false _ Hnin). cbn [negb]. split.
      * intros [Hnil _]. now destruct messages.
      * intros [_ [Hin _]]. contradiction.
Qed.

Lemma error_on_messages_nil node_name config errs messages :
  error_on_messages node_name config errs messages = [] <->
  messages = [] /\ Forall (fun err => config !! err = None) errs.
Proof.
  revert messages. induction errs as [|err rest IH]; intros messages.
  - cbn. split; [intros ->; now split | now intros [-> _]].
  - cbn [error_on_messages]. rewrite IH, Forall_cons.
    destruct (config !! err) as [v|] eqn:Hv.
    + rewrite bool_decide_true by eauto. split.
      * intros [Hnil _]. now destruct messages.
      * intros [_ [Habs _]]. discriminate Habs.
    + rewrite bool_decide_false by (intros [? ?]; discriminate). tauto.
Qed.

(** X4.  For a node whose type is in the table, [validate_node] returns no
    message exactly when the node's name has neither [.] nor [%], every
    required field is in its config and no field of [error_on] is; for a
    type that is not in the table it raises. *)
Theorem validate_node_accepts (specs : list (string * NodeSpec)) (n : Node) :
  (dict_lookup (node_type n) specs = None ->
     exists msg, validate_node specs n = Raise (Exception msg))
  /\ (forall node_spec,
        dict_lookup (node_type n) specs = Some node_spec ->
        exists messages,
          validate_node specs n = Ok messages
          /\ (messages = [] <->
              occurs "." (name (base n)) = false
              /\ occurs "%" (name (base n)) = false
              /\ Forall (fun req => is_Some (config (base n) !! req))
                   (default [] (required node_spec))
              /\ Forall (fun err => config (base n) !! err = None)
                   (default [] (error_on node_spec)))).
Proof.
  split.
  - intros Hnone. unfold validate_node. rewrite Hnone. eauto.
  - intros node_spec Hspec. unfold validate_node. rewrite Hspec.
    eexists. split; [reflexivity|].
    destruct (occurs "." (name (base n))) eqn:Hdot;
      destruct (occurs "%" (name (base n))) eqn:Hpct;
      destruct (required node_spec) as [reqs|];
      destruct (error_on node_spec) as [errs|];
      cbn [default app];
      rewrite ?error_on_messages_nil, ?required_messages_nil;
      try (split; [ intros H; decompose [and] H; discriminate
                  | intros H; decompose [and] H; discriminate ]);
      try (split; [ intros H; decompose [and] H; repeat split; auto
                  | intros H; decompose [and] H; repeat split; auto ]).
Qed.

(* ===================================================================== *)
(** ** Further properties: the leaf nodes *)
(* ===================================================================== *)

Section LeafNodes.
Context `{UserCode}.

(** X5.  [TaskNode.execute] never touches the run log store, the run id or
    the previous run log; it runs at most one command; and its attempt is
    FAIL exactly when the config has no [command] or the command, run
    because [mock] is not set, raised. *)
Theorem TaskNode_execute_outcome (b : NodeBase) (mocking : bool)
    (mv : map_variable) (ex : Executor) :
  let ex' := fst (Nodes.TaskNode_execute b mocking mv ex) in
  let attempt_log := snd (Nodes.TaskNode_execute b mocking mv ex) in
  run_log_store ex' = run_log_store ex
  /\ run_id ex' = run_id ex
  /\ previous_run_log ex' = previous_run_log ex
  /\ (commands_run ex' = commands_run ex \/ commands_run ex' = S (commands_run ex))
  /\ (al_status attempt_log = SUCCESS \/ al_status attempt_log = FAIL)
  /\ (al_status attempt_log = FAIL <->
      config b !! "command" = None
      \/ (mocking = false
          /\ exists command e,
               config b !! "command" = Some command
               /\ run_command (commands_run ex) command mv (environ ex) = Raise e)).
Proof.
  cbv zeta. unfold Nodes.TaskNode_execute.
  destruct (config b !! "command") as [command|].
  - destruct mocking; cbn [negb].
    + cbn. repeat split; auto; try discriminate.
      intros [Habs | [Habs _]]; discriminate.
    + destruct (run_command _ _ _ _) as [params|e] eqn:Hrun; cbn.
      * repeat split; auto; try discriminate.
        intros [Habs | (_ & c & e & [= <-] & Hraise)]; [discriminate|].
        rewrite Hrun in Hraise. discriminate.
      * repeat split; auto. intros _. right. split; [reflexivity|]. eauto.
  - cbn. repeat split; auto.
Qed.
End LeafNodes.

(** X6.  Executing a success node returns an attempt log whose status is
    SUCCESS, and the enclosing branch or run log, read from the store under
    the node's branch name, is stored back with status SUCCESS. *)
Theorem SuccessNode_execute_marks_enclosing_log `{UserCode} (b : NodeBase)
    (mocking : bool) (mv : map_variable) (ex : Executor) :
  exists ex' attempt_log,
    Nodes.execute (SuccessNode b) mocking mv ex = Ok (ex', attempt_log)
    /\ al_status attempt_log = SUCCESS
    /\ run_id ex' = run_id ex
    /\ forall (branch_name : option string) (l : RunOrBranchLog),
         Nodes.get_branch_log_name b mv = Ok branch_name ->
         Datastore.get_branch_log (run_log_store ex) branch_name (run_id ex) = Ok l ->
         filed_under branch_name l ->
         exists l',
           Datastore.get_branch_log (run_log_store ex') branch_name (run_id ex') = Ok l'
           /\ log_status l' = SUCCESS.
Proof.
  exists (fst (Nodes.SuccessNode_execute b mocking mv ex)),
    (set_attempt_status SUCCESS Datastore.create_attempt_log).
  split; [reflexivity | split; [reflexivity | split]].
  - unfold Nodes.SuccessNode_execute, Nodes.mark_enclosing_log.
    cbn [fst]. now destruct (_ ≫= _).
  - intros branch_name l Hname Hget Hfiled.
    destruct (get_branch_log_add_branch_log _ _ _ _ SUCCESS Hget Hfiled)
      as (st' & Hadd & Hget').
    exists (set_log_status SUCCESS l).
    unfold Nodes.SuccessNode_execute, Nodes.mark_enclosing_log.
    rewrite Hname. cbn [mbind result_bind]. rewrite Hget. cbn [mbind result_bind].
    rewrite Hadd. cbn [fst run_log_store run_id set_store].
    split; [exact Hget' | apply log_status_set_log_status].
Qed.

(** X7.  A success or fail node whose enclosing log cannot be fetched, or
    whose branch name cannot be resolved, ignores the error: the executor
    comes back as it was and the attempt is SUCCESS all the same. *)
Theorem terminal_node_ignores_errors `{UserCode} (n : Node) (mocking : bool)
    (mv : map_variable) (ex : Executor) :
  Executors.is_terminal_type n = true ->
  (forall branch_name,
     Nodes.get_branch_log_name (base n) mv = Ok branch_name ->
     exists e, Datastore.get_branch_log (run_log_store ex) branch_name (run_id ex)
               = Raise e) ->
  exists attempt_log,
    Nodes.execute n mocking mv ex = Ok (ex, attempt_log)
    /\ al_status attempt_log = SUCCESS.
Proof.
  intros Hterm Hmiss.
  assert (Hmark : forall s b, base n = b -> Nodes.mark_enclosing_log s b mv ex = ex).
  { intros s b <-. unfold Nodes.mark_enclosing_log.
    destruct (Nodes.get_branch_log_name (base n) mv) as [bn|e] eqn:Hname;
      cbn [mbind result_bind]; [|reflexivity].
    destruct (Hmiss bn eq_refl) as [e ->]. reflexivity. }
  destruct n as [b|b|b|b r|b bs|b i a g|b f g]; try discriminate Hterm;
    cbn [Nodes.execute].
  - unfold Nodes.FailNode_execute. rewrite (Hmark FAIL b eq_refl). eauto.
  - unfold Nodes.SuccessNode_execute. rewrite (Hmark SUCCESS b eq_refl). eauto.
Qed.

(* ===================================================================== *)
(** ** Further properties: the branches of a parallel node *)
(* ===================================================================== *)

Lemma append_inj_r (a x y : string) : a +:+ x = a +:+ y -> x = y.
Proof.
  induction a as [|c a IH]; [now rewrite !append_nil_l|].
  rewrite !append_cons. intros [= Heq]. now apply IH.
Qed.

Lemma dict_lookup_dict_set_eq {V} (k : string) (v : V) (d : list (string * V)) :
  dict_lookup k (dict_set String.eqb k v d) = Some v.
Proof.
  induction d as [|[k' v'] d IH]; cbn [dict_set dict_lookup].
  - now rewrite String.eqb_refl.
  - destruct (String.eqb k' k) eqn:Hk; cbn [dict_lookup]; rewrite Hk; [reflexivity|].
    exact IH.
Qed.

Lemma dict_lookup_dict_set_ne {V} (k k' : string) (v : V) (d : list (string * V)) :
  k <> k' -> dict_lookup k' (dict_set String.eqb k v d) = dict_lookup k' d.
Proof.
  intros Hne. induction d as [|[k0 v0] d IH]; cbn [dict_set dict_lookup].
  - destruct (String.eqb k k') eqn:Hk; [|reflexivity].
    apply String.eqb_eq in Hk. contradiction.
  - destruct (String.eqb k0 k) eqn:Hk0; cbn [dict_lookup].
    + apply String.eqb_eq in Hk0 as ->.
      destruct (String.eqb k k') eqn:Hk; [|reflexivity].
      apply String.eqb_eq in Hk. contradiction.
    + destruct (String.eqb k0 k'); [reflexivity | exact IH].
Qed.

Lemma dict_set_not_nil {K V} (eqb : K -> K -> bool) (k : K) (v : V) (d : list (K * V)) :
  dict_set eqb k v d <> [].
Proof. destruct d as [|[k' v'] d]; cbn; [discriminate|]. now destruct (eqb k' k). Qed.

Lemma sub_graphs_loop_lookup
    (create_graph : pyval -> option string -> result Graph) (internal_name : string)
    (items : list (string * pyval)) :
  forall (acc res : list (string * Graph)),
    NoDup (map fst items) ->
    Nodes.sub_graphs_loop create_graph internal_name items acc = Ok res ->
    (forall k g, dict_lookup k acc = Some g ->
                 (forall bn, bn ∈ map fst items -> k <> internal_name +:+ "." +:+ bn) ->
                 dict_lookup k res = Some g)
    /\ (forall bn cfg, (bn, cfg) ∈ items ->
          exists g, create_graph cfg (Some (internal_name +:+ "." +:+ bn)) = Ok g
                    /\ dict_lookup (internal_name +:+ "." +:+ bn) res = Some g)
    /\ (acc <> [] \/ items <> [] -> res <> []).
Proof.
  induction items as [|[bn0 cfg0] rest IH]; intros acc res Hnodup Hloop.
  - cbn in Hloop. injection Hloop as <-. split; [|split].
    + intros k g Hk _. exact Hk.
    + intros bn cfg Hin. now apply elem_of_nil in Hin.
    + intros [Hacc | Hitems]; [exact Hacc | contradiction].
  - cbn [map fst] in Hnodup. apply NoDup_cons in Hnodup as [Hfresh Hnodup].
    cbn [Nodes.sub_graphs_loop] in Hloop.
    destruct (create_graph cfg0 _) as [g0|e] eqn:Hg0; [|discriminate Hloop].
    cbn [mbind result_bind] in Hloop.
    destruct (IH _ _ Hnodup Hloop) as (Hkeep & Hrest & Hne).
    split; [|split].
    + intros k g Hk Hother. apply Hkeep.
      * rewrite dict_lookup_dict_set_ne; [exact Hk|].
        intros Heq. apply (Hother bn0); [cbn; left | now symmetry].
      * intros bn Hbn. apply Hother. cbn. now right.
    + intros bn cfg Hin. apply elem_of_cons in Hin as [[= -> ->] | Hin].
      * exists g0. split; [exact Hg0|]. apply Hkeep.
        -- apply dict_lookup_dict_set_eq.
        -- intros bn Hbn Heq. apply append_inj_r, append_inj_r in Heq.
           subst bn. contradiction.
      * now apply Hrest.
    + intros _. apply Hne. left. apply dict_set_not_nil.
Qed.

(** X8.  A parallel node that has been constructed from a [branches]
    mapping with distinct names has at least one branch, and each
    configured branch can be retrieved with [get_branch_by_name] under
    the dot-path name [internal_name.branch]: it is the graph that
    [create_graph] built for that branch under that very name. *)
Theorem ParallelNode_branches_retrievable
    (create_graph : pyval -> option string -> result Graph)
    (name internal_name : string) (config : gmap string pyval)
    (internal_branch_name : option string) (items : list (string * pyval))
    (node : Node) :
  config !! "branches" = Some (PDict items) ->
  NoDup (map fst items) ->
  Nodes.ParallelNode_init create_graph name internal_name config internal_branch_name
  = Ok node ->
  items <> []
  /\ forall branch_name branch_config,
       (branch_name, branch_config) ∈ items ->
       exists g,
         create_graph branch_config (Some (internal_name +:+ "." +:+ branch_name)) = Ok g
         /\ get_branch_by_name node (internal_name +:+ "." +:+ branch_name) = Ok g.
Proof.
  intros Hbranches Hnodup Hinit.
  unfold Nodes.ParallelNode_init, Nodes.ParallelNode_get_sub_graphs in Hinit.
  unfold Nodes.BaseNode_init in Hinit. cbn -[lookup] in Hinit.
  rewrite Hbranches in Hinit.
  destruct (Nodes.sub_graphs_loop create_graph internal_name items [])
    as [branches|e] eqn:Hloop; cbn in Hinit; [|discriminate Hinit].
  destruct (sub_graphs_loop_lookup _ _ _ _ _ Hnodup Hloop) as (_ & Hall & _).
  destruct branches as [|kv branches]; [discriminate Hinit|].
  cbn in Hinit. injection Hinit as <-. split.
  - intros ->. cbn in Hloop. discriminate Hloop.
  - intros bn cfg Hin. destruct (Hall bn cfg Hin) as (g & Hg & Hlookup).
    exists g. split; [exact Hg|]. cbn [get_branch_by_name]. now rewrite Hlookup.
Qed.

(* ===================================================================== *)
(** ** Further properties: the retry loop and the parameters *)
(* ===================================================================== *)

Section RetryMore.
Context `{PyBuiltins} `{UserCode}.

(** A node whose [execute] raises uses up the budget without an attempt
    log. *)
Lemma attempt_loop_raising (n : Node) (mocking : bool) (mv : map_variable) :
  (forall ex, exists e, Nodes.execute n mocking mv ex = Raise e) ->
  forall (k : nat) (tried max_attempts : Z) (ex : Executor) (step_log : StepLog),
    Z.of_nat k = (max_attempts - tried)%Z ->
    exists ex',
      Executors.attempt_loop k tried max_attempts n mocking mv ex step_log
      = (ex', if (0 <? k)%nat then set_step_status FAIL step_log else step_log)
      /\ run_log_store ex' = run_log_store ex
      /\ run_id ex' = run_id ex.
Proof.
  intros Hraise. induction k as [|k IH]; intros tried max_attempts ex step_log Hk.
  - exists ex. repeat split.
  - cbn [Executors.attempt_loop]. destruct (Hraise ex) as [e ->].
    destruct (IH (tried + 1)%Z max_attempts
                (snd (Executors.get_user_set_parameters_remove ex))
                (if (tried + 1 =? max_attempts)%Z
                 then set_step_status FAIL step_log else step_log))
      as (ex' & Hloop & Hst & Hid); [lia|].
    exists ex'. rewrite Hloop. split; [|split; [exact Hst | exact Hid]].
    f_equal. destruct k as [|k'].
    + assert (Hmax : (tried + 1 =? max_attempts)%Z = true) by (apply Z.eqb_eq; lia).
      now rewrite Hmax.
    + assert (Hmax : (tried + 1 =? max_attempts)%Z = false) by (apply Z.eqb_neq; lia).
      now rewrite Hmax.
Qed.

(** X9.  [execute_node] on a composite node, whose [execute] raises, with
    a budget of at least one attempt and catalog syncs that succeed: no
    attempt log is appended and the step log is stored as FAIL, changed
    otherwise in its data catalogs only. *)
Theorem execute_node_composite (n : Node) (mv : map_variable) (ex : Executor)
    (max_attempts : Z) (step_log_name : string) (step_log : StepLog) :
  is_leaf n = false ->
  catalog_syncs n (run_id ex) ->
  Nodes.get_max_attempts (base n) = Ok max_attempts ->
  (1 <= max_attempts)%Z ->
  Nodes.get_step_log_name (base n) mv = Ok step_log_name ->
  Datastore.get_step_log (run_log_store ex) step_log_name (run_id ex) = Ok step_log ->
  sl_internal_name step_log = step_log_name ->
  exists ex' added,
    Executors.execute_node n mv ex = Ok ex'
    /\ Datastore.get_step_log (run_log_store ex') step_log_name (run_id ex)
       = Ok (set_data_catalogs added (set_step_status FAIL step_log)).
Proof.
  intros Hleaf Hsync Hmax Hpos Hname Hlog Hfiled.
  destruct (execute_node_unfold n mv ex max_attempts step_log_name step_log
              Hsync Hmax Hname Hlog) as (r & d & added & Hr & ->).
  destruct (attempt_loop_raising n (mock step_log) mv) with
    (k := Z.to_nat (max_attempts - 0)) (tried := 0%Z) (max_attempts := max_attempts)
    (ex := Executors.store_parameter (parameters r) ex)
    (step_log := set_data_catalogs added step_log)
    as (ex1 & Hloop & Hst & Hid).
  { intros ex0. destruct n; try discriminate Hleaf; cbn [Nodes.execute]; eauto. }
  { lia. }
  rewrite Hloop.
  assert (Hk : (0 <? Z.to_nat (max_attempts - 0))%nat = true) by (apply Nat.ltb_lt; lia).
  rewrite Hk.
  cbn [Executors.store_parameter set_environ run_log_store run_id] in Hst, Hid.
  destruct (catalog_syncs_Ok n (run_id ex)
              (set_step_status FAIL (set_data_catalogs added step_log)) "put" d ex1 Hsync)
    as (d2 & added2 & Hput); [now right | exact Hid |].
  rewrite Hput. cbn [mbind result_bind].
  rewrite Hst, Hid.
  set (final := set_data_catalogs added2 _).
  destruct (add_step_log_Ok (run_log_store ex) final (run_id ex))
    as (r1 & Hr1 & Hadd); [now exists r|].
  pose proof (get_step_log_add_step_log _ _ _ _ Hadd) as Hget.
  rewrite Hadd. cbn [mbind result_bind]. exists (set_store
    (<[run_id ex := set_run_steps (<[sl_internal_name final := final]> (steps r1)) r1]>
       (run_log_store ex)) ex1), added2.
  split; [reflexivity|].
  cbn [set_store run_log_store]. rewrite <- Hfiled. exact Hget.
Qed.

(** X11.  When the command of a task succeeds at the first attempt, and
    the catalog syncs of the task succeed, the parameters the command has
    set are stored in the run log, where they take precedence over the
    parameters that were there, and the environment namespace is left
    empty. *)
Theorem execute_node_publishes_parameters (b : NodeBase) (mv : map_variable)
    (ex : Executor) (max_attempts : Z) (step_log_name : string) (step_log : StepLog)
    (run_log : RunLog) (command : pyval) (params : gmap string pyval) :
  Nodes.get_max_attempts b = Ok max_attempts ->
  (1 <= max_attempts)%Z ->
  Nodes.get_step_log_name b mv = Ok step_log_name ->
  run_log_store ex !! run_id ex = Some run_log ->
  steps run_log !! step_log_name = Some step_log ->
  mock step_log = false ->
  config b !! "command" = Some command ->
  run_command (commands_run ex) command mv (parameters run_log ∪ environ ex) = Ok params ->
  catalog_syncs (TaskNode b) (run_id ex) ->
  exists ex' stored,
    Executors.execute_node (TaskNode b) mv ex = Ok ex'
    /\ environ ex' = ∅
    /\ Datastore.get_parameters (run_log_store ex') (run_id ex) = Ok stored
    /\ (forall k v, params !! k = Some v -> stored !! k = Some v)
    /\ (forall k v, params !! k = None -> parameters run_log !! k = Some v ->
                    stored !! k = Some v).
Proof.
  intros Hmax Hpos Hname Hr Hstep Hmock Hcommand Hrun Hsync.
  assert (Hlog : Datastore.get_step_log (run_log_store ex) step_log_name (run_id ex)
                 = Ok step_log) by (apply get_step_log_Ok; eauto).
  destruct (execute_node_unfold (TaskNode b) mv ex max_attempts step_log_name step_log
              Hsync Hmax Hname Hlog) as (r & d & added & Hr' & ->).
  assert (r = run_log) by congruence. subst r.
  destruct (Z.to_nat (max_attempts - 0)) as [|k] eqn:Hk; [lia|].
  rewrite Hmock.
  set (ex0 := Executors.store_parameter (parameters run_log) ex).
  set (ex1 := count_command (set_environ (params ∪ environ ex0) ex0)).
  assert (Hexec : Nodes.execute (TaskNode b) false mv ex0
                  = Ok (ex1, set_attempt_status SUCCESS Datastore.create_attempt_log)).
  { cbn [Nodes.execute]. unfold Nodes.TaskNode_execute. rewrite Hcommand. cbn [negb].
    subst ex0 ex1.
    cbn [Executors.store_parameter set_environ commands_run environ]. now rewrite Hrun. }
  destruct (attempt_loop_first_success (TaskNode b) false mv k 0%Z max_attempts
              ex0 ex1 (set_data_catalogs added step_log) _ Hexec eq_refl)
    as (st & Hset & Hhas & ->).
  { cbn. now exists run_log. }
  set (looped := set_step_status SUCCESS _).
  destruct (catalog_syncs_Ok (TaskNode b) (run_id ex) looped "put" d
              (set_store st (set_environ ∅ ex1)) Hsync)
    as (d2 & added2 & Hput); [now right | reflexivity |].
  rewrite Hput. cbn [mbind result_bind].
  cbn [set_store run_log_store run_id set_environ].
  unfold Datastore.set_parameters, Datastore.get_run_log_by_id in Hset.
  cbn [ex1 ex0 count_command set_environ Executors.store_parameter run_log_store run_id
       environ] in Hset.
  rewrite Hr in Hset. cbn [mbind result_bind] in Hset. injection Hset as <-.
  unfold Datastore.add_step_log, Datastore.get_run_log_by_id.
  cbn [ex1 ex0 count_command set_environ Executors.store_parameter run_id].
  rewrite lookup_insert_eq. cbn [mbind result_bind].
  eexists _, _. split; [reflexivity|]. split; [reflexivity|]. split.
  - unfold Datastore.get_parameters, Datastore.get_run_log_by_id.
    cbn [set_store run_log_store]. rewrite lookup_insert_eq. reflexivity.
  - cbn [parameters set_run_steps set_run_parameters]. split.
    + intros key v Hk'. apply lookup_union_Some_l, lookup_union_Some_l. exact Hk'.
    + intros key v Hnone Hold.
      apply lookup_union_Some_l. rewrite lookup_union_r by exact Hnone.
      apply lookup_union_Some_l. exact Hold.
Qed.
End RetryMore.

(* ===================================================================== *)
(** ** Further properties: retries, dispatch and traversal *)
(* ===================================================================== *)

Section ExecutorMore.
Context `{PyBuiltins} `{UserCode}.

(** A failed attempt hands over to the next iteration with an empty
    environment namespace. *)
Lemma attempt_loop_first_fail (n : Node) (mocking : bool) (mv : map_variable)
    (k : nat) (tried max_attempts : Z) (ex ex1 : Executor) (step_log : StepLog)
    (a : AttemptLog) :
  Nodes.execute n mocking mv ex = Ok (ex1, a) ->
  al_status a = FAIL ->
  Executors.attempt_loop (S k) tried max_attempts n mocking mv ex step_log
  = Executors.attempt_loop k (tried + 1) max_attempts n mocking mv
      (set_environ ∅ ex1)
      (if (tried + 1 =? max_attempts)%Z
       then set_step_status FAIL (append_attempt (set_attempt_numner tried a) step_log)
       else append_attempt (set_attempt_numner tried a) step_log).
Proof.
  intros Hexec Hfail. cbn [Executors.attempt_loop]. rewrite Hexec.
  destruct (decide (al_status (set_attempt_numner tried a) = FAIL)) as [_|Hn].
  - reflexivity.
  - exfalso. apply Hn. exact Hfail.
Qed.

(** X12.  The parameters of the run log are published in the environment
    namespace once, before the retry loop, and a failed attempt clears the
    namespace: the second attempt of a task runs its command with an empty
    namespace.  When that attempt succeeds, and the catalog syncs of the
    task succeed, the step log holds a FAIL and a SUCCESS attempt and is
    SUCCESS, and the parameters the command has set are stored in the run
    log. *)
Theorem execute_node_retry_namespace (b : NodeBase) (mv : map_variable)
    (ex : Executor) (max_attempts : Z) (step_log_name : string) (step_log : StepLog)
    (run_log : RunLog) (command : pyval) (e : exn) (params : gmap string pyval) :
  Nodes.get_max_attempts b = Ok max_attempts ->
  (2 <= max_attempts)%Z ->
  Nodes.get_step_log_name b mv = Ok step_log_name ->
  run_log_store ex !! run_id ex = Some run_log ->
  steps run_log !! step_log_name = Some step_log ->
  sl_internal_name step_log = step_log_name ->
  mock step_log = false ->
  config b !! "command" = Some command ->
  run_command (commands_run ex) command mv (parameters run_log ∪ environ ex) = Raise e ->
  run_command (S (commands_run ex)) command mv ∅ = Ok params ->
  catalog_syncs (TaskNode b) (run_id ex) ->
  exists ex' step_log',
    Executors.execute_node (TaskNode b) mv ex = Ok ex'
    /\ Datastore.get_step_log (run_log_store ex') step_log_name (run_id ex) = Ok step_log'
    /\ sl_status step_log' = SUCCESS
    /\ map al_status (attempts step_log')
       = (map al_status (attempts step_log) ++ [FAIL; SUCCESS])%list
    /\ Datastore.get_parameters (run_log_store ex') (run_id ex)
       = Ok ((params ∪ ∅) ∪ parameters run_log).
Proof.
  intros Hmax Hpos Hname Hr Hstep Hfiled Hmock Hcommand Hfirst Hsecond Hsync.
  assert (Hlog : Datastore.get_step_log (run_log_store ex) step_log_name (run_id ex)
                 = Ok step_log) by (apply get_step_log_Ok; eauto).
  destruct (execute_node_unfold (TaskNode b) mv ex max_attempts step_log_name step_log
              Hsync Hmax Hname Hlog) as (r & d & added & Hr' & ->).
  assert (r = run_log) by congruence. subst r.
  destruct (Z.to_nat (max_attempts - 0)) as [|[|k]] eqn:Hk; [lia|lia|].
  rewrite Hmock.
  set (ex0 := Executors.store_parameter (parameters run_log) ex).
  set (a1 := set_attempt_message (str_exn e)
               (set_attempt_status FAIL
                  (set_attempt_status SUCCESS Datastore.create_attempt_log))).
  assert (Hexec1 : Nodes.execute (TaskNode b) false mv ex0 = Ok (count_command ex0, a1)).
  { cbn [Nodes.execute]. unfold Nodes.TaskNode_execute. rewrite Hcommand. cbn [negb].
    subst ex0. cbn [Executors.store_parameter set_environ commands_run environ].
    now rewrite Hfirst. }
  rewrite (attempt_loop_first_fail (TaskNode b) false mv (S k) 0%Z max_attempts
             ex0 (count_command ex0) (set_data_catalogs added step_log) a1 Hexec1 eq_refl).
  assert (Hne : (0 + 1 =? max_attempts)%Z = false) by (apply Z.eqb_neq; lia).
  rewrite Hne.
  set (ex2 := set_environ ∅ (count_command ex0)).
  set (ex3 := count_command (set_environ (params ∪ environ ex2) ex2)).
  assert (Hexec2 : Nodes.execute (TaskNode b) false mv ex2
                   = Ok (ex3, set_attempt_status SUCCESS Datastore.create_attempt_log)).
  { cbn [Nodes.execute]. unfold Nodes.TaskNode_execute. rewrite Hcommand. cbn [negb].
    subst ex3 ex2 ex0.
    cbn [Executors.store_parameter set_environ count_command commands_run environ].
    now rewrite Hsecond. }
  destruct (attempt_loop_first_success (TaskNode b) false mv k (0 + 1)%Z max_attempts
              ex2 ex3
              (append_attempt (set_attempt_numner 0 a1) (set_data_catalogs added step_log))
              _ Hexec2 eq_refl) as (st & Hset & Hhas & ->).
  { cbn. now exists run_log. }
  set (looped := set_step_status SUCCESS _).
  destruct (catalog_syncs_Ok (TaskNode b) (run_id ex) looped "put" d
              (set_store st (set_environ ∅ ex3)) Hsync)
    as (d2 & added2 & Hput); [now right | reflexivity |].
  rewrite Hput. cbn [mbind result_bind].
  cbn [set_store run_log_store run_id set_environ].
  unfold Datastore.set_parameters, Datastore.get_run_log_by_id in Hset.
  cbn [ex3 ex2 ex0 count_command set_environ Executors.store_parameter run_log_store
       run_id environ] in Hset.
  rewrite Hr in Hset. cbn [mbind result_bind] in Hset. injection Hset as <-.
  unfold Datastore.add_step_log, Datastore.get_run_log_by_id.
  cbn [ex3 ex2 ex0 count_command set_environ Executors.store_parameter run_id].
  rewrite lookup_insert_eq. cbn [mbind result_bind].
  eexists _, _. split; [reflexivity|]. split.
  { unfold Datastore.get_step_log, Datastore.get_run_log_by_id.
    cbn [set_store run_log_store]. rewrite lookup_insert_eq. cbn [mbind result_bind].
    unfold Datastore.search_step_by_internal_name.
    cbn [steps set_run_steps].
    change (sl_internal_name (set_data_catalogs added2 looped))
      with (sl_internal_name step_log).
    rewrite Hfiled, lookup_insert_eq. reflexivity. }
  split; [reflexivity|]. split.
  { cbn [attempts set_step_status append_attempt set_data_catalogs looped].
    rewrite !map_app, <- app_assoc. reflexivity. }
  unfold Datastore.get_parameters, Datastore.get_run_log_by_id.
  cbn [set_store run_log_store]. rewrite lookup_insert_eq. reflexivity.
Qed.

(** For a leaf node with a budget of at least one attempt, whose catalog
    syncs succeed, [execute_node] leaves the step log in a final state. *)
Lemma execute_node_leaf_final (n : Node) (mv : map_variable) (ex : Executor)
    (max_attempts : Z) (step_log_name : string) (step_log : StepLog) :
  is_leaf n = true ->
  catalog_syncs n (run_id ex) ->
  Nodes.get_max_attempts (base n) = Ok max_attempts ->
  (1 <= max_attempts)%Z ->
  Nodes.get_step_log_name (base n) mv = Ok step_log_name ->
  Datastore.get_step_log (run_log_store ex) step_log_name (run_id ex) = Ok step_log ->
  sl_internal_name step_log = step_log_name ->
  exists ex' step_log',
    Executors.execute_node n mv ex = Ok ex'
    /\ run_id ex' = run_id ex
    /\ Datastore.get_step_log (run_log_store ex') step_log_name (run_id ex) = Ok step_log'
    /\ mock step_log' = mock step_log
    /\ (length (attempts step_log) < length (attempts step_log'))%nat
    /\ (sl_status step_log' = SUCCESS \/ sl_status step_log' = FAIL).
Proof.
  intros Hleaf Hsync Hmax Hpos Hname Hlog Hfiled.
  destruct (execute_node_leaf n mv ex max_attempts step_log_name step_log
              Hleaf Hsync Hmax Hpos Hname Hlog Hfiled)
    as (ex' & sl' & app & Hexec & Hid & Hget & Hm & Hne & Hret & Hfinal).
  destruct Hret as (Ha & _).
  exists ex', sl'. split; [exact Hexec|]. split; [exact Hid|]. split; [exact Hget|].
  split; [exact Hm|]. rewrite Ha, length_app. split; [|exact Hfinal].
  destruct app; [contradiction|cbn [length]; lia].
Qed.

Lemma is_leaf_not_composite (n : Node) :
  is_leaf n = true -> Executors.is_composite_type n = false.
Proof. destruct n; intros Hleaf; try discriminate Hleaf; reflexivity. Qed.

(** X13.  In a run without a previous run, [execute_from_graph] on a node
    that has an [execute] method of its own, a budget of at least one
    attempt and catalog syncs that succeed returns, with the map variable
    it was given and with the step log of the node on file in a final
    state: not mocked, with at least one attempt log, and SUCCESS or
    FAIL. *)
Theorem execute_from_graph_leaf_final
    (execute_graph : Graph -> map_variable -> Executor -> result (Executor * map_variable))
    (n : Node) (mv : map_variable) (ex : Executor) (max_attempts : Z)
    (step_log_name : string) :
  is_leaf n = true ->
  previous_run_log ex = None ->
  has_run_log (run_log_store ex) (run_id ex) ->
  Nodes.get_max_attempts (base n) = Ok max_attempts ->
  (1 <= max_attempts)%Z ->
  Nodes.get_step_log_name (base n) mv = Ok step_log_name ->
  catalog_syncs n (run_id ex) ->
  exists ex' step_log,
    Executors.execute_from_graph execute_graph n mv ex = Ok (ex', mv)
    /\ run_id ex' = run_id ex
    /\ Datastore.get_step_log (run_log_store ex') step_log_name (run_id ex) = Ok step_log
    /\ mock step_log = false
    /\ attempts step_log <> []
    /\ (sl_status step_log = SUCCESS \/ sl_status step_log = FAIL).
Proof.
  intros Hleaf Hprev Hrun Hmax Hpos Hname Hsync.
  set (sl0 := set_step_status PROCESSING
                (set_step_type (node_type n)
                   (Datastore.create_step_log (name (base n)) step_log_name))).
  destruct (add_step_log_Ok (run_log_store ex) sl0 (run_id ex) Hrun) as (r & Hr & Hadd).
  pose proof (get_step_log_add_step_log _ _ _ _ Hadd) as Hget.
  destruct (execute_node_leaf_final n mv
              (set_store (<[run_id ex :=
                              set_run_steps (<[sl_internal_name sl0 := sl0]> (steps r)) r]>
                            (run_log_store ex)) ex)
              max_attempts step_log_name sl0 Hleaf Hsync Hmax Hpos Hname Hget eq_refl)
    as (ex' & sl' & Hexec & Hid & Hget' & Hmock & Hlen & Hfinal).
  cbn [set_store run_id] in Hid, Hget'.
  assert (Hgoal : Executors.execute_from_graph execute_graph n mv ex = Ok (ex', mv)).
  { unfold Executors.execute_from_graph. rewrite Hname. cbn [mbind result_bind].
    fold sl0. destruct (Executors.is_terminal_type n).
    - rewrite Hadd. cbn [mbind result_bind]. rewrite Hexec. reflexivity.
    - rewrite (is_eligible_for_rerun_fresh n mv ex Hprev). cbn [mbind result_bind negb].
      rewrite (is_leaf_not_composite n Hleaf). rewrite Hadd. cbn [mbind result_bind].
      unfold Executors.trigger_job. rewrite Hexec. reflexivity. }
  exists ex', sl'. split; [exact Hgoal|]. split; [exact Hid|]. split; [exact Hget'|].
  split; [now rewrite Hmock|]. split; [|exact Hfinal].
  intros Hnil. rewrite Hnil in Hlen. cbn in Hlen. lia.
Qed.

(** X14.  When the step log of the current node is FAIL, the fail node of
    the graph is looked up before the [on_failure] setting of the node is
    read: in a graph without a fail node [get_status_and_next_node_name]
    raises, whatever [on_failure] says. *)
Theorem get_status_and_next_node_name_no_fail_node (current_node : Node) (g : Graph)
    (mv : map_variable) (ex : Executor) (step_log_name : string) (step_log : StepLog)
    (e : exn) :
  Nodes.get_step_log_name (base current_node) mv = Ok step_log_name ->
  Datastore.get_step_log (run_log_store ex) step_log_name (run_id ex) = Ok step_log ->
  sl_status step_log = FAIL ->
  GraphOps.get_fail_node g = Raise e ->
  Executors.get_status_and_next_node_name current_node g mv ex = Raise e.
Proof.
  intros Hname Hlog Hfail Hnone. unfold Executors.get_status_and_next_node_name.
  rewrite Hname. cbn [mbind result_bind]. rewrite Hlog. cbn [mbind result_bind].
  destruct (decide (sl_status step_log = FAIL)) as [_|Hn]; [|contradiction].
  rewrite Hnone. reflexivity.
Qed.

(** X15.  The guard of [execute_graph] against a node that leads back to
    itself: when the start node has been executed and the node to go to
    next is the start node again, the traversal raises instead of executing
    it a second time. *)
Theorem execute_graph_self_loop (fuel : nat) (g : Graph) (n : Node)
    (mv mv1 : map_variable) (ex ex1 : Executor) (s : status) :
  GraphOps.get_node_by_name g (start_at g) = Ok n ->
  Executors.is_terminal_type n = false ->
  (forall execute_graph,
     Executors.execute_from_graph execute_graph n mv ex = Ok (ex1, mv1)) ->
  Executors.get_status_and_next_node_name n g mv1 ex1 = Ok (s, start_at g) ->
  s <> TRIGGERED ->
  Executors.execute_graph (S (S fuel)) g mv ex
  = Raise (Exception "Potentially running in a infinite loop").
Proof.
  intros Hnode Hterm Hexec Hnext Hs. unfold Executors.execute_graph.
  cbn [Executors.traverse]. rewrite Hnode. cbn [mbind result_bind].
  rewrite bool_decide_eq_false_2 by discriminate.
  rewrite Hexec. cbn [mbind result_bind]. rewrite Hnext. cbn [mbind result_bind].
  destruct (decide (s = TRIGGERED)) as [Heq|_]; [contradiction|].
  rewrite Hterm, Hnode. cbn [mbind result_bind].
  rewrite bool_decide_eq_true_2 by reflexivity. reflexivity.
Qed.

(** X16.  [pipeline.execute] returns normally only with the run log of the
    run on file and not FAIL: a run whose log ends FAIL ends in an
    exception. *)
Theorem execute_returns_not_failed (fuel : nat) (mode_executor ex' : Executor)
    (re_run_id : option string) (use_cached use_cached_force : bool)
    (kwargs : gmap string pyval) :
  Pipeline.execute fuel mode_executor re_run_id use_cached use_cached_force kwargs
  = Ok ex' ->
  exists run_log,
    run_log_store ex' !! run_id ex' = Some run_log /\ rl_status run_log <> FAIL.
Proof.
  unfold Pipeline.execute.
  destruct (Pipeline.attach_previous_run _ _ _ _) as [ex0|e0]; [|discriminate].
  cbn [mbind result_bind]. unfold Pipeline.run_graph.
  destruct (Executors.execute_graph _ _ _ _) as [[ex1 mv1]|e1]; [|discriminate].
  cbn [mbind result_bind]. unfold Pipeline.send_return_code, Datastore.get_run_log_by_id.
  destruct (run_log_store ex1 !! run_id ex1) as [r|] eqn:Hr; [|discriminate].
  cbn [mbind result_bind].
  destruct (decide (rl_status r = FAIL)) as [|Hn]; [discriminate|].
  cbn [mbind result_bind]. intros [= <-]. now exists r.
Qed.

(** X17.  The run log that [set_up_run_log] stores is PROCESSING and carries
    the command line arguments as parameters; in a re-run the parameters of
    the previous run are laid over them, the run log records the previous
    run, and, the dictionary being updated in place, the command line
    arguments of the executor are the stored parameters. *)
Theorem set_up_run_log_parameters (ex : Executor) :
  exists run_log,
    run_log_store (Pipeline.set_up_run_log ex) !! run_id ex = Some run_log
    /\ rl_status run_log = PROCESSING
    /\ cmd_line_arguments (Pipeline.set_up_run_log ex) = parameters run_log
    /\ original_run_id run_log = rl_run_id <$> previous_run_log ex
    /\ (rl_use_cached run_log = true <-> is_Some (previous_run_log ex))
    /\ forall k,
         parameters run_log !! k
         = match previous_run_log ex with
           | Some previous =>
               match parameters previous !! k with
               | Some v => Some v
               | None => cmd_line_arguments ex !! k
               end
           | None => cmd_line_arguments ex !! k
           end.
Proof.
  unfold Pipeline.set_up_run_log, Datastore.put_run_log.
  cbn [set_store run_log_store rl_run_id Datastore.create_run_log set_cmd_line_arguments
       cmd_line_arguments].
  eexists. split; [apply lookup_insert_eq|].
  cbn [rl_status parameters original_run_id rl_use_cached].
  split; [reflexivity|]. split; [reflexivity|]. split; [reflexivity|]. split.
  - destruct (previous_run_log ex); split; intros Hx; try done; try discriminate;
      now destruct Hx.
  - intros k. destruct (previous_run_log ex) as [previous|]; [|reflexivity].
    destruct (parameters previous !! k) as [v|] eqn:Hk.
    + now apply lookup_union_Some_l.
    + now apply lookup_union_r.
Qed.
End ExecutorMore.

Section ForcedRerun.
Context `{PyBuiltins} `{UserCode}.

(** X18.  A re-run that is forced attaches the previous run whatever its
    DAG hash, and the run log then set up records that run and inherits
    its parameters. *)
Theorem forced_rerun_inherits_parameters (mode_executor : Executor) (re_run_id : string)
    (use_cached : bool) (previous : RunLog) :
  Datastore.get_run_log_by_id (run_log_store mode_executor) re_run_id = Ok previous ->
  exists mode_executor' run_log,
    Pipeline.attach_previous_run mode_executor (Some re_run_id) use_cached true
    = Ok mode_executor'
    /\ run_log_store (Pipeline.prepare_for_graph_execution mode_executor')
         !! run_id mode_executor = Some run_log
    /\ original_run_id run_log = Some (rl_run_id previous)
    /\ rl_use_cached run_log = true
    /\ forall k v, parameters previous !! k = Some v -> parameters run_log !! k = Some v.
Proof.
  intros Hprev. unfold Pipeline.attach_previous_run.
  rewrite orb_true_r, Hprev. cbn [mbind result_bind negb]. rewrite andb_false_r.
  eexists _, _. split; [reflexivity|].
  unfold Pipeline.prepare_for_graph_execution, Pipeline.set_up_run_log,
    Datastore.put_run_log.
  cbn [set_store run_log_store rl_run_id Datastore.create_run_log set_cmd_line_arguments
       set_previous_run_log previous_run_log run_id].
  split; [apply lookup_insert_eq|].
  cbn [original_run_id rl_use_cached parameters fmap option_fmap option_map].
  split; [reflexivity|]. split; [reflexivity|].
  intros k v Hk. now apply lookup_union_Some_l.
Qed.
End ForcedRerun.

(* ===================================================================== *)
(** ** Further properties: composite nodes *)
(* ===================================================================== *)

Section CompositeMore.
Context `{PyBuiltins} `{UserCode}.

(** The branch log that the first loop of [execute_as_graph] files, under
    the step log of its composite node. *)
Lemma add_fresh_branch_log st run_id branch_name r :
  st !! run_id = Some r ->
  is_Some (steps r !! parent_step_name branch_name) ->
  Datastore.add_branch_log st
    (IsBranchLog (set_branch_status PROCESSING (Datastore.create_branch_log branch_name)))
    run_id
  = Ok (<[run_id :=
            set_run_branches
              (<[branch_name :=
                   set_branch_status PROCESSING (Datastore.create_branch_log branch_name)]>
                 (branches r)) r]> st).
Proof.
  intros Hr [parent Hparent].
  unfold Datastore.add_branch_log, Datastore.get_run_log_by_id. rewrite Hr.
  cbn [mbind result_bind]. unfold Datastore.search_step_by_internal_name.
  cbn [bl_internal_name set_branch_status Datastore.create_branch_log].
  now rewrite Hparent.
Qed.

Lemma name_in_dec {A} (name_of : A -> result string) (items : list A)
    (branch_name : string) :
  (exists x, In x items /\ name_of x = Ok branch_name)
  \/ (forall x, In x items -> name_of x <> Ok branch_name).
Proof.
  induction items as [|y items [(x & Hx & Hn)|Hnone]].
  - right. intros x [].
  - left. exists x. split; [now right|exact Hn].
  - destruct (name_of y) as [s|e] eqn:Hy.
    + destruct (String.eqb_spec s branch_name) as [->|Hne].
      * left. exists y. split; [now left|exact Hy].
      * right. intros x [<-|Hx]; [congruence|now apply Hnone].
    + right. intros x [<-|Hx]; [congruence|now apply Hnone].
Qed.

Lemma prepare_branch_logs_spec {A} (name_of : A -> result string) (items : list A) :
  forall (st : RunLogStore) (run_id : string) (r : RunLog),
    st !! run_id = Some r ->
    Forall (fun x => is_ok (name_of x) = true) items ->
    (forall x branch_name,
       In x items -> name_of x = Ok branch_name ->
       is_Some (steps r !! parent_step_name branch_name)) ->
    exists r',
      Nodes.prepare_branch_logs name_of items st run_id = Ok (<[run_id := r']> st)
      /\ steps r' = steps r
      /\ parameters r' = parameters r
      /\ rl_status r' = rl_status r
      /\ (forall branch_name,
            (forall x, In x items -> name_of x <> Ok branch_name) ->
            branches r' !! branch_name = branches r !! branch_name)
      /\ (forall x branch_name,
            In x items -> name_of x = Ok branch_name ->
            branches r' !! branch_name
            = Some (set_branch_status PROCESSING (Datastore.create_branch_log branch_name))).
Proof.
  induction items as [|x items IH]; intros st run_id r Hr Hall Hparents.
  - exists r. cbn [Nodes.prepare_branch_logs]. rewrite insert_id by exact Hr.
    repeat split; auto. intros x branch_name [].
  - apply Forall_cons in Hall as [Hx Hall]. cbn [Nodes.prepare_branch_logs].
    destruct (name_of x) as [nm|e] eqn:Hnm; [|discriminate Hx].
    cbn [mbind result_bind].
    rewrite (add_fresh_branch_log st run_id nm r Hr)
      by (apply (Hparents x); [now left|exact Hnm]).
    cbn [mbind result_bind].
    set (fresh := set_branch_status PROCESSING (Datastore.create_branch_log nm)).
    set (r1 := set_run_branches (<[nm := fresh]> (branches r)) r).
    destruct (IH (<[run_id := r1]> st) run_id r1) as (r' & -> & Hs & Hp & Hst & Hother & Hin).
    { apply lookup_insert_eq. }
    { exact Hall. }
    { intros y branch_name Hy Hname. apply (Hparents y); [now right|exact Hname]. }
    exists r'. rewrite insert_insert_eq.
    split; [reflexivity|]. split; [now rewrite Hs|]. split; [now rewrite Hp|].
    split; [now rewrite Hst|]. split.
    + intros branch_name Hnot. rewrite Hother.
      * subst r1. cbn [branches set_run_branches]. apply lookup_insert_ne.
        intros ->. apply (Hnot x); [now left|exact Hnm].
      * intros y Hy. apply Hnot. now right.
    + intros y branch_name [<-|Hy] Hname.
      * assert (branch_name = nm) by congruence. subst branch_name.
        destruct (name_in_dec name_of items nm) as [(z & Hz & Hzn)|Hnone].
        -- now apply (Hin z).
        -- rewrite Hother by exact Hnone. subst r1. cbn [branches set_run_branches].
           apply lookup_insert_eq.
      * now apply (Hin y).
Qed.

(** X19.  The first loop of [execute_as_graph]: given the run log, branch
    names that resolve, and the step log of the composite node of every
    branch on file, it files one branch log per child branch, and before
    any branch is run every one of them is on file as PROCESSING; step
    logs, parameters and run status are left alone. *)
Theorem prepare_branch_logs_processing {A} (name_of : A -> result string)
    (items : list A) (st : RunLogStore) (run_id : string) (run_log : RunLog) :
  st !! run_id = Some run_log ->
  Forall (fun x => is_ok (name_of x) = true) items ->
  (forall x branch_name,
     In x items -> name_of x = Ok branch_name ->
     is_Some (steps run_log !! parent_step_name branch_name)) ->
  exists st' run_log',
    Nodes.prepare_branch_logs name_of items st run_id = Ok st'
    /\ st' !! run_id = Some run_log'
    /\ steps run_log' = steps run_log
    /\ parameters run_log' = parameters run_log
    /\ rl_status run_log' = rl_status run_log
    /\ forall x branch_name,
         In x items -> name_of x = Ok branch_name -> branch_name <> EmptyString ->
         exists l,
           Datastore.get_branch_log st' (Some branch_name) run_id = Ok l
           /\ log_status l = PROCESSING.
Proof.
  intros Hr Hall Hparents.
  destruct (prepare_branch_logs_spec name_of items st run_id run_log Hr Hall Hparents)
    as (r' & Hprep & Hs & Hp & Hst & _ & Hin).
  exists (<[run_id := r']> st), r'. split; [exact Hprep|].
  split; [apply lookup_insert_eq|]. split; [exact Hs|]. split; [exact Hp|].
  split; [exact Hst|].
  intros x branch_name Hx Hname Hne.
  exists (IsBranchLog (set_branch_status PROCESSING (Datastore.create_branch_log branch_name))).
  split; [|reflexivity].
  unfold Datastore.get_branch_log, Datastore.get_run_log_by_id.
  rewrite lookup_insert_eq. cbn [mbind result_bind].
  destruct branch_name as [|c rest]; [contradiction|].
  unfold Datastore.search_step_by_internal_name. rewrite Hs.
  destruct (Hparents x _ Hx Hname) as [parent ->]. cbn [mbind result_bind].
  now rewrite (Hin x _ Hx Hname).
Qed.

(** X20.  A map node over an empty list: no branch is run, no branch log is
    filed, and the step log of the node becomes SUCCESS. *)
Theorem MapNode_empty_iterable
    (execute_graph : Graph -> map_variable -> Executor -> result (Executor * map_variable))
    (b : NodeBase) (key : string) (iterate_as : pyval) (branch : Graph)
    (mv : map_variable) (ex : Executor) (run_log : RunLog)
    (step_log_name : string) (step_log : StepLog) :
  run_log_store ex !! run_id ex = Some run_log ->
  parameters run_log !! key = Some (PList []) ->
  Nodes.resolve_map_placeholders (internal_name b) mv = Ok step_log_name ->
  steps run_log !! step_log_name = Some step_log ->
  sl_internal_name step_log = step_log_name ->
  exists ex' run_log',
    Nodes.execute_as_graph execute_graph (MapNode b (PStr key) iterate_as branch) mv ex
    = Ok (ex', mv)
    /\ run_log_store ex' !! run_id ex = Some run_log'
    /\ steps run_log' !! step_log_name = Some (set_step_status SUCCESS step_log)
    /\ branches run_log' = branches run_log.
Proof.
  intros Hr Hparam Hname Hstep Hfiled.
  cbn [Nodes.execute_as_graph]. unfold Nodes.MapNode_execute_as_graph.
  unfold Datastore.get_run_log_by_id. rewrite Hr. cbn [mbind result_bind].
  rewrite Hparam. cbn [mbind result_bind Nodes.prepare_branch_logs Nodes.run_iterations].
  cbn [set_store run_log_store run_id].
  unfold Nodes.MapNode_reconcile.
  cbn [Nodes.find_status_of_branches mbind result_bind]. rewrite Hname.
  cbn [mbind result_bind]. unfold Nodes.collate_results.
  assert (Hlog : Datastore.get_step_log (run_log_store ex) step_log_name (run_id ex)
                 = Ok step_log) by (apply get_step_log_Ok; eauto).
  rewrite Hlog. cbn [mbind result_bind negb].
  unfold Datastore.add_step_log, Datastore.get_run_log_by_id. rewrite Hr.
  cbn [mbind result_bind]. eexists _, _. split; [reflexivity|].
  cbn [set_store run_log_store]. split; [apply lookup_insert_eq|].
  cbn [steps branches set_run_steps sl_internal_name set_step_status].
  rewrite Hfiled. split; [apply lookup_insert_eq|reflexivity].
Qed.

(** X21.  The second loop of [MapNode.execute_as_graph] with an absent or
    empty map variable: every iteration gets a dictionary of its own, so
    the map variable of the caller is returned as it was. *)
Theorem run_iterations_falsy_map_variable
    (execute_graph : Graph -> map_variable -> Executor -> result (Executor * map_variable))
    (iterate_as : pyval) (branch : Graph) (iterate_on : list pyval)
    (mv mv' : map_variable) (ex ex' : Executor) :
  map_variable_falsy mv = true ->
  Nodes.run_iterations execute_graph iterate_as branch iterate_on mv ex = Ok (ex', mv') ->
  mv' = mv.
Proof.
  intros Hfalsy. revert ex. induction iterate_on as [|x rest IH]; intros ex.
  - cbn [Nodes.run_iterations]. now intros [= _ <-].
  - cbn [Nodes.run_iterations]. rewrite Hfalsy. cbn [negb].
    destruct (hashable iterate_as); cbn [negb]; [|discriminate].
    destruct (execute_graph branch _ ex) as [[ex1 mv1]|e]; [|discriminate].
    cbn [mbind result_bind]. apply IH.
Qed.
End CompositeMore.

(* ===================================================================== *)
(** ** The catalog, the container mode and the demo renderer *)
(* ===================================================================== *)

Section CatalogProperties.
Variable DataCatalog : Type.
Variable service_name : string.
Variable handler_compute_data_folder : pyval.
Variable handler : string -> pyval -> string -> pyval -> option (list DataCatalog)
                   -> result (list DataCatalog).

(** The loop keeps what the handler returned for the last pattern. *)
Lemma sync_patterns_last (stage run_id : string) (folder : pyval)
    (synced : option (list DataCatalog)) (patterns : list pyval) (last_pattern : pyval)
    (found : list DataCatalog) :
  Forall (fun q => is_ok (handler stage q run_id folder synced) = true) patterns ->
  handler stage last_pattern run_id folder synced = Ok found ->
  forall data_catalogs,
    Catalog.sync_patterns DataCatalog handler stage run_id folder synced
      (patterns ++ [last_pattern]) data_catalogs
    = Ok found.
Proof.
  intros Hall Hlast. induction Hall as [|q patterns Hq _ IH]; intros data_catalogs.
  - cbn [app Catalog.sync_patterns]. now rewrite Hlast.
  - cbn [app Catalog.sync_patterns].
    destruct (handler stage q run_id folder synced) as [c|e]; [|discriminate Hq].
    cbn [mbind result_bind]. apply IH.
Qed.

(** X22.  [sync_catalog] with several name patterns: the data catalogs of
    every pattern but the last are dropped.  When the handler serves all
    the patterns, the call returns what the handler gave for the last
    pattern, and only that is added to the step log.  The compute data
    folder is the one of the node when it has one, else the one of the
    handler. *)
Theorem sync_catalog_last_pattern (node : Node) (step_data_catalogs : list DataCatalog)
    (stage : string) (synced : option (list DataCatalog)) (ex : Executor)
    (settings : list (string * pyval)) (patterns : list pyval) (last_pattern : pyval)
    (found : list DataCatalog) (folder : pyval) :
  folder = match dict_lookup "compute_data_folder" settings with
           | Some v => if truthy v then v else handler_compute_data_folder
           | None => handler_compute_data_folder
           end ->
  stage = "get" \/ stage = "put" ->
  config (base node) !! "catalog" = Some (PDict settings) ->
  dict_lookup stage settings = Some (PList (patterns ++ [last_pattern])) ->
  Forall (fun q => is_ok (handler stage q (run_id ex) folder synced) = true) patterns ->
  handler stage last_pattern (run_id ex) folder synced = Ok found ->
  Catalog.sync_catalog DataCatalog service_name handler_compute_data_folder handler
    node step_data_catalogs stage synced ex
  = Ok (Some found,
        match found with
        | [] => step_data_catalogs
        | _ => (step_data_catalogs ++ found)%list
        end).
Proof.
  intros -> Hstage Hsettings Hlist Hall Hlast.
  unfold Catalog.sync_catalog, get_catalog_settings. rewrite Hsettings.
  assert (Hvalid : negb (String.eqb stage "get" || String.eqb stage "put") = false).
  { destruct Hstage as [-> | ->]; reflexivity. }
  rewrite Hvalid.
  assert (Hne : truthy (PDict settings) = true).
  { destruct settings; [discriminate Hlist|reflexivity]. }
  rewrite Hne. cbn [py_contains mbind result_bind]. rewrite Hlist.
  rewrite bool_decide_eq_true_2 by (now eexists). cbn [negb].
  assert (Hpat : truthy (PList (patterns ++ [last_pattern])) = true).
  { destruct patterns; reflexivity. }
  destruct (dict_lookup "compute_data_folder" settings) as [v|] eqn:Hfolder.
  - rewrite bool_decide_eq_true_2 by (now eexists).
    cbn [py_getitem mbind result_bind andb]. rewrite Hfolder.
    cbn [py_get mbind result_bind]. rewrite Hlist. cbn [default].
    unfold py_or, id. rewrite Hpat. cbn [py_iter mbind result_bind].
    rewrite (sync_patterns_last stage (run_id ex) _ synced patterns last_pattern
               found Hall Hlast). reflexivity.
  - rewrite bool_decide_eq_false_2 by (intros [? ?]; discriminate).
    cbn [py_get mbind result_bind andb]. rewrite Hlist. cbn [default].
    unfold py_or, id. rewrite Hpat. cbn [py_iter mbind result_bind].
    rewrite (sync_patterns_last stage (run_id ex) _ synced patterns last_pattern
               found Hall Hlast). reflexivity.
Qed.

(** X23.  [sync_catalog] for a node without catalog settings, or whose
    settings do not mention the stage: nothing is asked of the handler,
    the step log is left alone and [None] is returned. *)
Theorem sync_catalog_nothing_to_sync (node : Node) (step_data_catalogs : list DataCatalog)
    (stage : string) (synced : option (list DataCatalog)) (ex : Executor) :
  stage = "get" \/ stage = "put" ->
  config (base node) !! "catalog" = None
  \/ (exists settings,
        config (base node) !! "catalog" = Some (PDict settings)
        /\ dict_lookup stage settings = None) ->
  Catalog.sync_catalog DataCatalog service_name handler_compute_data_folder handler
    node step_data_catalogs stage synced ex
  = Ok (None, step_data_catalogs).
Proof.
  intros Hstage Hsettings. unfold Catalog.sync_catalog, get_catalog_settings.
  assert (Hvalid : negb (String.eqb stage "get" || String.eqb stage "put") = false).
  { destruct Hstage as [-> | ->]; reflexivity. }
  rewrite Hvalid. destruct Hsettings as [-> | (settings & -> & Hnone)].
  - reflexivity.
  - destruct (truthy (PDict settings)); [|reflexivity].
    cbn [py_contains mbind result_bind]. rewrite Hnone.
    rewrite bool_decide_eq_false_2 by (intros [? ?]; discriminate). reflexivity.
Qed.
End CatalogProperties.

Section ContainerProperties.
Context `{PyBuiltins} `{UserCode}.
Variable spin_container : Node -> map_variable -> Executor -> result Executor.

(** X24.  In the container mode the step log of a node is final once
    [trigger_job] has returned: whatever status other than SUCCESS the
    container has left is stored as FAIL. *)
Theorem container_trigger_job_final (node : Node) (mv : map_variable)
    (ex ex1 : Executor) (step_log_name : string) (step_log : StepLog) :
  spin_container node mv ex = Ok ex1 ->
  Nodes.get_step_log_name (base node) mv = Ok step_log_name ->
  Datastore.get_step_log (run_log_store ex1) step_log_name (run_id ex1) = Ok step_log ->
  sl_internal_name step_log = step_log_name ->
  exists ex',
    LocalContainerExecutor.trigger_job spin_container node mv ex = Ok ex'
    /\ Datastore.get_step_log (run_log_store ex') step_log_name (run_id ex1)
       = Ok (if decide (sl_status step_log = SUCCESS) then step_log
             else set_step_status FAIL step_log).
Proof.
  intros Hspin Hname Hlog Hfiled. unfold LocalContainerExecutor.trigger_job.
  rewrite Hspin. cbn [mbind result_bind]. rewrite Hname. cbn [mbind result_bind].
  rewrite Hlog. cbn [mbind result_bind].
  destruct (decide (sl_status step_log = SUCCESS)) as [Hs|Hs].
  - exists ex1. split; [reflexivity|exact Hlog].
  - destruct (add_step_log_Ok (run_log_store ex1) (set_step_status FAIL step_log)
                (run_id ex1)) as (r & Hr & Hadd).
    { exact (get_step_log_has_run_log _ _ _ _ Hlog). }
    pose proof (get_step_log_add_step_log _ _ _ _ Hadd) as Hget.
    rewrite Hadd. cbn [mbind result_bind]. eexists. split; [reflexivity|].
    cbn [set_store run_log_store]. rewrite <- Hfiled. exact Hget.
Qed.
End ContainerProperties.

Section RendererProperties.
Context `{PyBuiltins} `{UserCode}.
Variable get_node_execution_command : Node -> string.

Lemma set_up_run_log_run_id (ex : Executor) :
  run_id (Pipeline.set_up_run_log ex) = run_id ex.
Proof. reflexivity. Qed.

Lemma set_up_run_log_files (ex : Executor) :
  exists run_log, run_log_store (Pipeline.set_up_run_log ex) !! run_id ex = Some run_log.
Proof.
  unfold Pipeline.set_up_run_log, Datastore.put_run_log.
  cbn [set_store run_log_store rl_run_id Datastore.create_run_log].
  eexists. apply lookup_insert_eq.
Qed.

(** [prepare_for_node_execution] returns, with the step log of the node
    filed as PROCESSING in the run log of the run. *)
Lemma renderer_prepare_spec (node : Node) (mv : map_variable) (ex : Executor)
    (step_log_name : string) :
  Nodes.get_step_log_name (base node) mv = Ok step_log_name ->
  exists ex' run_log run_log',
    DemoRenderer.prepare_for_node_execution node mv ex = Ok ex'
    /\ run_id ex' = run_id ex
    /\ run_log
       = match run_log_store ex !! run_id ex with
         | Some r => r
         | None =>
             default (Datastore.create_run_log (run_id ex))
                     (run_log_store (Pipeline.set_up_run_log ex) !! run_id ex)
         end
    /\ run_log_store ex' !! run_id ex = Some run_log'
    /\ run_log'
       = set_run_steps
           (<[step_log_name :=
                set_step_status PROCESSING
                  (set_step_type (node_type node)
                     (Datastore.create_step_log (name (base node)) step_log_name))]>
              (steps run_log)) run_log.
Proof.
  intros Hname. unfold DemoRenderer.prepare_for_node_execution.
  unfold Datastore.get_run_log_by_id at 1.
  destruct (run_log_store ex !! run_id ex) as [r|] eqn:Hr.
  - cbn [mbind result_bind]. rewrite Hname. cbn [mbind result_bind].
    unfold Datastore.add_step_log, Datastore.get_run_log_by_id. rewrite Hr.
    cbn [mbind result_bind]. eexists _, r, _. split; [reflexivity|].
    split; [reflexivity|]. split; [reflexivity|].
    cbn [set_store run_log_store]. split; [apply lookup_insert_eq|reflexivity].
  - cbn [mbind result_bind]. rewrite Hname. cbn [mbind result_bind].
    unfold Datastore.add_step_log, Datastore.get_run_log_by_id.
    rewrite set_up_run_log_run_id.
    destruct (set_up_run_log_files ex) as (r & Hr').
    rewrite Hr'. cbn [mbind result_bind default].
    eexists _, r, _. split; [reflexivity|]. split; [reflexivity|].
    split; [reflexivity|].
    cbn [set_store run_log_store]. split; [apply lookup_insert_eq|reflexivity].
Qed.
(** X25.  [DemoRenderer.prepare_for_node_execution] keeps a run log that
    is already there, parameters, status, branch logs and the other step
    logs included, and files a fresh PROCESSING step log for the node, in
    the place of any step log of that name. *)
Theorem renderer_prepare_keeps_run_log (node : Node) (mv : map_variable)
    (ex : Executor) (step_log_name : string) (run_log : RunLog) :
  Nodes.get_step_log_name (base node) mv = Ok step_log_name ->
  run_log_store ex !! run_id ex = Some run_log ->
  exists ex' run_log',
    DemoRenderer.prepare_for_node_execution node mv ex = Ok ex'
    /\ run_log_store ex' !! run_id ex = Some run_log'
    /\ parameters run_log' = parameters run_log
    /\ rl_status run_log' = rl_status run_log
    /\ branches run_log' = branches run_log
    /\ steps run_log' !! step_log_name
       = Some (set_step_status PROCESSING
                 (set_step_type (node_type node)
                    (Datastore.create_step_log (name (base node)) step_log_name)))
    /\ forall other, other <> step_log_name ->
         steps run_log' !! other = steps run_log !! other.
Proof.
  intros Hname Hr.
  destruct (renderer_prepare_spec node mv ex step_log_name Hname)
    as (ex' & r & r' & Hprep & _ & Hold & Hr' & Heq).
  rewrite Hr in Hold. subst r. exists ex', r'. split; [exact Hprep|].
  split; [exact Hr'|]. subst r'. cbn [parameters rl_status branches steps set_run_steps].
  split; [reflexivity|]. split; [reflexivity|]. split; [reflexivity|].
  split; [apply lookup_insert_eq|].
  intros other Hne. now apply lookup_insert_ne.
Qed.

(** The [sync_catalog] of the demo renderer returns where the one of the
    base class does. *)
Lemma renderer_sync_catalog_Ok (node : Node) (current_run : string) :
  catalog_syncs node current_run ->
  forall step_log stage synced_catalogs ex,
    stage = "get" \/ stage = "put" ->
    run_id ex = current_run ->
    exists d added,
      DemoRenderer.sync_catalog node step_log stage synced_catalogs ex
      = Ok (d, set_data_catalogs added step_log).
Proof.
  intros Hsync step_log stage synced_catalogs ex Hstage Hid.
  destruct (catalog_syncs_Ok node current_run step_log stage None ex Hsync Hstage Hid)
    as (d & added & Hcall).
  exists None, added. unfold DemoRenderer.sync_catalog.
  rewrite (BaseExecutor_sync_catalog_service_name "demo-renderer" node step_log stage
             None ex Hstage).
  now rewrite Hcall.
Qed.

(** X26.  [DemoRenderer.trigger_job] on a node that has an [execute] method
    of its own, with a budget of at least one attempt and catalog syncs
    that succeed: whether or not the run log is there already, it either
    returns with the step log of the node SUCCESS, or raises
    [Step <name> failed]. *)
Theorem renderer_trigger_job_outcome (node : Node) (mv : map_variable)
    (ex : Executor) (max_attempts : Z) (step_log_name : string) :
  is_leaf node = true ->
  Nodes.get_max_attempts (base node) = Ok max_attempts ->
  (1 <= max_attempts)%Z ->
  Nodes.get_step_log_name (base node) mv = Ok step_log_name ->
  catalog_syncs node (run_id ex) ->
  (exists ex' step_log,
     DemoRenderer.trigger_job node mv ex = Ok ex'
     /\ Datastore.get_step_log (run_log_store ex') step_log_name (run_id ex) = Ok step_log
     /\ sl_status step_log = SUCCESS)
  \/ DemoRenderer.trigger_job node mv ex
     = Raise (Exception ("Step " +:+ name (base node) +:+ " failed")).
Proof.
  intros Hleaf Hmax Hpos Hname Hsync.
  destruct (renderer_prepare_spec node mv ex step_log_name Hname)
    as (ex1 & r & r' & Hprep & Hid & _ & Hr' & Heq).
  set (sl0 := set_step_status PROCESSING
                (set_step_type (node_type node)
                   (Datastore.create_step_log (name (base node)) step_log_name))) in Heq.
  assert (Hlog : Datastore.get_step_log (run_log_store ex1) step_log_name (run_id ex1)
                 = Ok sl0).
  { apply get_step_log_Ok. exists r'. rewrite Hid. split; [exact Hr'|].
    subst r'. cbn [steps set_run_steps]. apply lookup_insert_eq. }
  destruct (BaseExecutor_execute_node_leaf DemoRenderer.sync_catalog node (run_id ex)
              (renderer_sync_catalog_Ok node (run_id ex) Hsync)
              mv ex1 max_attempts step_log_name sl0
              Hid Hleaf Hmax Hpos Hname Hlog eq_refl)
    as (ex2 & sl2 & app & Hexec & Hid2 & Hget2 & _ & _ & _ & Hfinal).
  unfold DemoRenderer.trigger_job. rewrite Hprep. cbn [mbind result_bind].
  unfold DemoRenderer.execute_node. rewrite Hexec. cbn [mbind result_bind].
  rewrite Hname. cbn [mbind result_bind]. rewrite Hid2, Hget2. cbn [mbind result_bind].
  destruct (decide (sl_status sl2 = FAIL)) as [Hf|Hf].
  - now right.
  - left. exists ex2, sl2. split; [reflexivity|]. rewrite <- Hid. split; [exact Hget2|].
    destruct Hfinal as [Hs|Hs]; [exact Hs|contradiction].
Qed.

Lemma get_node_by_name_In (g : Graph) (nm : pyval) (n : Node) :
  GraphOps.get_node_by_name g nm = Ok n -> In n (nodes g).
Proof.
  unfold GraphOps.get_node_by_name. destruct nm; try discriminate.
  destruct (list_find _ (nodes g)) as [[i m]|] eqn:Hfind; [|discriminate].
  intros [= <-]. apply list_find_Some in Hfind as (Hi & _ & _).
  apply list_elem_of_In. eapply list_elem_of_lookup_2. exact Hi.
Qed.

Lemma render_spec (fuel : nat) (g : Graph) :
  forall (current_node : pyval) (previous_node : option string)
         (lines script : list string),
    DemoRenderer.render get_node_execution_command fuel g current_node previous_node lines
    = Ok script ->
    exists fail_node visited last,
      GraphOps.get_fail_node g = Ok fail_node
      /\ follows_next g current_node (visited ++ [last])
      /\ Forall (fun n => In n (nodes g)
                          /\ Executors.is_terminal_type n = false
                          /\ Executors.is_composite_type n = false) visited
      /\ In last (nodes g)
      /\ Executors.is_terminal_type last = true
      /\ script
         = (lines
            ++ concat (map (fun n => DemoRenderer.step_lines
                                       (get_node_execution_command n)
                                       (get_node_execution_command fail_node)) visited)
            ++ (if String.eqb (node_type last) "success"
                then [get_node_execution_command last] else []))%list.
Proof.
  induction fuel as [|fuel IH]; intros current_node previous_node lines script.
  - discriminate.
  - cbn [DemoRenderer.render].
    destruct (GraphOps.get_node_by_name g current_node) as [n|e] eqn:Hnode;
      [|discriminate].
    cbn [mbind result_bind].
    destruct (Executors.is_composite_type n) eqn:Hcomp; [discriminate|].
    destruct (bool_decide (previous_node = Some (name (base n)))); [discriminate|].
    destruct (GraphOps.get_fail_node g) as [f|e] eqn:Hfail; [|discriminate].
    cbn [mbind result_bind].
    pose proof (get_node_by_name_In g current_node n Hnode) as Hin.
    destruct (Executors.is_terminal_type n) eqn:Hterm; cbn [negb].
    + intros [= <-]. exists f, [], n. split; [reflexivity|].
      split; [cbn [app follows_next]; split; [exact Hnode|exact I]|].
      split; [constructor|].
      split; [exact Hin|]. split; [exact Hterm|]. cbn [map concat app].
      destruct (String.eqb (node_type n) "success"); [reflexivity|].
      now rewrite app_nil_r.
    + assert (Hns : String.eqb (node_type n) "success" = false).
      { unfold Executors.is_terminal_type in Hterm.
        now apply orb_false_iff in Hterm as [Hs _]. }
      rewrite Hns. intros Hrest.
      destruct (IH _ _ _ _ Hrest)
        as (f' & visited & last & Hf' & Hway & Hall & Hlast & Hlt & ->).
      assert (f' = f) by congruence. subst f'.
      exists f, (n :: visited), last. split; [reflexivity|].
      split; [cbn [app follows_next]; split; [exact Hnode|exact Hway]|].
      split; [constructor; [repeat split; assumption|exact Hall]|].
      split; [exact Hlast|]. split; [exact Hlt|].
      cbn [map concat]. now rewrite <- !app_assoc.
Qed.

(** The way from a node along [next], through nodes that are not terminal
    to a terminal node, is the only one. *)
Lemma follows_next_unique (g : Graph) :
  forall (visited visited' : list Node) (current_node : pyval) (last last' : Node),
    follows_next g current_node (visited ++ [last]) ->
    follows_next g current_node (visited' ++ [last']) ->
    Forall (fun n => Executors.is_terminal_type n = false) visited ->
    Forall (fun n => Executors.is_terminal_type n = false) visited' ->
    Executors.is_terminal_type last = true ->
    Executors.is_terminal_type last' = true ->
    visited = visited' /\ last = last'.
Proof.
  induction visited as [|n visited IH];
    intros [|n' visited'] current_node last last' Hway Hway' Hall Hall' Hterm Hterm'.
  - destruct Hway as [Hn _], Hway' as [Hn' _]. split; [reflexivity|congruence].
  - exfalso. destruct Hway as [Hn _], Hway' as [Hn' _].
    apply Forall_cons in Hall' as [Hnt _]. congruence.
  - exfalso. destruct Hway as [Hn _], Hway' as [Hn' _].
    apply Forall_cons in Hall as [Hnt _]. congruence.
  - destruct Hway as [Hn Hrest], Hway' as [Hn' Hrest'].
    assert (n' = n) by congruence. subst n'.
    apply Forall_cons in Hall as [_ Hall]. apply Forall_cons in Hall' as [_ Hall'].
    destruct (IH visited' _ last last' Hrest Hrest' Hall Hall' Hterm Hterm') as [-> ->].
    split; reflexivity.
Qed.

(** X27.  The script that [DemoRenderer.execute_graph] renders.  The nodes
    on the way that starts at the start node and goes from each node to
    its [next], up to the first terminal node, are determined by the
    graph; none of them is composite.  The script has, for each node on
    the way before the terminal node, the three lines that run it, keep
    the exit code and call the fail node of the graph; and, at the end,
    the command of the success node when the way ends there, and nothing
    when it ends at the fail node. *)
Theorem renderer_execute_graph_script (fuel : nat) (g : Graph) (script : list string) :
  DemoRenderer.execute_graph get_node_execution_command fuel g = Ok script ->
  exists fail_node visited last,
    GraphOps.get_fail_node g = Ok fail_node
    /\ follows_next g (start_at g) (visited ++ [last])
    /\ Forall (fun n => In n (nodes g)
                        /\ Executors.is_terminal_type n = false
                        /\ Executors.is_composite_type n = false) visited
    /\ In last (nodes g)
    /\ Executors.is_terminal_type last = true
    /\ (forall visited' last',
          follows_next g (start_at g) (visited' ++ [last']) ->
          Forall (fun n => Executors.is_terminal_type n = false) visited' ->
          Executors.is_terminal_type last' = true ->
          visited' = visited /\ last' = last)
    /\ script
       = (concat (map (fun n => DemoRenderer.step_lines
                                  (get_node_execution_command n)
                                  (get_node_execution_command fail_node)) visited)
          ++ (if String.eqb (node_type last) "success"
              then [get_node_execution_command last] else []))%list.
Proof.
  unfold DemoRenderer.execute_graph. intros Hrender.
  destruct (render_spec fuel g _ _ _ _ Hrender)
    as (f & visited & last & Hf & Hway & Hall & Hlast & Hlt & ->).
  exists f, visited, last. split; [exact Hf|]. split; [exact Hway|].
  split; [exact Hall|]. split; [exact Hlast|]. split; [exact Hlt|].
  split; [|reflexivity].
  intros visited' last' Hway' Hall' Hlt'.
  apply (follows_next_unique g visited' visited (start_at g) last' last);
    try assumption.
  eapply Forall_impl; [exact Hall|]. intros n (_ & Hnt & _). exact Hnt.
Qed.

End RendererProperties.

Section EdgesFollowed.
Context `{PyBuiltins} `{UserCode}.

(** X28.  The node that the traversal goes to next is a neighbour of the
    current node, as graph validation sees them ([next] and [on_failure]),
    or the fail node of the graph, or no node at all. *)
Theorem get_status_and_next_node_name_follows_edges (current_node : Node) (g : Graph)
    (mv : map_variable) (ex : Executor) (s : status) (next_node_name : pyval) :
  Executors.get_status_and_next_node_name current_node g mv ex
  = Ok (s, next_node_name) ->
  In next_node_name (Nodes.get_neighbours (base current_node))
  \/ (s = FAIL /\ exists fail_node,
        GraphOps.get_fail_node g = Ok fail_node
        /\ next_node_name = PStr (name (base fail_node)))
  \/ truthy next_node_name = false.
Proof.
  unfold Executors.get_status_and_next_node_name.
  destruct (Nodes.get_step_log_name _ mv) as [nm|e]; [|discriminate].
  cbn [mbind result_bind].
  destruct (Datastore.get_step_log _ nm _) as [sl|e]; [|discriminate].
  cbn [mbind result_bind]. unfold Nodes.get_neighbours.
  destruct (decide (sl_status sl = FAIL)) as [Hf|Hf].
  - destruct (GraphOps.get_fail_node g) as [f|e] eqn:Hfail; [|discriminate].
    cbn [mbind result_bind].
    destruct (truthy (Nodes.get_on_failure_node (base current_node))) eqn:Hon.
    + intros [= <- <-]. left. apply in_or_app. right. now left.
    + intros [= <- <-]. right. left. split; [exact Hf|]. now exists f.
  - intros [= <- <-].
    destruct (truthy (Nodes.get_next_node (base current_node))) eqn:Hnext.
    + left. destruct (truthy (Nodes.get_on_failure_node (base current_node))).
      * apply in_or_app. left. now left.
      * now left.
    + right. now right.
Qed.

(** X29.  [get_max_attempts] never gives a budget of zero, and gives one
    attempt when [retry] is not set. *)
Theorem get_max_attempts_never_zero (b : NodeBase) (max_attempts : Z) :
  Nodes.get_max_attempts b = Ok max_attempts ->
  max_attempts <> 0%Z /\ (config b !! "retry" = None -> max_attempts = 1%Z).
Proof.
  unfold Nodes.get_max_attempts. destruct (config b !! "retry") as [v|].
  - destruct (py_int v) as [i|e]; [|discriminate]. cbn [mbind result_bind].
    destruct (Z.eqb_spec i 0) as [->|Hne]; intros [= <-]; split; try lia; discriminate.
  - intros [= <-]. split; [lia|reflexivity].
Qed.
End EdgesFollowed.

(* ===================================================================== *)
(** ** The further properties at concrete inputs *)
(* ===================================================================== *)

Lemma resolve_map_placeholders_count_witness :
  Forall (fun kv : pyval * string => occurs "%" (snd kv) = false) [(PStr "x", "a")]
  /\ exists r,
       Nodes.resolve_map_placeholders "m.%.n.%" (Some (string_items [(PStr "x", "a")]))
       = Ok r
       /\ count_char "%" r = 1%nat.
Proof.
  assert (Hall : Forall (fun kv : pyval * string => occurs "%" (snd kv) = false)
                   [(PStr "x", "a")]) by (repeat constructor).
  split; [exact Hall|].
  exact (resolve_map_placeholders_count "m.%.n.%" [(PStr "x", "a")] Hall).
Defined.

Lemma terminal_node_ignores_errors_witness :
  Executors.is_terminal_type (SuccessNode (terminal_base "success")) = true
  /\ exists attempt_log,
       Nodes.execute (SuccessNode (terminal_base "success")) false None
         (executor_with "r9" None store_t1 graph_t1)
       = Ok (executor_with "r9" None store_t1 graph_t1, attempt_log)
       /\ al_status attempt_log = SUCCESS.
Proof.
  split; [reflexivity|].
  apply (terminal_node_ignores_errors (SuccessNode (terminal_base "success")) false None
           (executor_with "r9" None store_t1 graph_t1)).
  - reflexivity.
  - intros branch_name _. exists RunLogNotFoundError. vm_compute. reflexivity.
Defined.

Lemma ParallelNode_branches_retrievable_witness :
  parallel_config !! "branches" = Some (PDict parallel_branches)
  /\ exists node,
       Nodes.ParallelNode_init empty_create_graph "p" "p" parallel_config None = Ok node
       /\ get_branch_by_name node "p.a" = Ok (mkGraph PNone (Some "p.a") []).
Proof.
  assert (Hconfig : parallel_config !! "branches" = Some (PDict parallel_branches))
    by (vm_compute; reflexivity).
  split; [exact Hconfig|].
  destruct (Nodes.ParallelNode_init empty_create_graph "p" "p" parallel_config None)
    as [node|e] eqn:Hinit; [|vm_compute in Hinit; discriminate Hinit].
  exists node. split; [reflexivity|].
  assert (Hnodup : NoDup (map fst parallel_branches))
    by (apply (bool_decide_unpack _); vm_compute; exact I).
  destruct (ParallelNode_branches_retrievable empty_create_graph "p" "p" parallel_config
              None parallel_branches node Hconfig Hnodup Hinit) as [_ Hall].
  destruct (Hall "a" PNone) as (g & Hg & Hget); [left|].
  injection Hg as <-. exact Hget.
Defined.

Lemma execute_node_composite_witness :
  is_leaf map_m = false
  /\ catalog_syncs map_m "r1"
  /\ Nodes.get_max_attempts (base map_m) = Ok 1%Z
  /\ Datastore.get_step_log store_xs "m" "r1"
     = Ok (set_step_type "map" (Datastore.create_step_log "m" "m"))
  /\ exists ex' added,
       Executors.execute_node map_m None (executor_with "r1" None store_xs graph_t1)
       = Ok ex'
       /\ Datastore.get_step_log (run_log_store ex') "m" "r1"
          = Ok (set_data_catalogs added
                  (set_step_status FAIL
                     (set_step_type "map" (Datastore.create_step_log "m" "m")))).
Proof.
  assert (Hsync : catalog_syncs map_m "r1").
  { intros step_log stage synced_catalogs ex [-> | ->] _; vm_compute; reflexivity. }
  split; [reflexivity|]. split; [exact Hsync|]. split; [vm_compute; reflexivity|].
  split; [vm_compute; reflexivity|].
  apply (execute_node_composite map_m None (executor_with "r1" None store_xs graph_t1)
           1 "m" (set_step_type "map" (Datastore.create_step_log "m" "m"))).
  - reflexivity.
  - exact Hsync.
  - vm_compute; reflexivity.
  - lia.
  - reflexivity.
  - vm_compute; reflexivity.
  - reflexivity.
Defined.

Lemma execute_node_publishes_parameters_witness :
  store_t1 !! "r1" = Some (run_with_steps "r1" [Datastore.create_step_log "t1" "t1"])
  /\ catalog_syncs (TaskNode (task_with_catalog "t1" "echo hi" (PInt 1) "success")) "r1"
  /\ exists ex' stored,
       Executors.execute_node
         (TaskNode (task_with_catalog "t1" "echo hi" (PInt 1) "success")) None
         (executor_with "r1" None store_t1 graph_t1) = Ok ex'
       /\ environ ex' = ∅
       /\ Datastore.get_parameters (run_log_store ex') "r1" = Ok stored.
Proof.
  assert (Hr : store_t1 !! "r1"
               = Some (run_with_steps "r1" [Datastore.create_step_log "t1" "t1"]))
    by (vm_compute; reflexivity).
  assert (Hsync : catalog_syncs
                    (TaskNode (task_with_catalog "t1" "echo hi" (PInt 1) "success")) "r1").
  { intros step_log stage synced_catalogs ex [-> | ->] _; vm_compute; reflexivity. }
  split; [exact Hr|]. split; [exact Hsync|].
  destruct (execute_node_publishes_parameters
              (task_with_catalog "t1" "echo hi" (PInt 1) "success") None
              (executor_with "r1" None store_t1 graph_t1) 1 "t1"
              (Datastore.create_step_log "t1" "t1")
              (run_with_steps "r1" [Datastore.create_step_log "t1" "t1"])
              (PStr "echo hi") ∅)
    as (ex' & stored & Hexec & Henv & Hget & _).
  - vm_compute; reflexivity.
  - lia.
  - reflexivity.
  - exact Hr.
  - vm_compute; reflexivity.
  - reflexivity.
  - vm_compute; reflexivity.
  - reflexivity.
  - exact Hsync.
  - exists ex', stored. split; [exact Hexec|]. split; [exact Henv|exact Hget].
Defined.

Lemma execute_node_retry_namespace_witness :
  run_command 1 (PStr "flaky") None ∅ = Raise (Exception "non-zero exit")
  /\ run_command 2 (PStr "flaky") None ∅ = Ok ∅
  /\ catalog_syncs (TaskNode (task_with "t1" "flaky" (Some (PInt 3)) "success")) "r1"
  /\ exists ex' step_log',
       Executors.execute_node (TaskNode (task_with "t1" "flaky" (Some (PInt 3)) "success"))
         None (count_command (executor_with "r1" None store_t1 graph_t1)) = Ok ex'
       /\ Datastore.get_step_log (run_log_store ex') "t1" "r1" = Ok step_log'
       /\ sl_status step_log' = SUCCESS
       /\ map al_status (attempts step_log') = [FAIL; SUCCESS].
Proof.
  assert (Hsync : catalog_syncs
                    (TaskNode (task_with "t1" "flaky" (Some (PInt 3)) "success")) "r1").
  { intros step_log stage synced_catalogs ex [-> | ->] _; vm_compute; reflexivity. }
  split; [reflexivity|]. split; [reflexivity|]. split; [exact Hsync|].
  destruct (execute_node_retry_namespace
              (task_with "t1" "flaky" (Some (PInt 3)) "success") None
              (count_command (executor_with "r1" None store_t1 graph_t1)) 3 "t1"
              (Datastore.create_step_log "t1" "t1")
              (run_with_steps "r1" [Datastore.create_step_log "t1" "t1"])
              (PStr "flaky") (Exception "non-zero exit") ∅)
    as (ex' & step_log' & Hexec & Hget & Hstatus & Hattempts & _).
  - vm_compute; reflexivity.
  - lia.
  - reflexivity.
  - vm_compute; reflexivity.
  - vm_compute; reflexivity.
  - reflexivity.
  - reflexivity.
  - vm_compute; reflexivity.
  - reflexivity.
  - reflexivity.
  - exact Hsync.
  - exists ex', step_log'. split; [exact Hexec|]. split; [exact Hget|].
    split; [exact Hstatus|exact Hattempts].
Defined.

Lemma execute_from_graph_leaf_final_witness :
  is_leaf t1_node = true
  /\ catalog_syncs t1_node "r1"
  /\ exists ex' step_log,
       Executors.execute_from_graph (fun g mv ex => Raise OutOfFuel) t1_node None
         (executor_with "r1" None store_r1_empty graph_t1) = Ok (ex', None)
       /\ run_id ex' = "r1"
       /\ Datastore.get_step_log (run_log_store ex') "t1" "r1" = Ok step_log
       /\ mock step_log = false
       /\ attempts step_log <> []
       /\ (sl_status step_log = SUCCESS \/ sl_status step_log = FAIL).
Proof.
  assert (Hsync : catalog_syncs t1_node "r1").
  { intros step_log stage synced_catalogs ex [-> | ->] _; vm_compute; reflexivity. }
  split; [reflexivity|]. split; [exact Hsync|].
  apply (execute_from_graph_leaf_final (fun g mv ex => Raise OutOfFuel) t1_node None
           (executor_with "r1" None store_r1_empty graph_t1) 1 "t1").
  - reflexivity.
  - reflexivity.
  - eexists. vm_compute. reflexivity.
  - vm_compute; reflexivity.
  - lia.
  - reflexivity.
  - exact Hsync.
Defined.

Lemma get_status_and_next_node_name_no_fail_node_witness :
  Datastore.get_step_log store_t1_failed "t1" "r1"
  = Ok (set_step_status FAIL (Datastore.create_step_log "t1" "t1"))
  /\ GraphOps.get_fail_node graph_no_fail = Raise (Exception "No fail node defined")
  /\ Executors.get_status_and_next_node_name t1_node graph_no_fail None
       (executor_with "r1" None store_t1_failed graph_no_fail)
     = Raise (Exception "No fail node defined").
Proof.
  split; [vm_compute; reflexivity|]. split; [vm_compute; reflexivity|].
  apply (get_status_and_next_node_name_no_fail_node t1_node graph_no_fail None
           (executor_with "r1" None store_t1_failed graph_no_fail) "t1"
           (set_step_status FAIL (Datastore.create_step_log "t1" "t1"))).
  - reflexivity.
  - vm_compute; reflexivity.
  - reflexivity.
  - vm_compute; reflexivity.
Defined.

Lemma execute_graph_self_loop_witness :
  GraphOps.get_node_by_name graph_loop (start_at graph_loop)
  = Ok (TaskNode (task_with "t1" "echo hi" None "t1"))
  /\ Executors.execute_graph 2 graph_loop None
       (executor_with "r1" None store_r1_empty graph_loop)
     = Raise (Exception "Potentially running in a infinite loop").
Proof.
  split; [vm_compute; reflexivity|].
  apply (execute_graph_self_loop 0 graph_loop
           (TaskNode (task_with "t1" "echo hi" None "t1")) None None
           (executor_with "r1" None store_r1_empty graph_loop)
           (match Executors.execute_from_graph (fun g mv ex => Raise OutOfFuel)
                    (TaskNode (task_with "t1" "echo hi" None "t1")) None
                    (executor_with "r1" None store_r1_empty graph_loop) with
            | Ok (ex1, _) => ex1
            | Raise _ => executor_with "r1" None store_r1_empty graph_loop
            end)
           SUCCESS).
  - vm_compute; reflexivity.
  - reflexivity.
  - intros execute_graph. vm_compute. reflexivity.
  - vm_compute; reflexivity.
  - discriminate.
Defined.

Lemma execute_returns_not_failed_witness :
  exists ex' run_log,
    Pipeline.execute 5 (executor_with "r1" None ∅ graph_t1) None false false ∅ = Ok ex'
    /\ run_log_store ex' !! run_id ex' = Some run_log
    /\ rl_status run_log <> FAIL.
Proof.
  destruct (Pipeline.execute 5 (executor_with "r1" None ∅ graph_t1) None false false ∅)
    as [ex'|e] eqn:Hrun; [|vm_compute in Hrun; discriminate Hrun].
  destruct (execute_returns_not_failed 5 (executor_with "r1" None ∅ graph_t1) ex'
              None false false ∅ Hrun) as (run_log & Hlog & Hstatus).
  exists ex', run_log. split; [reflexivity|]. split; [exact Hlog|exact Hstatus].
Defined.

Lemma prepare_branch_logs_processing_witness :
  exists st run_log st' l,
    Datastore.add_step_log store_r1_empty
      (set_step_status PROCESSING
         (set_step_type "parallel" (Datastore.create_step_log "p" "p"))) "r1" = Ok st
    /\ st !! "r1" = Some run_log
    /\ is_Some (steps run_log !! parent_step_name "p.a")
    /\ is_Some (steps run_log !! parent_step_name "p.b")
    /\ Nodes.prepare_branch_logs (fun kv : string * Graph => Ok (fst kv)) branches_p
         st "r1" = Ok st'
    /\ Datastore.get_branch_log st' (Some "p.b") "r1" = Ok l
    /\ log_status l = PROCESSING.
Proof.
  destruct (Datastore.add_step_log store_r1_empty
              (set_step_status PROCESSING
                 (set_step_type "parallel" (Datastore.create_step_log "p" "p"))) "r1")
    as [st|e] eqn:Hadd; [|vm_compute in Hadd; discriminate Hadd].
  destruct (st !! "r1") as [run_log|] eqn:Hr;
    [|vm_compute in Hadd; injection Hadd as <-; vm_compute in Hr; discriminate Hr].
  assert (Ha : is_Some (steps run_log !! parent_step_name "p.a")).
  { vm_compute in Hadd. injection Hadd as <-. vm_compute in Hr. injection Hr as <-.
    vm_compute. eexists. reflexivity. }
  assert (Hb : is_Some (steps run_log !! parent_step_name "p.b")).
  { vm_compute in Hadd. injection Hadd as <-. vm_compute in Hr. injection Hr as <-.
    vm_compute. eexists. reflexivity. }
  destruct (prepare_branch_logs_processing (fun kv : string * Graph => Ok (fst kv))
              branches_p st "r1" run_log Hr)
    as (st' & run_log' & Hprep & _ & _ & _ & _ & Hall).
  - repeat constructor.
  - intros x branch_name [<-|[<-|[]]] [= <-]; [exact Ha|exact Hb].
  - destruct (Hall ("p.b", empty_graph) "p.b") as (l & Hget & Hstatus).
    + right. left. reflexivity.
    + reflexivity.
    + discriminate.
    + exists st, run_log, st', l. split; [reflexivity|]. split; [exact Hr|].
      split; [exact Ha|]. split; [exact Hb|].
      split; [exact Hprep|]. split; [exact Hget|exact Hstatus].
Defined.

Lemma MapNode_empty_iterable_witness :
  Datastore.get_parameters store_xs_empty "r1" = Ok {[ "xs" := PList [] ]}
  /\ exists ex' run_log',
       Nodes.execute_as_graph (fun g mv ex => Raise OutOfFuel) map_m None
         (executor_with "r1" None store_xs_empty graph_t1) = Ok (ex', None)
       /\ run_log_store ex' !! "r1" = Some run_log'
       /\ steps run_log' !! "m"
          = Some (set_step_status SUCCESS
                    (set_step_type "map" (Datastore.create_step_log "m" "m")))
       /\ branches run_log' = ∅.
Proof.
  split; [vm_compute; reflexivity|].
  apply (MapNode_empty_iterable (fun g mv ex => Raise OutOfFuel) (terminal_base "m")
           "xs" (PStr "x") empty_graph None
           (executor_with "r1" None store_xs_empty graph_t1)
           (set_run_parameters {[ "xs" := PList [] ]}
              (run_with_steps "r1"
                 [set_step_type "map" (Datastore.create_step_log "m" "m")]))
           "m" (set_step_type "map" (Datastore.create_step_log "m" "m"))).
  - vm_compute; reflexivity.
  - vm_compute; reflexivity.
  - reflexivity.
  - vm_compute; reflexivity.
  - reflexivity.
Defined.

Lemma run_iterations_falsy_map_variable_witness :
  Nodes.run_iterations (fun g mv ex => Ok (ex, mv)) (PStr "x") empty_graph
    [PInt 1; PInt 2] (Some []) (executor_with "r1" None store_r1_empty graph_t1)
  = Ok (executor_with "r1" None store_r1_empty graph_t1, Some [])
  /\ (Some [] : map_variable) = Some [].
Proof.
  assert (Hrun : Nodes.run_iterations (fun g mv ex => Ok (ex, mv)) (PStr "x") empty_graph
                   [PInt 1; PInt 2] (Some [])
                   (executor_with "r1" None store_r1_empty graph_t1)
                 = Ok (executor_with "r1" None store_r1_empty graph_t1, Some []))
    by reflexivity.
  split; [exact Hrun|].
  exact (run_iterations_falsy_map_variable (fun g mv ex => Ok (ex, mv)) (PStr "x")
           empty_graph [PInt 1; PInt 2] (Some []) (Some [])
           (executor_with "r1" None store_r1_empty graph_t1)
           (executor_with "r1" None store_r1_empty graph_t1) eq_refl Hrun).
Defined.

Lemma sync_catalog_last_pattern_witness :
  config (base catalog_task) !! "catalog"
  = Some (PDict [("get", PList [PStr "a.csv"; PStr "b.csv"])])
  /\ Catalog.sync_catalog pyval "local" (PStr "data") echo_handler catalog_task []
       "get" None (executor_with "r1" None store_t1 graph_t1)
     = Ok (Some [PStr "b.csv"], [PStr "b.csv"]).
Proof.
  split; [vm_compute; reflexivity|].
  apply (sync_catalog_last_pattern pyval "local" (PStr "data") echo_handler catalog_task
           [] "get" None (executor_with "r1" None store_t1 graph_t1)
           [("get", PList [PStr "a.csv"; PStr "b.csv"])] [PStr "a.csv"] (PStr "b.csv")
           [PStr "b.csv"] (PStr "data")).
  - reflexivity.
  - left. reflexivity.
  - vm_compute; reflexivity.
  - reflexivity.
  - repeat constructor.
  - reflexivity.
Defined.

Lemma sync_catalog_nothing_to_sync_witness :
  config (base t1_node) !! "catalog" = None
  /\ Catalog.sync_catalog pyval "local" (PStr "data") echo_handler t1_node
       [PStr "kept"] "put" None (executor_with "r1" None store_t1 graph_t1)
     = Ok (None, [PStr "kept"]).
Proof.
  assert (Hnone : config (base t1_node) !! "catalog" = None) by (vm_compute; reflexivity).
  split; [exact Hnone|].
  apply (sync_catalog_nothing_to_sync pyval "local" (PStr "data") echo_handler t1_node
           [PStr "kept"] "put" None (executor_with "r1" None store_t1 graph_t1)).
  - right. reflexivity.
  - left. exact Hnone.
Defined.

Lemma container_trigger_job_final_witness :
  Datastore.get_step_log store_t1 "t1" "r1" = Ok (Datastore.create_step_log "t1" "t1")
  /\ exists ex',
       LocalContainerExecutor.trigger_job (fun node mv ex => Ok ex) t1_node None
         (executor_with "r1" None store_t1 graph_t1) = Ok ex'
       /\ Datastore.get_step_log (run_log_store ex') "t1" "r1"
          = Ok (set_step_status FAIL (Datastore.create_step_log "t1" "t1")).
Proof.
  split; [vm_compute; reflexivity|].
  apply (container_trigger_job_final (fun node mv ex => Ok ex) t1_node None
           (executor_with "r1" None store_t1 graph_t1)
           (executor_with "r1" None store_t1 graph_t1) "t1"
           (Datastore.create_step_log "t1" "t1")).
  - reflexivity.
  - reflexivity.
  - vm_compute; reflexivity.
  - reflexivity.
Defined.

Lemma renderer_prepare_keeps_run_log_witness :
  store_xs !! "r1"
  = Some (set_run_parameters {[ "xs" := PInt 3 ]}
            (run_with_steps "r1"
               [set_step_type "map" (Datastore.create_step_log "m" "m")]))
  /\ exists ex' run_log',
       DemoRenderer.prepare_for_node_execution t1_node None
         (executor_with "r1" None store_xs graph_t1) = Ok ex'
       /\ run_log_store ex' !! "r1" = Some run_log'
       /\ parameters run_log' = {[ "xs" := PInt 3 ]}
       /\ sl_status <$> steps run_log' !! "t1" = Some PROCESSING.
Proof.
  assert (Hr : store_xs !! "r1"
               = Some (set_run_parameters {[ "xs" := PInt 3 ]}
                         (run_with_steps "r1"
                            [set_step_type "map" (Datastore.create_step_log "m" "m")])))
    by (vm_compute; reflexivity).
  split; [exact Hr|].
  destruct (renderer_prepare_keeps_run_log t1_node None
              (executor_with "r1" None store_xs graph_t1) "t1" _ eq_refl Hr)
    as (ex' & run_log' & Hprep & Hlog & Hparams & _ & _ & Hstep & _).
  exists ex', run_log'. split; [exact Hprep|]. split; [exact Hlog|].
  split; [exact Hparams|]. now rewrite Hstep.
Defined.

Lemma renderer_trigger_job_outcome_witness :
  is_leaf t1_node = true
  /\ catalog_syncs t1_node "r1"
  /\ ((exists ex' step_log,
         DemoRenderer.trigger_job t1_node None (executor_with "r1" None ∅ graph_t1)
         = Ok ex'
         /\ Datastore.get_step_log (run_log_store ex') "t1" "r1" = Ok step_log
         /\ sl_status step_log = SUCCESS)
      \/ DemoRenderer.trigger_job t1_node None (executor_with "r1" None ∅ graph_t1)
         = Raise (Exception "Step t1 failed")).
Proof.
  assert (Hsync : catalog_syncs t1_node "r1").
  { intros step_log stage synced_catalogs ex [-> | ->] _; vm_compute; reflexivity. }
  split; [reflexivity|]. split; [exact Hsync|].
  apply (renderer_trigger_job_outcome t1_node None (executor_with "r1" None ∅ graph_t1)
           1 "t1").
  - reflexivity.
  - vm_compute; reflexivity.
  - lia.
  - reflexivity.
  - exact Hsync.
Defined.

Lemma renderer_execute_graph_script_witness :
  DemoRenderer.execute_graph (fun n => name (base n)) 5 graph_t1
  = Ok (DemoRenderer.step_lines "t1" "fail" ++ ["success"])%list
  /\ follows_next graph_t1 (start_at graph_t1)
       ([t1_node] ++ [SuccessNode (terminal_base "success")])
  /\ exists fail_node,
       GraphOps.get_fail_node graph_t1 = Ok fail_node
       /\ (DemoRenderer.step_lines "t1" "fail" ++ ["success"])%list
          = (concat (map (fun n => DemoRenderer.step_lines (name (base n))
                                     (name (base fail_node))) [t1_node])
             ++ (if String.eqb (node_type (SuccessNode (terminal_base "success")))
                               "success"
                 then [name (base (SuccessNode (terminal_base "success")))]
                 else []))%list.
Proof.
  assert (Hrender : DemoRenderer.execute_graph (fun n => name (base n)) 5 graph_t1
                    = Ok (DemoRenderer.step_lines "t1" "fail" ++ ["success"])%list)
    by (vm_compute; reflexivity).
  assert (Hway : follows_next graph_t1 (start_at graph_t1)
                   ([t1_node] ++ [SuccessNode (terminal_base "success")])).
  { cbn [app follows_next]. split; [vm_compute; reflexivity|].
    split; [vm_compute; reflexivity|exact I]. }
  split; [exact Hrender|]. split; [exact Hway|].
  destruct (renderer_execute_graph_script (fun n => name (base n)) 5 graph_t1 _ Hrender)
    as (fail_node & visited & last & Hfail & _ & _ & _ & _ & Hunique & Hscript).
  destruct (Hunique [t1_node] (SuccessNode (terminal_base "success")) Hway)
    as [Hvisited Hlast].
  - repeat constructor.
  - reflexivity.
  - exists fail_node. split; [exact Hfail|]. rewrite Hvisited, Hlast. exact Hscript.
Defined.

Lemma get_status_and_next_node_name_follows_edges_witness :
  Executors.get_status_and_next_node_name t1_node graph_t1 None
    (executor_with "r1" None store_t1_failed graph_t1) = Ok (FAIL, PStr "fail")
  /\ (In (PStr "fail") (Nodes.get_neighbours (base t1_node))
      \/ (FAIL = FAIL /\ exists fail_node,
            GraphOps.get_fail_node graph_t1 = Ok fail_node
            /\ PStr "fail" = PStr (name (base fail_node)))
      \/ truthy (PStr "fail") = false).
Proof.
  assert (Hnext : Executors.get_status_and_next_node_name t1_node graph_t1 None
                    (executor_with "r1" None store_t1_failed graph_t1)
                  = Ok (FAIL, PStr "fail")) by (vm_compute; reflexivity).
  split; [exact Hnext|].
  exact (get_status_and_next_node_name_follows_edges t1_node graph_t1 None
           (executor_with "r1" None store_t1_failed graph_t1) FAIL (PStr "fail") Hnext).
Defined.

Lemma get_max_attempts_never_zero_witness :
  Nodes.get_max_attempts (task_with "t1" "echo hi" (Some (PInt 0)) "success") = Ok 1%Z
  /\ 1%Z <> 0%Z.
Proof.
  assert (Hmax : Nodes.get_max_attempts (task_with "t1" "echo hi" (Some (PInt 0)) "success")
                 = Ok 1%Z) by (vm_compute; reflexivity).
  split; [exact Hmax|].
  exact (proj1 (get_max_attempts_never_zero
                  (task_with "t1" "echo hi" (Some (PInt 0)) "success") 1 Hmax)).
Defined.

Lemma forced_rerun_inherits_parameters_witness :
  Datastore.get_run_log_by_id {[ "r1" := previous_other_dag ]} "r1" = Ok previous_other_dag
  /\ exists mode_executor' run_log,
       Pipeline.attach_previous_run
         (executor_with "r2" None {[ "r1" := previous_other_dag ]} graph_t1)
         (Some "r1") false true = Ok mode_executor'
       /\ run_log_store (Pipeline.prepare_for_graph_execution mode_executor') !! "r2"
          = Some run_log
       /\ original_run_id run_log = Some "r1"
       /\ rl_use_cached run_log = true.
Proof.
  assert (Hprev : Datastore.get_run_log_by_id {[ "r1" := previous_other_dag ]} "r1"
                  = Ok previous_other_dag) by (vm_compute; reflexivity).
  split; [exact Hprev|].
  destruct (forced_rerun_inherits_parameters
              (executor_with "r2" None {[ "r1" := previous_other_dag ]} graph_t1)
              "r1" false previous_other_dag Hprev)
    as (mode_executor' & run_log & Hattach & Hlog & Hid & Hcached & _).
  exists mode_executor', run_log. split; [exact Hattach|]. split; [exact Hlog|].
  split; [exact Hid|exact Hcached].
Defined.
